(** * Trade-log assistant: ledger synchronisation and conversational pipeline

    A shallow embedding of the TypeScript sources

      - [server/src/sheets.ts]  (row mapper, capacity manager, slot finder),
      - [server/src/agent.ts]   (intent resolver, reply composer),
      - [server/src/index.ts]   (manual parser, summariser, orchestrator),
      - [api/chat.ts]           (the single-file serverless variant),
      - the [App] component     (the send guard of the chat client),

    followed by the properties of the specification that concern them and
    by further properties of the same code.

    Conventions.
      - A JavaScript string is a Rocq [string].  The embedding is exact on
        ASCII text; the only non-ASCII character the program mentions, the
        bullet U+2022, is recognised through its UTF-8 bytes.  White space
        and case mapping outside ASCII are not modelled.
      - A JavaScript number is an IEEE 754 binary64 value, Rocq's primitive
        [float].  Grid sizes and row numbers, which are small non-negative
        integers in the program, are in [Z].
      - [undefined] and [null] are [None].
      - Awaited calls to the outside world (Google Sheets, the completion
        service, the search service) are nodes of a free monad [Prog]; a run
        is driven by an oracle that answers, or rejects, each call. *)

From Stdlib Require Import ZArith String Ascii List Floats Bool Lia.
From Stdlib Require Import DecimalString.
From stdpp Require Import gmap strings list.

Set Warnings "-register-all,-inexact-float".

Local Open Scope string_scope.
Local Open Scope list_scope.
Local Open Scope bool_scope.

(* ================================================================== *)
(** * ECMAScript built-ins used by the program *)
(* ================================================================== *)

Module JS.

(** ** Characters *)

Definition LF : ascii := ascii_of_nat 10.
Definition CR : ascii := ascii_of_nat 13.
Definition nl : string := String LF "".

Definition code (c : ascii) : nat := nat_of_ascii c.

Definition between (lo hi n : nat) : bool := Nat.leb lo n && Nat.leb n hi.

(** [WhiteSpace] and [LineTerminator] of the ASCII range: what [trim] removes
    and what the regular expression class [\s] matches. *)
Definition isWhiteSpace (c : ascii) : bool :=
  between 9 13 (code c) || Nat.eqb (code c) 32.

(** What the regular expression [.] does not match. *)
Definition isLineTerminator (c : ascii) : bool :=
  Nat.eqb (code c) 10 || Nat.eqb (code c) 13.

Definition isDigit (c : ascii) : bool := between 48 57 (code c).

Definition lowerChar (c : ascii) : ascii :=
  if between 65 90 (code c) then ascii_of_nat (code c + 32) else c.

Definition upperChar (c : ascii) : ascii :=
  if between 97 122 (code c) then ascii_of_nat (code c - 32) else c.

(** ** Strings *)

Fixpoint mapChars (f : ascii -> ascii) (s : string) : string :=
  match s with
  | EmptyString => EmptyString
  | String c r => String (f c) (mapChars f r)
  end.

Definition toLowerCase : string -> string := mapChars lowerChar.
Definition toUpperCase : string -> string := mapChars upperChar.

Fixpoint filterChars (p : ascii -> bool) (s : string) : string :=
  match s with
  | EmptyString => EmptyString
  | String c r => if p c then String c (filterChars p r) else filterChars p r
  end.

Fixpoint existsChar (p : ascii -> bool) (s : string) : bool :=
  match s with
  | EmptyString => false
  | String c r => p c || existsChar p r
  end.

Definition isEmpty (s : string) : bool :=
  match s with EmptyString => true | _ => false end.

(** Truthiness of a string: [Boolean(s)]. *)
Definition truthy (s : string) : bool := negb (isEmpty s).

Fixpoint trimStart (s : string) : string :=
  match s with
  | EmptyString => EmptyString
  | String c r => if isWhiteSpace c then trimStart r else s
  end.

Fixpoint trimEnd (s : string) : string :=
  match s with
  | EmptyString => EmptyString
  | String c r =>
      let r' := trimEnd r in
      if isWhiteSpace c && isEmpty r' then EmptyString else String c r'
  end.

Definition trim (s : string) : string := trimEnd (trimStart s).

Definition startsWith (s p : string) : bool := String.prefix p s.

(** [s.includes(sub)] *)
Fixpoint includes (s sub : string) : bool :=
  String.prefix sub s ||
  match s with
  | EmptyString => false
  | String _ r => includes r sub
  end.

(** [parts.join(sep)] *)
Definition join (sep : string) (parts : list string) : string :=
  String.concat sep parts.

(** [s.split(/\r?\n/)]: a line feed, together with a carriage return that
    immediately precedes it, separates two pieces; a lone carriage return
    stays in its piece. *)
Fixpoint splitLines (s : string) : list string :=
  let cons_char c pieces :=
    match pieces with
    | [] => [String c EmptyString]
    | p :: ps => String c p :: ps
    end in
  match s with
  | EmptyString => [EmptyString]
  | String c r =>
      if Nat.eqb (code c) 10 then EmptyString :: splitLines r
      else
        match r with
        | String c' r' =>
            if Nat.eqb (code c) 13 && Nat.eqb (code c') 10
            then EmptyString :: splitLines r'
            else cons_char c (splitLines r)
        | EmptyString => cons_char c (splitLines r)
        end
  end.

(** ** Numbers *)

Definition number := float.

(** [Number.isFinite(x)] *)
Definition isFinite (x : number) : bool := PrimFloat.is_finite x.

(** [x === 0]; holds of both zeros, not of NaN. *)
Definition isZero (x : number) : bool := PrimFloat.eqb x 0%float.

(** Truthiness of a number: false for [0], [-0] and [NaN]. *)
Definition truthyNumber (x : number) : bool :=
  negb (isZero x || PrimFloat.is_nan x).

(** The binary64 value nearest to [num / den] (ties to even), for
    [0 < num] and [0 < den].  The quotient is cut to an integer mantissa
    of at least 56 bits; a lost remainder is kept as a sticky low bit, so
    the final rounding to 53 bits sees on which side of every midpoint the
    exact quotient lies. *)
Definition roundRatio (negative : bool) (num den : Z) : number :=
  let k := Z.max 0 (56 + Z.log2 den - Z.log2 num) in
  let scaled := (num * 2 ^ k)%Z in
  let q := (scaled / den)%Z in
  let sticky := if (scaled mod den =? 0)%Z then 0%Z else 1%Z in
  let m := (2 * q + sticky)%Z in
  SF2Prim (binary_normalize 53 1024 (if negative then - m else m)%Z
             (- k - 1)%Z negative).

Definition digitValue (c : ascii) : Z := Z.of_nat (code c - 48).

Fixpoint digitsValue (acc : Z) (s : string) : Z :=
  match s with
  | EmptyString => acc
  | String c r => digitsValue (10 * acc + digitValue c)%Z r
  end.

(** Longest prefix of decimal digits, and what follows it. *)
Fixpoint spanDigits (s : string) : string * string :=
  match s with
  | EmptyString => (EmptyString, EmptyString)
  | String c r =>
      if isDigit c
      then let '(d, rest) := spanDigits r in (String c d, rest)
      else (EmptyString, s)
  end.

Definition decimalValue (negative : bool) (int frac : string) : number :=
  let num := digitsValue 0 (int +:+ frac) in
  let den := (10 ^ Z.of_nat (String.length frac))%Z in
  if (num =? 0)%Z then (if negative then (-0)%float else 0%float)
  else roundRatio negative num den.

(** [Number(s)] for a string [s] over the alphabet [0-9], [.] and [-], the
    only strings [parseMoney] passes to it.  The empty string is [0]; an
    optional minus sign followed by [digits], [digits.], [digits.digits]
    or [.digits] is that decimal, rounded to nearest; everything else is
    [NaN]. *)
Definition Number (s : string) : number :=
  match s with
  | EmptyString => 0%float
  | _ =>
      let '(negative, body) :=
        match s with
        | String "-"%char r => (true, r)
        | _ => (false, s)
        end in
      let '(int, rest) := spanDigits body in
      match rest with
      | EmptyString =>
          if isEmpty int then PrimFloat.nan else decimalValue negative int ""
      | String "."%char after =>
          let '(frac, rest') := spanDigits after in
          if negb (isEmpty rest') then PrimFloat.nan
          else if isEmpty int && isEmpty frac then PrimFloat.nan
          else decimalValue negative int frac
      | _ => PrimFloat.nan
      end
  end.

(** The number that an array length or a counter is. *)
Definition ofNat (n : nat) : number :=
  SF2Prim (binary_normalize 53 1024 (Z.of_nat n) 0 false).

(** The decimal digits of a non-negative integer. *)
Definition digitsOfZ (n : Z) : string :=
  NilZero.string_of_uint (N.to_uint (Z.to_N n)).

(** [Math.round]-like step of [toFixed]: the integer [n] for which
    [n / 100 - x] is closest to zero, the larger one on a tie, for a finite
    [x >= 0] given by its exact mantissa and exponent. *)
Definition scaledHundredths (x : number) : Z :=
  match Prim2SF x with
  | S754_finite _ m e =>
      if (0 <=? e)%Z then (Z.pos m * 2 ^ e * 100)%Z
      else ((Z.pos m * 200 + 2 ^ (- e)) / 2 ^ (- e + 1))%Z
  | _ => 0%Z
  end.

(** Left-pads [s] with zeros to at least [width] characters. *)
Definition padZeros (width : nat) (s : string) : string :=
  String.concat "" (repeat "0" (width - String.length s)) +:+ s.

Section WithNumberToString.

(** [Number::toString], the decimal rendering behind [String(x)] and
    template literals. *)
Variable numberToString : number -> string.

(** [x.toFixed(2)] *)
Definition toFixed2 (x : number) : string :=
  if negb (isFinite x) then numberToString x
  else if PrimFloat.leb 1e21%float (PrimFloat.abs x) then numberToString x
  else
    let negative := PrimFloat.ltb x 0%float in
    let n := scaledHundredths (PrimFloat.abs x) in
    let digits := padZeros 3 (digitsOfZ n) in
    let k := (String.length digits - 2)%nat in
    (if negative then "-" else "") +:+
    String.substring 0 k digits +:+ "." +:+ String.substring k 2 digits.

End WithNumberToString.

End JS.

(* ================================================================== *)
(** * Data model ([types.ts], and the types declared in [agent.ts]) *)
(* ================================================================== *)

Abbreviation number := JS.number.

(** ["buy" | "sell"] *)
Inductive TransactionType := buy | sell.

Definition typeText (t : TransactionType) : string :=
  match t with buy => "buy" | sell => "sell" end.

(** [TradeInput].  Every field is required by the interface; [totalAmount]
    is kept optional because [buildRow] guards it with [Number.isFinite],
    which an absent value fails like a non-finite one. *)
Record TradeInput := {
  symbol : string;
  transactionType : TransactionType;
  quantity : number;
  amountPerUnit : number;
  totalAmount : option number;
  tradingFees : number;
  investmentAccount : string;
  date : string
}.

(** [SummaryQuery]; [null] and [undefined] are both [None]. *)
Record SummaryQuery := {
  q_symbol : option string;
  q_startDate : option string;
  q_endDate : option string
}.

Definition emptyQuery : SummaryQuery :=
  {| q_symbol := None; q_startDate := None; q_endDate := None |}.

(** [TradeLogConfig.columns]; the serverless variant declares every column
    optional, and [buildRow] tests each one before using it. *)
Record Columns := {
  c_date : option string;
  c_transactionType : option string;
  c_symbol : option string;
  c_quantity : option string;
  c_amountPerUnit : option string;
  c_totalAmount : option string;
  c_tradingFees : option string;
  c_investmentAccount : option string
}.

Record TradeLogConfig := {
  sheetName : string;
  headerRow : Z;
  dataStartRow : option Z;
  columns : Columns
}.

(** [Record<string, number>]: header text to zero-based column. *)
Abbreviation HeaderIndex := (gmap string nat).

(** A row read back from the sheet, [Record<string, string>]. *)
Abbreviation TradeRow := (gmap string string).

Inductive ToolStatus := used | attempted | not_configured | error | skipped.

(** [ToolUsage], that is [{ linkup: { status, results } }]. *)
Record ToolUsage := {
  status : ToolStatus;
  results : nat
}.

Inductive Role := user | assistant.

Definition roleText (r : Role) : string :=
  match r with user => "user" | assistant => "assistant" end.

Record ChatMessage := {
  role : Role;
  content : string
}.

(** A thrown [Error].  [status] stands for the first defined one of
    [err.status], [err.code] and [err.response.status]; [apiStatus] and
    [apiMessage] for [err.response.data.error.status] and [.message]. *)
Record Error := {
  err_message : string;
  err_status : option Z;
  apiStatus : option string;
  apiMessage : option string
}.

(** [new Error(msg)] *)
Definition newError (msg : string) : Error :=
  {| err_message := msg; err_status := None; apiStatus := None; apiMessage := None |}.

(** Parsed JSON. An object keeps its members in source order. *)
Inductive json :=
| JNull
| JBool (b : bool)
| JNumber (x : number)
| JString (s : string)
| JArray (items : list json)
| JObject (members : list (string * json)).

(** Built-ins of the host that the embedding does not spell out. *)
Record Host := {
  (** [Number::toString], behind [String(x)] and template literals *)
  numberToString : number -> string;
  (** [JSON.parse]; [None] when it throws a [SyntaxError] *)
  JSON_parse : string -> option json;
  (** [JSON.stringify] *)
  JSON_stringify : json -> string;
  (** [new Date(s).getTime()], [NaN] for an invalid date *)
  Date_getTime : string -> number
}.

(* ================================================================== *)
(** * Awaited calls and the program monad *)
(* ================================================================== *)

(** One sheet of [spreadsheets.get], with the fields the program asks for;
    each from a response whose every level is optional. *)
Record GridProperties := {
  rowCount : option Z;
  columnCount : option Z
}.

Record SheetProperties := {
  sheetId : option Z;
  title : option string;
  gridProperties : option GridProperties
}.

Record LinkupSearchResult := {
  r_name : option string;
  r_url : option string;
  r_content : option string
}.

Record LinkupSearchResponse := {
  search_results : option (list LinkupSearchResult)
}.

(** The response of [fetch]: its [ok] flag and what [response.json()]
    resolves to, or rejects with. *)
Record FetchResponse := {
  ok : bool;
  body : Error + LinkupSearchResponse
}.

(** The requests the program awaits. *)
Inductive call :=
| ValuesGet (spreadsheetId range : string)
| SpreadsheetsGet (spreadsheetId fields : string)
| BatchUpdate (spreadsheetId : string) (sheet : Z) (rows cols : Z)
| ValuesUpdate (spreadsheetId range valueInputOption : string)
               (values : list (list string))
| ChatCompletion (apiKey model systemText userText : string)
                 (temperature : number)
| LinkupSearch (apiKey query : string).

(** What a fulfilled request resolves to:
    [response.data.values], [response.data.sheets] (each sheet's
    [properties]), nothing, nothing,
    [result.choices[0]?.message?.content], and the [fetch] response. *)
Definition answer (c : call) : Type :=
  match c with
  | ValuesGet _ _ => option (list (list string))
  | SpreadsheetsGet _ _ => option (list (option SheetProperties))
  | BatchUpdate _ _ _ _ => unit
  | ValuesUpdate _ _ _ _ => unit
  | ChatCompletion _ _ _ _ _ => option string
  | LinkupSearch _ _ => FetchResponse
  end.

(** Programs: pure results, thrown errors, awaited requests (fulfilled with
    an answer or rejected with an error), and reads and writes of the
    module-level [chatHistory]. *)
Inductive Prog (A : Type) : Type :=
| Ret (a : A)
| Throw (e : Error)
| Await (c : call) (k : Error + answer c -> Prog A)
| ReadHistory (k : list ChatMessage -> Prog A)
| WriteHistory (h : list ChatMessage) (k : Prog A).

Arguments Ret {A} a.
Arguments Throw {A} e.
Arguments Await {A} c k.
Arguments ReadHistory {A} k.
Arguments WriteHistory {A} h k.

Fixpoint bind {A B} (p : Prog A) (f : A -> Prog B) : Prog B :=
  match p with
  | Ret a => f a
  | Throw e => Throw e
  | Await c k => Await c (fun r => bind (k r) f)
  | ReadHistory k => ReadHistory (fun h => bind (k h) f)
  | WriteHistory h k => WriteHistory h (bind k f)
  end.

#[export] Instance Prog_ret : MRet Prog := @Ret.
#[export] Instance Prog_bind : MBind Prog := fun A B f p => bind p f.
#[export] Instance Prog_fmap : FMap Prog :=
  fun A B f p => bind p (fun a => Ret (f a)).

(** [try { p } catch (e) { handler e }] *)
Fixpoint tryCatch {A} (p : Prog A) (handler : Error -> Prog A) : Prog A :=
  match p with
  | Ret a => Ret a
  | Throw e => handler e
  | Await c k => Await c (fun r => tryCatch (k r) handler)
  | ReadHistory k => ReadHistory (fun h => tryCatch (k h) handler)
  | WriteHistory h k => WriteHistory h (tryCatch k handler)
  end.

(** [await request]: a rejection is thrown at the [await]. *)
Definition await (c : call) : Prog (answer c) :=
  Await c (fun r => match r with inl e => Throw e | inr a => Ret a end).

(** A synchronous computation that may throw. *)
Definition lift {A} (r : Error + A) : Prog A :=
  match r with inl e => Throw e | inr a => Ret a end.

(** ** Runs *)

(** The outside world: how the [n]-th request of a run is answered. *)
Definition Oracle := nat -> forall c : call, Error + answer c.

Record World := {
  chatHistory : list ChatMessage;
  requests : list call
}.

Inductive Outcome (A : Type) :=
| Returned (a : A)
| Thrown (e : Error).

Arguments Returned {A} a.
Arguments Thrown {A} e.

Fixpoint run {A} (o : Oracle) (p : Prog A) (w : World) : Outcome A * World :=
  match p with
  | Ret a => (Returned a, w)
  | Throw e => (Thrown e, w)
  | Await c k =>
      run o (k (o (length (requests w)) c))
        {| chatHistory := chatHistory w; requests := requests w ++ [c] |}
  | ReadHistory k => run o (k (chatHistory w)) w
  | WriteHistory h k =>
      run o k {| chatHistory := h; requests := requests w |}
  end.

(** [process.env] *)
Abbreviation Env := (gmap string string).

(** [a ?? b] *)
Definition orElse {A} (a : option A) (b : A) : A :=
  match a with Some x => x | None => b end.

Infix "??" := orElse (at level 45, left associativity).

(* ================================================================== *)
(** * [server/src/sheets.ts] *)
(* ================================================================== *)

Module Sheets.

Definition DEFAULT_INVESTMENT_ACCOUNT : string := "Interactive Brokers (IBKR)".

Definition VALID_TRANSACTION_TYPES : list string :=
  [ "Buy"; "Sell"; "Dividend"; "Split"; "Return of capital";
    "Cost Base Adj."; "Reinvested capital gain distribution" ].

Definition normalizeTransactionType (input : string) : string :=
  let trimmed := JS.trim input in
  match find (fun value =>
                String.eqb (JS.toLowerCase value) (JS.toLowerCase trimmed))
             VALID_TRANSACTION_TYPES with
  | Some value => value
  | None => trimmed
  end.

(** [VALID_TRANSACTION_TYPES.has(s)] *)
Definition isValidTransactionType (s : string) : bool :=
  existsb (String.eqb s) VALID_TRANSACTION_TYPES.

Definition requireEnv (env : Env) (name : string) : Error + string :=
  match env !! name with
  | Some value =>
      if JS.truthy value then inr value
      else inl (newError ("Missing required env var: " +:+ name))
  | None => inl (newError ("Missing required env var: " +:+ name))
  end.

(** The part of [SheetsContext] the program reads back. *)
Record SheetsContext := { clientEmail : string }.

Definition getSheetsContext (env : Env) : Error + SheetsContext :=
  match requireEnv env "GOOGLE_SHEETS_SERVICE_ACCOUNT_EMAIL" with
  | inl e => inl e
  | inr email =>
      match requireEnv env "GOOGLE_SHEETS_PRIVATE_KEY" with
      | inl e => inl e
      | inr _ => inr {| clientEmail := email |}
      end
  end.

Definition formatSheetsError
    (err : Error) (spreadsheetId clientEmail action : string) : Error :=
  if bool_decide (err_status err = Some 403%Z)
     || bool_decide (apiStatus err = Some "PERMISSION_DENIED")
  then newError
         ("Google Sheets permission denied while " +:+ action +:+
          " for spreadsheet " +:+ spreadsheetId +:+ ". " +:+
          "Share the sheet with the service account " +:+ clientEmail +:+ ".")
  else if bool_decide (err_status err = Some 404%Z)
          || bool_decide (apiStatus err = Some "NOT_FOUND")
  then newError
         ("Google Sheets spreadsheet not found while " +:+ action +:+ ". " +:+
          "Check GOOGLE_SHEETS_SPREADSHEET_ID (" +:+ spreadsheetId +:+ ").")
  else
    match apiMessage err with
    | Some m =>
        if JS.truthy m
        then newError ("Google Sheets error while " +:+ action +:+ ": " +:+ m)
        else err
    | None => err
    end.

(** [try { await request } catch (error) { throw formatSheetsError(...) }] *)
Definition awaitSheets
    (c : call) (spreadsheetId email action : string) : Prog (answer c) :=
  tryCatch (await c)
    (fun e => Throw (formatSheetsError e spreadsheetId email action)).

(** The header row, folded into an index from trimmed header text to
    column; a later column with the same text replaces an earlier one. *)
Definition indexHeaders (headers : list string) : HeaderIndex :=
  fold_left
    (fun index '(i, header) =>
       if JS.truthy (JS.trim header)
       then <[JS.trim header := i]> index
       else index)
    (imap (fun i header => (i, header)) headers) ∅.

Section WithConfig.

Context (host : Host) (env : Env) (config : TradeLogConfig).

Definition showZ (z : Z) : string :=
  (if (z <? 0)%Z then "-" else "") +:+ JS.digitsOfZ (Z.abs z).

Definition getHeaderIndex
    (context : SheetsContext) (spreadsheetId : string) : Prog HeaderIndex :=
  let range := sheetName config +:+ "!" +:+ showZ (headerRow config) +:+ ":"
               +:+ showZ (headerRow config) in
  values ← awaitSheets (ValuesGet spreadsheetId range) spreadsheetId
             (clientEmail context) "reading headers";
  let headers := (values ≫= head) ?? [] in
  mret (indexHeaders headers).

(** A cell value before it is written: [string | number | null |
    undefined]. *)
Inductive value :=
| VString (s : string)
| VNumber (x : number)
| VUndefined.

(** [value === null || value === undefined ? "" : String(value)] *)
Definition cellText (v : value) : string :=
  match v with
  | VString s => s
  | VNumber x => numberToString host x
  | VUndefined => ""
  end.

(** The [totalAmount] that [buildRow] writes. *)
Definition rowTotalAmount (trade : TradeInput) : number :=
  match totalAmount trade with
  | Some t =>
      if JS.isFinite t && negb (JS.isZero t) then t
      else PrimFloat.mul (quantity trade) (amountPerUnit trade)
  | None => PrimFloat.mul (quantity trade) (amountPerUnit trade)
  end.

Definition rowEntries (trade : TradeInput) (normalizedType : string)
    : list (option string * value) :=
  let c := columns config in
  [ (c_date c, VString (date trade));
    (c_transactionType c, VString normalizedType);
    (c_symbol c, VString (symbol trade));
    (c_quantity c, VNumber (quantity trade));
    (c_amountPerUnit c, VNumber (amountPerUnit trade));
    (c_totalAmount c, VNumber (rowTotalAmount trade));
    (c_tradingFees c, VNumber (tradingFees trade));
    (c_investmentAccount c, VString DEFAULT_INVESTMENT_ACCOUNT) ].

(** [header ? headerIndex[header] : undefined], kept when it is a number *)
Definition resolve (headerIndex : HeaderIndex) (header : option string)
    : option nat :=
  match header with
  | Some h => if JS.truthy h then headerIndex !! h else None
  | None => None
  end.

Definition resolvedIndices (headerIndex : HeaderIndex)
    (entries : list (option string * value)) : list nat :=
  omap (fun entry => resolve headerIndex (fst entry)) entries.

(** [entries.forEach(...)] writing into [row]; every index written is at
    most [maxIndex], so the assignment never extends the array. *)
Definition fillRow (headerIndex : HeaderIndex)
    (entries : list (option string * value)) (row : list string)
    : list string :=
  fold_left
    (fun row entry =>
       match resolve headerIndex (fst entry) with
       | Some idx => <[idx := cellText (snd entry)]> row
       | None => row
       end)
    entries row.

Definition InvalidTransactionType (t : TransactionType) : Error :=
  newError ("Invalid transaction type '" +:+ typeText t +:+ "'. " +:+
            "Use one of: " +:+ JS.join ", " VALID_TRANSACTION_TYPES +:+ ".").

Definition NoMatchingHeaders : Error :=
  newError "No matching headers found. Check trade-log.json column names.".

Definition buildRow (trade : TradeInput) (headerIndex : HeaderIndex)
    : Error + list string :=
  let normalizedType :=
    normalizeTransactionType (typeText (transactionType trade)) in
  if negb (isValidTransactionType normalizedType)
  then inl (InvalidTransactionType (transactionType trade))
  else
    let entries := rowEntries trade normalizedType in
    let indices := resolvedIndices headerIndex entries in
    match indices with
    | [] => inl NoMatchingHeaders
    | _ =>
        let maxIndex := max_list indices in
        let row := replicate (maxIndex + 1) "" in
        inr (fillRow headerIndex entries row)
    end.

Record SheetGrid := {
  g_sheetId : Z;
  g_rowCount : Z;
  g_columnCount : Z
}.

Definition SheetNotFound (spreadsheetId sheet : string) : Error :=
  newError ("Sheet '" +:+ sheet +:+ "' not found in spreadsheet " +:+
            spreadsheetId +:+ ".").

Definition hasTitle (sheet : string) (entry : option SheetProperties) : bool :=
  bool_decide ((entry ≫= title) = Some sheet).

(** The tail of [getSheetProperties], after the metadata has arrived. *)
Definition pickSheet (spreadsheetId sheet : string)
    (sheets : option (list (option SheetProperties))) : Error + SheetGrid :=
  let properties := (sheets ≫= find (hasTitle sheet)) ≫= id in
  let grid := properties ≫= gridProperties in
  match properties ≫= sheetId, grid with
  | Some sid, Some g =>
      if (sid =? 0)%Z then inl (SheetNotFound spreadsheetId sheet)
      else inr {| g_sheetId := sid;
                  g_rowCount := rowCount g ?? 0%Z;
                  g_columnCount := columnCount g ?? 0%Z |}
  | _, _ => inl (SheetNotFound spreadsheetId sheet)
  end.

(** The [fields] mask of the metadata request. *)
Definition gridFields : string :=
  "sheets.properties(sheetId,title,gridProperties(rowCount,columnCount))".

Definition getSheetProperties
    (context : SheetsContext) (spreadsheetId sheet : string)
    : Prog SheetGrid :=
  sheets ← awaitSheets (SpreadsheetsGet spreadsheetId gridFields)
             spreadsheetId (clientEmail context) "reading sheet metadata";
  lift (pickSheet spreadsheetId sheet sheets).

Definition ensureSheetCapacity
    (context : SheetsContext) (spreadsheetId sheet : string)
    (minRows minColumns : Z) : Prog unit :=
  grid ← getSheetProperties context spreadsheetId sheet;
  let targetRows := Z.max (g_rowCount grid) minRows in
  let targetColumns := Z.max (g_columnCount grid) minColumns in
  if (targetRows =? g_rowCount grid)%Z
     && (targetColumns =? g_columnCount grid)%Z
  then mret tt
  else
    awaitSheets
      (BatchUpdate spreadsheetId (g_sheetId grid) targetRows targetColumns)
      spreadsheetId (clientEmail context) "resizing the trade log sheet".

(** [!existingRow?.some((cell) => String(cell ?? "").trim())] *)
Definition isBlankRow (existingRow : list string) : bool :=
  negb (existsb (fun cell => JS.truthy (JS.trim cell)) existingRow).

(** [rows.findIndex(p)], with [None] for [-1]. *)
Fixpoint findIndex {A} (p : A -> bool) (l : list A) : option nat :=
  match l with
  | [] => None
  | x :: r => if p x then Some 0%nat else S <$> findIndex p r
  end.

Definition firstEmptyIndex (rows : list (list string)) : option nat :=
  findIndex isBlankRow rows.

Definition targetRow (rows : list (list string)) (dataStartRow : Z) : Z :=
  (dataStartRow +
   match firstEmptyIndex rows with
   | None => Z.of_nat (length rows)
   | Some i => Z.of_nat i
   end)%Z.

(** [config.dataStartRow ?? config.headerRow + 1] *)
Definition firstDataRow : Z :=
  dataStartRow config ?? (headerRow config + 1)%Z.

Definition appendTradeRow (trade : TradeInput) : Prog unit :=
  context ← lift (getSheetsContext env);
  spreadsheetId ← lift (requireEnv env "GOOGLE_SHEETS_SPREADSHEET_ID");
  headerIndex ← getHeaderIndex context spreadsheetId;
  row ← lift (buildRow trade headerIndex);
  let dataStartRow := firstDataRow in
  existing ← awaitSheets
               (ValuesGet spreadsheetId
                  (sheetName config +:+ "!A" +:+ showZ dataStartRow +:+ ":ZZ"))
               spreadsheetId (clientEmail context) "reading trade rows";
  let rows := existing ?? [] in
  let target := targetRow rows dataStartRow in
  ensureSheetCapacity context spreadsheetId (sheetName config)
    target (Z.of_nat (length row));;
  awaitSheets
    (ValuesUpdate spreadsheetId
       (sheetName config +:+ "!A" +:+ showZ target) "USER_ENTERED" [row])
    spreadsheetId (clientEmail context) "appending a trade row".

(** [row[idx] ? String(row[idx]) : ""] for every header. *)
Definition projectRow (headerIndex : HeaderIndex) (row : list string)
    : TradeRow :=
  (fun idx => (row !! idx) ?? "") <$> headerIndex.

Definition readTrades : Prog (list TradeRow) :=
  context ← lift (getSheetsContext env);
  spreadsheetId ← lift (requireEnv env "GOOGLE_SHEETS_SPREADSHEET_ID");
  headerIndex ← getHeaderIndex context spreadsheetId;
  let range := sheetName config +:+ "!A" +:+ showZ firstDataRow +:+ ":ZZ" in
  response ← awaitSheets (ValuesGet spreadsheetId range)
               spreadsheetId (clientEmail context) "reading trade rows";
  let rows := response ?? [] in
  mret (map (projectRow headerIndex) rows).

End WithConfig.

End Sheets.

(* ================================================================== *)
(** * [server/src/agent.ts] *)
(* ================================================================== *)

Module Agent.

(** The double quote, which a Rocq string literal cannot hold bare. *)
Definition dq : string := String (ascii_of_nat 34) "".

Definition quoted (s : string) : string := dq +:+ s +:+ dq.

(** ** The response schema *)

Inductive Action := log_trade | summarize | unknown.

Definition actionText (a : Action) : string :=
  match a with
  | log_trade => "log_trade"
  | summarize => "summarize"
  | unknown => "unknown"
  end.

(** What [interpretMessage] returns; [null] and [undefined] are [None]. *)
Record Interpretation := {
  action : Action;
  trade : option TradeInput;
  summary : option SummaryQuery
}.

Definition unknownAction : Interpretation :=
  {| action := unknown; trade := None; summary := None |}.

(** [obj[key]] on a parsed object: the last member with that name. *)
Definition member (key : string) (members : list (string * json)) : option json :=
  snd <$> last (filter (fun m => fst m = key) members).

(** [z.string()] *)
Definition zString (j : option json) : option string :=
  match j with Some (JString s) => Some s | _ => None end.

(** [z.number()]: a number that is not [NaN]. *)
Definition zNumber (j : option json) : option number :=
  match j with
  | Some (JNumber x) => if PrimFloat.is_nan x then None else Some x
  | _ => None
  end.

(** [z.enum(["buy", "sell"])] *)
Definition zTransactionType (j : option json) : option TransactionType :=
  match zString j with
  | Some s =>
      if String.eqb s "buy" then Some buy
      else if String.eqb s "sell" then Some sell
      else None
  | None => None
  end.

(** [z.enum(["log_trade", "summarize", "unknown"])] *)
Definition zAction (j : option json) : option Action :=
  match zString j with
  | Some s =>
      if String.eqb s "log_trade" then Some log_trade
      else if String.eqb s "summarize" then Some summarize
      else if String.eqb s "unknown" then Some unknown
      else None
  | None => None
  end.

(** [schema.nullable().optional()]: absent and [null] are accepted as
    they are, anything else has to satisfy [schema]. *)
Definition zNullableOptional {A} (schema : option json -> option A)
    (j : option json) : option (option A) :=
  match j with
  | None | Some JNull => Some None
  | Some _ => Some <$> schema j
  end.

(** The [trade] object of the schema. *)
Definition zTrade (j : option json) : option TradeInput :=
  match j with
  | Some (JObject o) =>
      d ← zString (member "date" o);
      t ← zTransactionType (member "transactionType" o);
      s ← zString (member "symbol" o);
      q ← zNumber (member "quantity" o);
      a ← zNumber (member "amountPerUnit" o);
      total ← zNumber (member "totalAmount" o);
      f ← zNumber (member "tradingFees" o);
      acc ← zString (member "investmentAccount" o);
      Some {| symbol := s; transactionType := t; quantity := q;
              amountPerUnit := a; totalAmount := Some total;
              tradingFees := f; investmentAccount := acc; date := d |}
  | _ => None
  end.

(** The [summary] object of the schema. *)
Definition zSummary (j : option json) : option SummaryQuery :=
  match j with
  | Some (JObject o) =>
      s ← zNullableOptional zString (member "symbol" o);
      from ← zNullableOptional zString (member "startDate" o);
      to ← zNullableOptional zString (member "endDate" o);
      Some {| q_symbol := s; q_startDate := from; q_endDate := to |}
  | _ => None
  end.

(** [responseSchema.safeParse(payload)]; [None] when [success] is false. *)
Definition safeParse (payload : json) : option Interpretation :=
  match payload with
  | JObject o =>
      a ← zAction (member "action" o);
      t ← zNullableOptional zTrade (member "trade" o);
      s ← zNullableOptional zSummary (member "summary" o);
      Some {| action := a; trade := t; summary := s |}
  | _ => None
  end.

(** ** Prompts *)

Definition systemPrompt : string :=
  JS.join JS.nl
    [ "";
      "You are a trading assistant connected to a Google Sheet named "
        +:+ quoted "Trade Log" +:+ ".";
      "Return ONLY valid JSON with these fields:";
      "- action: " +:+ quoted "log_trade" +:+ " | " +:+ quoted "summarize"
        +:+ " | " +:+ quoted "unknown";
      "- trade: object {";
      "  date (MM-DD-YYYY),";
      "  transactionType (buy or sell),";
      "  symbol,";
      "  quantity,";
      "  amountPerUnit,";
      "  totalAmount,";
      "  tradingFees,";
      "  investmentAccount";
      "} or null";
      "- summary: object { symbol, startDate, endDate } or null";
      "";
      "Rules:";
      "- Use " +:+ quoted "buy" +:+ " or " +:+ quoted "sell"
        +:+ " for transactionType.";
      "- quantity, amountPerUnit, totalAmount, tradingFees must be numbers.";
      "- If the user does not provide all trade fields, set action to "
        +:+ quoted "unknown" +:+ ".";
      "- If the user asks for a summary, set action to "
        +:+ quoted "summarize" +:+ ".";
      "- If the user wants to log a trade, set action to "
        +:+ quoted "log_trade" +:+ ".";
      "- If unclear, use " +:+ quoted "unknown" +:+ ".";
      "" ].

Definition replySystemPrompt : string :=
  JS.join JS.nl
    [ "";
      "You are a helpful trading assistant. Respond naturally to the user.";
      "If context JSON is provided, use it to craft a helpful response.";
      "If web search results are provided, use them for up-to-date info and cite the URL in parentheses.";
      "If action is " +:+ quoted "summarize"
        +:+ ", explain the summary in plain language.";
      "If action is " +:+ quoted "log_trade" +:+ ", confirm what was logged.";
      "If action is " +:+ quoted "unknown"
        +:+ ", ask a brief clarifying question.";
      "Required trade fields:";
      "- Date (MM-DD-YYYY)";
      "- Transaction Type (buy or sell)";
      "- Stock / ETF Symbol";
      "- Quantity of Units";
      "- Amount per unit";
      "- Total Amount (before trading fees)";
      "- Trading Fees";
      "- Investment Account";
      "Keep responses concise.";
      "" ].

(** ** Helpers *)

(** [text.indexOf(c)] *)
Fixpoint indexOf (c : ascii) (text : string) : option nat :=
  match text with
  | EmptyString => None
  | String c' r => if Ascii.eqb c' c then Some 0%nat else S <$> indexOf c r
  end.

(** [text.lastIndexOf(c)] *)
Fixpoint lastIndexOf (c : ascii) (text : string) : option nat :=
  match text with
  | EmptyString => None
  | String c' r =>
      match lastIndexOf c r with
      | Some i => Some (S i)
      | None => if Ascii.eqb c' c then Some 0%nat else None
      end
  end.

Definition extractJson (text : string) : option string :=
  match indexOf "{" text, lastIndexOf "}" text with
  | Some start, Some end_ =>
      if Nat.leb end_ start then None
      else Some (String.substring start (end_ + 1 - start) text)
  | _, _ => None
  end.

Definition formatHistory (history : list ChatMessage) : string :=
  JS.join JS.nl
    (map (fun entry => roleText (role entry) +:+ ": " +:+ content entry) history).

Definition defaultModel : string := "gpt-4o-mini".

(** [value?.trim() || fallback] *)
Definition trimmedOr (value : option string) (fallback : string) : string :=
  match value with
  | Some v => if JS.truthy (JS.trim v) then JS.trim v else fallback
  | None => fallback
  end.

Definition getOpenAiModel (env : Env) : string :=
  trimmedOr (env !! "OPENAI_MODEL") defaultModel.

(** The outcome of a search: [{ status, payload? }]. *)
Inductive LinkupSearchOutcome :=
| SearchNotConfigured
| SearchError
| SearchOk (payload : LinkupSearchResponse).

Definition shouldUseWebSearch (message : string) : bool :=
  let text := JS.toLowerCase message in
  JS.includes text "price" ||
  JS.includes text "quote" ||
  JS.includes text "stock price" ||
  JS.includes text "current price" ||
  JS.includes text "market price".

Definition MissingOpenAiKey : Error := newError "Missing OPENAI_API_KEY".

(** [process.env.OPENAI_API_KEY], thrown about when missing or empty. *)
Definition openAiKey (env : Env) : Error + string :=
  match env !! "OPENAI_API_KEY" with
  | Some k => if JS.truthy k then inr k else inl MissingOpenAiKey
  | None => inl MissingOpenAiKey
  end.

Definition defaultTools : ToolUsage := {| status := skipped; results := 0 |}.

Section WithHost.

Context (host : Host) (env : Env).

Definition fetchLinkupSearch (query : string) : Prog LinkupSearchOutcome :=
  match env !! "LINKUP_API_KEY" with
  | None => mret SearchNotConfigured
  | Some raw =>
      let apiKey := JS.trim raw in
      if negb (JS.truthy apiKey) then mret SearchNotConfigured
      else
        response ← await (LinkupSearch apiKey query);
        if negb (ok response) then mret SearchError
        else
          payload ← lift (body response);
          mret (SearchOk payload)
  end.

(** The payload decoded from the model's text: [{}] unless a brace span
    is found and parses. *)
Definition extractPayload (response : string) : json :=
  match extractJson response with
  | Some jsonText =>
      if JS.truthy jsonText
      then match JSON_parse host jsonText with
           | Some payload => payload
           | None => JObject []
           end
      else JObject []
  | None => JObject []
  end.

(** The tail of [interpretMessage], after the completion has arrived. *)
Definition decodeResponse (response : string) : Interpretation :=
  match safeParse (extractPayload response) with
  | Some data => data
  | None => unknownAction
  end.

(** The completion request of [interpretMessage]. *)
Definition interpretRequest (apiKey message : string)
    (history : list ChatMessage) : call :=
  let historyText := formatHistory history in
  let prompt := systemPrompt +:+ JS.nl +:+ "Conversation:" +:+ JS.nl +:+
                historyText +:+ JS.nl +:+ "User message: " +:+ message in
  ChatCompletion apiKey (getOpenAiModel env)
    "You are a precise JSON generator." prompt 0.2%float.

Definition interpretMessage (message : string) (history : list ChatMessage)
    : Prog Interpretation :=
  apiKey ← lift (openAiKey env);
  result ← await (interpretRequest apiKey message history);
  let response := result ?? "" in
  mret (decodeResponse response).

(** The [context] argument of [generateReply]. *)
Record ReplyContext := {
  ctx_action : option Action;
  ctx_trade : option TradeInput;
  ctx_summary : option SummaryQuery;
  ctx_summaryText : option string;
  ctx_error : option string
}.

(** The members [JSON.stringify] keeps: those that are defined. *)
Definition defined (members : list (string * option json))
    : list (string * json) :=
  omap (fun m => (fun j => (fst m, j)) <$> snd m) members.

Definition tradeJson (t : TradeInput) : json :=
  JObject (defined
    [ ("date", Some (JString (date t)));
      ("transactionType", Some (JString (typeText (transactionType t))));
      ("symbol", Some (JString (symbol t)));
      ("quantity", Some (JNumber (quantity t)));
      ("amountPerUnit", Some (JNumber (amountPerUnit t)));
      ("totalAmount", JNumber <$> totalAmount t);
      ("tradingFees", Some (JNumber (tradingFees t)));
      ("investmentAccount", Some (JString (investmentAccount t))) ]).

Definition summaryJson (q : SummaryQuery) : json :=
  JObject (defined
    [ ("symbol", JString <$> q_symbol q);
      ("startDate", JString <$> q_startDate q);
      ("endDate", JString <$> q_endDate q) ]).

Definition contextJson (c : ReplyContext) : json :=
  JObject (defined
    [ ("action", (fun a => JString (actionText a)) <$> ctx_action c);
      ("trade", tradeJson <$> ctx_trade c);
      ("summary", summaryJson <$> ctx_summary c);
      ("summaryText", JString <$> ctx_summaryText c);
      ("error", JString <$> ctx_error c) ]).

Definition resultJson (r : LinkupSearchResult) : json :=
  JObject (defined
    [ ("name", JString <$> r_name r);
      ("url", JString <$> r_url r);
      ("content", JString <$> r_content r) ]).

Definition payloadJson (p : LinkupSearchResponse) : json :=
  JObject (defined
    [ ("results", (fun l => JArray (map resultJson l)) <$> search_results p) ]).

(** What the search leaves behind: the text handed to the reply prompt
    and the tool usage. *)
Definition searchOutcome (search : LinkupSearchOutcome)
    : option string * ToolUsage :=
  match search with
  | SearchNotConfigured => (None, {| status := not_configured; results := 0 |})
  | SearchError => (None, {| status := error; results := 0 |})
  | SearchOk payload =>
      let found := search_results payload ?? [] in
      match found with
      | [] => (None, {| status := attempted; results := length found |})
      | _ => (Some (JSON_stringify host (payloadJson payload)),
              {| status := used; results := length found |})
      end
  end.

(** The [try] block of [generateReply].  Only the awaits of the search can
    throw in it, and they come before [tools] is touched, so the [catch]
    finds it as it was created. *)
Definition searchStep (message : string) : Prog (option string * ToolUsage) :=
  tryCatch
    (if shouldUseWebSearch message
     then search ← fetchLinkupSearch message; mret (searchOutcome search)
     else mret (None, defaultTools))
    (fun _ => mret (None, {| status := error; results := 0 |})).

(** The completion request of [generateReply]. *)
Definition replyRequest (apiKey message : string)
    (context : option ReplyContext) (history : list ChatMessage)
    (webSearchPayload : option string) : call :=
  let payload :=
    ((fun c => JSON_stringify host (contextJson c)) <$> context) ?? "" in
  let historyText := formatHistory history in
  let prompt := replySystemPrompt +:+ JS.nl +:+ "Conversation:" +:+ JS.nl +:+
                historyText +:+ JS.nl +:+ "Context JSON: " +:+ payload +:+
                JS.nl +:+ "Web search JSON: " +:+ (webSearchPayload ?? "") +:+
                JS.nl +:+ "User message: " +:+ message in
  ChatCompletion apiKey (getOpenAiModel env)
    "You are a helpful assistant." prompt 0.4%float.

Definition generateReply (message : string) (context : option ReplyContext)
    (history : list ChatMessage) : Prog (string * ToolUsage) :=
  apiKey ← lift (openAiKey env);
  found ← searchStep message;
  let '(webSearchPayload, tools) := found in
  result ← await (replyRequest apiKey message context history webSearchPayload);
  mret ((JS.trim <$> result) ?? "", tools).

End WithHost.

End Agent.

(* ================================================================== *)
(** * [server/src/index.ts] *)
(* ================================================================== *)

Module Index.

Definition MAX_HISTORY : nat := 20.

Definition getHistory : Prog (list ChatMessage) := ReadHistory Ret.

(** [chatHistory.push(entry)], then the oldest entries beyond
    [MAX_HISTORY] are spliced away. *)
Definition pushed (history : list ChatMessage) (entry : ChatMessage)
    : list ChatMessage :=
  let grown := history ++ [entry] in
  if Nat.ltb MAX_HISTORY (length grown)
  then drop (length grown - MAX_HISTORY) grown
  else grown.

Definition pushHistory (entry : ChatMessage) : Prog unit :=
  ReadHistory (fun h => WriteHistory (pushed h entry) (Ret tt)).

(** [value.replace(/[^0-9.-]/g, "")] *)
Definition cleanMoney (value : string) : string :=
  JS.filterChars
    (fun c => JS.isDigit c || Ascii.eqb c "."%char || Ascii.eqb c "-"%char)
    value.

Definition parseMoney (value : string) : number :=
  let parsed := JS.Number (cleanMoney value) in
  if JS.isFinite parsed then parsed else 0%float.

(** [line.replace(/\*\*/g, "")] *)
Fixpoint removeEmphasis (line : string) : string :=
  match line with
  | String "*"%char (String "*"%char r) => removeEmphasis r
  | String c r => String c (removeEmphasis r)
  | EmptyString => EmptyString
  end.

(** The leading run matched by [[-*•]+]; the bullet U+2022 is the bytes
    226, 128, 162. *)
Fixpoint dropBullets (line : string) : string :=
  match line with
  | String "-"%char r => dropBullets r
  | String "*"%char r => dropBullets r
  | String "226"%char (String "128"%char (String "162"%char r)) => dropBullets r
  | _ => line
  end.

Definition startsWithBullet (line : string) : bool :=
  match line with
  | String "-"%char _ => true
  | String "*"%char _ => true
  | String "226"%char (String "128"%char (String "162"%char _)) => true
  | _ => false
  end.

(** [line.replace(/^[-*•]+\s*/, "")] *)
Definition stripBullet (line : string) : string :=
  if startsWithBullet line then JS.trimStart (dropBullets line) else line.

Definition normalizeLine (line : string) : string :=
  JS.trim (stripBullet (removeEmphasis line)).

(** The text before the first colon and the text after it. *)
Fixpoint splitAtColon (line : string) : option (string * string) :=
  match line with
  | EmptyString => None
  | String c r =>
      if Ascii.eqb c ":"%char then Some (EmptyString, r)
      else match splitAtColon r with
           | Some (label, rest) => Some (String c label, rest)
           | None => None
           end
  end.

Fixpoint lastChar (s : string) : option ascii :=
  match s with
  | EmptyString => None
  | String c EmptyString => Some c
  | String _ r => lastChar r
  end.

(** [line.match(/^([^:]+):\s*(.+)$/)], giving the two groups.  The label
    is what precedes the first colon and has to be non-empty.  After the
    colon [\s*] takes all the white space it can and [(.+)] the rest, which
    has to be free of line terminators; when nothing but white space
    follows the colon, [\s*] gives back its last character to [(.+)]. *)
Definition matchLine (line : string) : option (string * string) :=
  match splitAtColon line with
  | None => None
  | Some (label, rest) =>
      if JS.isEmpty label then None
      else
        let text := JS.trimStart rest in
        if JS.isEmpty text then
          match lastChar rest with
          | Some c =>
              if JS.isLineTerminator c then None
              else Some (label, String c EmptyString)
          | None => None
          end
        else if JS.existsChar JS.isLineTerminator text then None
        else Some (label, text)
  end.

(** The [Partial<...>] that [parseManualTrade] fills. *)
Record ManualFields := {
  m_transactionType : option TransactionType;
  m_symbol : option string;
  m_quantity : option number;
  m_amountPerUnit : option number;
  m_totalAmount : option number;
  m_tradingFees : option number;
  m_investmentAccount : option string;
  m_date : option string
}.

Definition noFields : ManualFields :=
  {| m_transactionType := None; m_symbol := None; m_quantity := None;
     m_amountPerUnit := None; m_totalAmount := None; m_tradingFees := None;
     m_investmentAccount := None; m_date := None |}.

(** The body of [lines.forEach] once a line has matched: [label] is
    trimmed and lower-cased, [value] trimmed. *)
Definition assignField (fields : ManualFields) (label value : string)
    : ManualFields :=
  let 'Build_ManualFields t s q a total f acc d := fields in
  if JS.includes label "transaction type" then
    Build_ManualFields
      (Some (if JS.includes (JS.toLowerCase value) "sell" then sell else buy))
      s q a total f acc d
  else if JS.includes label "stock" || JS.includes label "symbol" then
    Build_ManualFields t (Some (JS.toUpperCase value)) q a total f acc d
  else if JS.includes label "quantity" then
    Build_ManualFields t s (Some (parseMoney value)) a total f acc d
  else if JS.includes label "amount per unit"
          || JS.includes label "price per unit" then
    Build_ManualFields t s q (Some (parseMoney value)) total f acc d
  else if JS.includes label "total amount" then
    Build_ManualFields t s q a (Some (parseMoney value)) f acc d
  else if JS.includes label "trading fees" || String.eqb label "fees" then
    Build_ManualFields t s q a total (Some (parseMoney value)) acc d
  else if JS.includes label "investment account"
          || String.eqb label "account" then
    Build_ManualFields t s q a total f (Some value) d
  else if String.eqb label "date" then
    Build_ManualFields t s q a total f acc (Some value)
  else fields.

Definition parseLine (fields : ManualFields) (line : string) : ManualFields :=
  match matchLine line with
  | None => fields
  | Some (label, value) =>
      assignField fields (JS.toLowerCase (JS.trim label)) (JS.trim value)
  end.

(** [message.split(/\r?\n/).map(normalizeLine).filter(Boolean)] *)
Definition manualLines (message : string) : list string :=
  List.filter JS.truthy (map normalizeLine (JS.splitLines message)).

Definition parseManualTrade (message : string) : ManualFields :=
  fold_left parseLine (manualLines message) noFields.

(** [!x] for an optional string and an optional number. *)
Definition absentString (x : option string) : bool :=
  match x with Some s => negb (JS.truthy s) | None => true end.

Definition absentNumber (x : option number) : bool :=
  match x with Some n => negb (JS.truthyNumber n) | None => true end.

Definition getMissingManualFields (fields : ManualFields) : list string :=
  (if bool_decide (m_transactionType fields = None)
   then ["Transaction Type"] else []) ++
  (if absentString (m_symbol fields) then ["Stock/ETF Symbol"] else []) ++
  (if absentNumber (m_quantity fields) then ["Quantity of Units"] else []) ++
  (if absentNumber (m_amountPerUnit fields) then ["Amount per unit"] else []) ++
  (if absentString (m_date fields) then ["Date"] else []) ++
  (if absentNumber (m_totalAmount fields)
   then ["Total Amount (before fees)"] else []) ++
  (if bool_decide (m_tradingFees fields = None)
   then ["Trading Fees"] else []) ++
  (if absentString (m_investmentAccount fields)
   then ["Investment Account"] else []).

(** [isLlmAuthError], on the message of the error. *)
Definition isLlmAuthError (msg : string) : bool :=
  JS.includes msg "Missing OPENAI_API_KEY" ||
  JS.includes msg "Incorrect API key" ||
  JS.includes msg "invalid_api_key" ||
  JS.includes msg "API key expired" ||
  JS.includes msg "API_KEY_INVALID".

Definition manualTradePrompt (missing : list string) : string :=
  let missingText :=
    match missing with
    | [] => "I couldn't parse all required fields. "
    | _ => "Missing: " +:+ JS.join ", " missing +:+ ". "
    end in
  "I can't reach the AI right now (API key issue). " +:+
  missingText +:+
  "You can still log a trade by sending details in this format:" +:+ JS.nl +:+
  "- Transaction Type: buy" +:+ JS.nl +:+
  "- Stock/ETF Symbol: SPUS" +:+ JS.nl +:+
  "- Quantity of Units: 10" +:+ JS.nl +:+
  "- Amount per unit: 55.00" +:+ JS.nl +:+
  "- Date: 01-20-2026" +:+ JS.nl +:+
  "- Total Amount (before fees): 550.00" +:+ JS.nl +:+
  "- Trading Fees: 0" +:+ JS.nl +:+
  "- Investment Account: Brokerage 1".

(** The trade of the manual path: the fields under their non-null
    assertions, [totalAmount] and [tradingFees] with their [??] defaults.
    [None] stands for a field that is asserted but absent. *)
Definition manualTrade (fields : ManualFields) : option TradeInput :=
  t ← m_transactionType fields;
  s ← m_symbol fields;
  q ← m_quantity fields;
  a ← m_amountPerUnit fields;
  acc ← m_investmentAccount fields;
  d ← m_date fields;
  Some {| symbol := s; transactionType := t; quantity := q;
          amountPerUnit := a;
          totalAmount := Some (m_totalAmount fields ?? PrimFloat.mul q a);
          tradingFees := m_tradingFees fields ?? 0%float;
          investmentAccount := acc; date := d |}.

Section WithConfig.

Context (host : Host) (env : Env) (config : TradeLogConfig).

Definition show (x : number) : string := numberToString host x.

Definition manualTradeConfirmation (trade : TradeInput) : string :=
  "Logged trade manually:" +:+ JS.nl +:+
  "- Transaction Type: " +:+ typeText (transactionType trade) +:+ JS.nl +:+
  "- Stock/ETF Symbol: " +:+ symbol trade +:+ JS.nl +:+
  "- Quantity of Units: " +:+ show (quantity trade) +:+ JS.nl +:+
  "- Amount per unit: " +:+ show (amountPerUnit trade) +:+ JS.nl +:+
  "- Date: " +:+ date trade +:+ JS.nl +:+
  "- Total Amount (before fees): " +:+
    ((show <$> totalAmount trade) ?? "undefined") +:+ JS.nl +:+
  "- Trading Fees: " +:+ show (tradingFees trade) +:+ JS.nl +:+
  "- Investment Account: " +:+ investmentAccount trade.

Definition parseDate (value : option string) : option number :=
  match value with
  | None => None
  | Some v =>
      if negb (JS.truthy v) then None
      else
        let time := Date_getTime host v in
        if PrimFloat.is_nan time then None else Some time
  end.

(** [row[key]] for a configured column; an unset column is the property
    name ["undefined"]. *)
Definition cell (row : TradeRow) (key : option string) : option string :=
  row !! (key ?? "undefined").

(** [Object.values(row).some((value) => String(value ?? "").trim())] *)
Definition hasValues (row : TradeRow) : bool :=
  existsb (fun kv => JS.truthy (JS.trim (snd kv))) (map_to_list row).

(** [Boolean(s)] for an optional string *)
Definition given (s : option string) : bool := negb (absentString s).

(** The predicate of [rows.filter(...)]. *)
Definition keepRow (query : SummaryQuery) (row : TradeRow) : bool :=
  let symbolKey := c_symbol (columns config) in
  let dateKey := c_date (columns config) in
  if negb (hasValues row) then false
  else if given (q_symbol query)
          && negb (String.eqb (JS.toUpperCase (cell row symbolKey ?? ""))
                              (JS.toUpperCase (q_symbol query ?? "")))
  then false
  else if given dateKey && (given (q_startDate query) || given (q_endDate query))
  then
    match parseDate (cell row dateKey) with
    | None => false
    | Some rowDate =>
        let start := parseDate (q_startDate query) in
        let end_ := parseDate (q_endDate query) in
        if match start with
           | Some s => PrimFloat.ltb rowDate s
           | None => false
           end
        then false
        else if match end_ with
                | Some e => PrimFloat.ltb e rowDate
                | None => false
                end
        then false
        else true
    end
  else true.

(** An accumulator of the [summary] map. *)
Record Tally := {
  buyQty : number;
  buyValue : number;
  sellQty : number;
  sellValue : number;
  otherCount : nat;
  otherTypes : list string
}.

Definition newTally : Tally :=
  {| buyQty := 0%float; buyValue := 0%float; sellQty := 0%float;
     sellValue := 0%float; otherCount := 0; otherTypes := [] |}.

(** [summary.get(symbol)] *)
Fixpoint getTally (summary : list (string * Tally)) (symbol : string)
    : option Tally :=
  match summary with
  | [] => None
  | (k, v) :: r => if String.eqb k symbol then Some v else getTally r symbol
  end.

(** [summary.set(symbol, entry)]: a known key keeps its place, a new one
    goes last. *)
Fixpoint setTally (summary : list (string * Tally)) (symbol : string)
    (entry : Tally) : list (string * Tally) :=
  match summary with
  | [] => [(symbol, entry)]
  | (k, v) :: r =>
      if String.eqb k symbol then (k, entry) :: r
      else (k, v) :: setTally r symbol entry
  end.

(** [set.add(x)] on a set kept in insertion order *)
Definition addType (types : list string) (x : string) : list string :=
  if existsb (String.eqb x) types then types else types ++ [x].

(** The body of [filtered.forEach]. *)
Definition tallyRow (summary : list (string * Tally)) (row : TradeRow)
    : list (string * Tally) :=
  let c := columns config in
  let symbol := JS.toUpperCase (cell row (c_symbol c) ?? "UNKNOWN") in
  let rawSide := JS.toLowerCase (JS.trim (cell row (c_transactionType c) ?? "")) in
  let qty := parseMoney (cell row (c_quantity c) ?? "") in
  let amountPerUnit := parseMoney (cell row (c_amountPerUnit c) ?? "") in
  let total := parseMoney (cell row (c_totalAmount c) ?? "") in
  let totalAmount :=
    if JS.truthyNumber total then total else PrimFloat.mul amountPerUnit qty in
  let entry := getTally summary symbol ?? newTally in
  let entry' :=
    if JS.startsWith rawSide "buy" then
      {| buyQty := PrimFloat.add (buyQty entry) qty;
         buyValue := PrimFloat.add (buyValue entry) totalAmount;
         sellQty := sellQty entry; sellValue := sellValue entry;
         otherCount := otherCount entry; otherTypes := otherTypes entry |}
    else if JS.startsWith rawSide "sell" then
      {| buyQty := buyQty entry; buyValue := buyValue entry;
         sellQty := PrimFloat.add (sellQty entry) qty;
         sellValue := PrimFloat.add (sellValue entry) totalAmount;
         otherCount := otherCount entry; otherTypes := otherTypes entry |}
    else if JS.truthy rawSide then
      {| buyQty := buyQty entry; buyValue := buyValue entry;
         sellQty := sellQty entry; sellValue := sellValue entry;
         otherCount := otherCount entry + 1;
         otherTypes := addType (otherTypes entry)
                         (cell row (c_transactionType c) ?? "Other") |}
    else entry in
  setTally summary symbol entry'.

Definition tally (filtered : list TradeRow) : list (string * Tally) :=
  fold_left tallyRow filtered [].

(** [qty > 0 ? (value / qty).toFixed(2) : "0.00"] *)
Definition average (value qty : number) : string :=
  if PrimFloat.ltb 0%float qty
  then JS.toFixed2 (numberToString host) (PrimFloat.div value qty)
  else "0.00".

Definition buyAvg (entry : Tally) : string :=
  average (buyValue entry) (buyQty entry).

Definition sellAvg (entry : Tally) : string :=
  average (sellValue entry) (sellQty entry).

Definition summaryLine (item : string * Tally) : string :=
  let '(symbol, entry) := item in
  let extras :=
    if Nat.ltb 0 (otherCount entry)
    then ", other " +:+ show (JS.ofNat (otherCount entry)) +:+ " (" +:+
         JS.join ", " (otherTypes entry) +:+ ")"
    else "" in
  symbol +:+ ": buy " +:+ show (buyQty entry) +:+ " @ avg " +:+ buyAvg entry
  +:+ ", sell " +:+ show (sellQty entry) +:+ " @ avg " +:+ sellAvg entry
  +:+ extras.

Definition noTrades : string := "No trades found for that filter.".

Definition summarizeTrades (rows : list TradeRow) (query : SummaryQuery)
    : string :=
  let filtered := List.filter (keepRow query) rows in
  match filtered with
  | [] => noTrades
  | _ =>
      let lines := map summaryLine (tally filtered) in
      "Total trades: " +:+ show (JS.ofNat (length filtered)) +:+ "." +:+ JS.nl
      +:+ JS.join JS.nl lines
  end.

(** What the handler sends: [res.status(code).json({ reply, tools })]. *)
Record Response := {
  code : Z;
  reply : string;
  tools : option ToolUsage
}.

(** [pushHistory] of the user message, then of the reply. *)
Definition recordTurn (message reply : string) : Prog unit :=
  pushHistory {| role := user; content := message |};;
  pushHistory {| role := assistant; content := reply |}.

(** The manual path, written out twice in the handler: after a failed
    [interpretMessage] and in the outer [catch]. *)
Definition manualFallback (message : string) : Prog Response :=
  let manualFields := parseManualTrade message in
  let missing := getMissingManualFields manualFields in
  match missing with
  | [] =>
      match manualTrade manualFields with
      | Some trade =>
          Sheets.appendTradeRow host env config trade;;
          let reply := manualTradeConfirmation trade in
          recordTurn message reply;;
          mret {| code := 200; reply := reply; tools := Some Agent.defaultTools |}
      | None => Throw (newError "TypeError")
      end
  | _ =>
      mret {| code := 503; reply := manualTradePrompt missing;
              tools := Some Agent.defaultTools |}
  end.

(** The four places where the handler composes a reply, records the turn
    and answers: [generateReply], the two [pushHistory], then
    [res.status(code).json({ reply, tools })]. *)
Definition composeAndRecord (message : string) (status : Z)
    (context : Agent.ReplyContext) : Prog Response :=
  history ← getHistory;
  composed ← Agent.generateReply host env message (Some context) history;
  let '(reply, tools) := composed in
  recordTurn message reply;;
  mret {| code := status; reply := reply; tools := Some tools |}.

(** The path of a resolved action, up to the response. *)
Definition dispatch (message : string) (action : Agent.Interpretation)
    : Prog Response :=
  match Agent.action action, Agent.trade action with
  | Agent.log_trade, Some trade =>
      Sheets.appendTradeRow host env config trade;;
      composeAndRecord message 200
        {| Agent.ctx_action := Some Agent.log_trade;
           Agent.ctx_trade := Some trade;
           Agent.ctx_summary := None; Agent.ctx_summaryText := None;
           Agent.ctx_error := None |}
  | Agent.summarize, _ =>
      trades ← Sheets.readTrades env config;
      let query := Agent.summary action ?? emptyQuery in
      let summary := summarizeTrades trades query in
      composeAndRecord message 200
        {| Agent.ctx_action := Some Agent.summarize;
           Agent.ctx_trade := None;
           Agent.ctx_summary := Some query;
           Agent.ctx_summaryText := Some summary;
           Agent.ctx_error := None |}
  | _, _ =>
      composeAndRecord message 200
        {| Agent.ctx_action := Some Agent.unknown;
           Agent.ctx_trade := None; Agent.ctx_summary := None;
           Agent.ctx_summaryText := None; Agent.ctx_error := None |}
  end.

(** The outer [catch] of the handler. *)
Definition recover (message : string) (error : Error) : Prog Response :=
  let errorMessage := err_message error in
  if isLlmAuthError errorMessage then manualFallback message
  else
    tryCatch
      (composeAndRecord message 500
         {| Agent.ctx_action := None; Agent.ctx_trade := None;
            Agent.ctx_summary := None; Agent.ctx_summaryText := None;
            Agent.ctx_error := Some errorMessage |})
      (fun _ =>
         mret {| code := 500; reply := errorMessage;
                 tools := Some Agent.defaultTools |}).

(** [app.post("/api/chat", ...)], from the [message] of the request body
    to the response. *)
Definition chat (bodyMessage : option string) : Prog Response :=
  let message := JS.trim (bodyMessage ?? "") in
  if negb (JS.truthy message)
  then mret {| code := 400; reply := "Message is required."; tools := None |}
  else
    tryCatch
      (resolved ← tryCatch
                    (history ← getHistory;
                     inr <$> Agent.interpretMessage host env message history)
                    (fun error =>
                       if isLlmAuthError (err_message error)
                       then inl <$> manualFallback message
                       else Throw error);
       match resolved with
       | inl response => mret response
       | inr action => dispatch message action
       end)
      (recover message).

End WithConfig.

End Index.

(* ================================================================== *)
(** * [api/chat.ts], the serverless variant *)
(* ================================================================== *)

Module Api.

Import Agent.

Definition config : TradeLogConfig :=
  {| sheetName := "Trade Log";
     headerRow := 7;
     dataStartRow := Some 8%Z;
     columns :=
       {| c_date := Some "Date (MM-DD-YYYY)";
          c_transactionType := Some "Transaction Type";
          c_symbol := Some "Stock / ETF Symbol";
          c_quantity := Some "Quantity of Units";
          c_amountPerUnit := Some "Amount per unit";
          c_totalAmount := Some "Total Amount (before trading fees)";
          c_tradingFees := Some "Trading Fees";
          c_investmentAccount := Some "Investment Account" |} |}.

Definition NoMatchingHeaders : Error :=
  newError "No matching headers found. Check column names.".

Definition systemPrompt : string :=
  JS.join JS.nl
    [ "You are a trading assistant connected to a Google Sheet named "
        +:+ quoted "Trade Log" +:+ ".";
      "Return ONLY valid JSON with these fields:";
      "- action: " +:+ quoted "log_trade" +:+ " | " +:+ quoted "summarize"
        +:+ " | " +:+ quoted "unknown";
      "- trade: object { date (MM-DD-YYYY), transactionType (buy or sell), symbol, quantity, amountPerUnit, totalAmount, tradingFees, investmentAccount } or null";
      "- summary: object { symbol, startDate, endDate } or null";
      "";
      "Rules:";
      "- Use " +:+ quoted "buy" +:+ " or " +:+ quoted "sell"
        +:+ " for transactionType.";
      "- quantity, amountPerUnit, totalAmount, tradingFees must be numbers.";
      "- If the user does not provide all trade fields, set action to "
        +:+ quoted "unknown" +:+ ".";
      "- If the user asks for a summary, set action to "
        +:+ quoted "summarize" +:+ ".";
      "- If the user wants to log a trade, set action to "
        +:+ quoted "log_trade" +:+ ".";
      "- If unclear, use " +:+ quoted "unknown" +:+ "." ].

Definition replySystemPrompt : string :=
  JS.join JS.nl
    [ "You are a helpful trading assistant. Respond naturally to the user.";
      "If context JSON is provided, use it to craft a helpful response.";
      "If web search results are provided, use them for up-to-date info and cite the URL in parentheses.";
      "If action is " +:+ quoted "summarize"
        +:+ ", explain the summary in plain language.";
      "If action is " +:+ quoted "log_trade" +:+ ", confirm what was logged.";
      "If action is " +:+ quoted "unknown"
        +:+ ", ask a brief clarifying question.";
      "Required trade fields: Date, Transaction Type, Stock/ETF Symbol, Quantity, Amount per unit, Total Amount, Trading Fees, Investment Account.";
      "Keep responses concise." ].

(** What the handler sends. *)
Inductive Response :=
| Ended (code : Z)
| MethodNotAllowed
| Replied (code : Z) (reply : string) (tools : ToolUsage).

Section WithHost.

Context (host : Host) (env : Env).

Definition getHeaderIndex (context : Sheets.SheetsContext)
    (spreadsheetId : string) (cfg : TradeLogConfig) : Prog HeaderIndex :=
  let range := sheetName cfg +:+ "!" +:+ Sheets.showZ (headerRow cfg) +:+ ":"
               +:+ Sheets.showZ (headerRow cfg) in
  values ← await (ValuesGet spreadsheetId range);
  let headers := (values ≫= head) ?? [] in
  mret (Sheets.indexHeaders headers).

Definition getSheetProperties (context : Sheets.SheetsContext)
    (spreadsheetId sheet : string) : Prog Sheets.SheetGrid :=
  sheets ← await (SpreadsheetsGet spreadsheetId Sheets.gridFields);
  lift (Sheets.pickSheet spreadsheetId sheet sheets).

Definition ensureSheetCapacity (context : Sheets.SheetsContext)
    (spreadsheetId sheet : string) (minRows minColumns : Z) : Prog unit :=
  grid ← getSheetProperties context spreadsheetId sheet;
  let targetRows := Z.max (Sheets.g_rowCount grid) (minRows + 10) in
  let targetColumns := Z.max (Sheets.g_columnCount grid) minColumns in
  if (targetRows =? Sheets.g_rowCount grid)%Z
     && (targetColumns =? Sheets.g_columnCount grid)%Z
  then mret tt
  else
    await (BatchUpdate spreadsheetId (Sheets.g_sheetId grid)
             targetRows targetColumns).

Definition buildRow (trade : TradeInput) (headerIndex : HeaderIndex)
    (cfg : TradeLogConfig) : Error + list string :=
  let normalizedType :=
    Sheets.normalizeTransactionType (typeText (transactionType trade)) in
  let entries := Sheets.rowEntries cfg trade normalizedType in
  let indices := Sheets.resolvedIndices headerIndex entries in
  match indices with
  | [] => inl NoMatchingHeaders
  | _ =>
      let maxIndex := max_list indices in
      let row := replicate (maxIndex + 1) "" in
      inr (Sheets.fillRow host headerIndex entries row)
  end.

Definition appendTradeRow (trade : TradeInput) (cfg : TradeLogConfig)
    : Prog unit :=
  context ← lift (Sheets.getSheetsContext env);
  spreadsheetId ← lift (Sheets.requireEnv env "GOOGLE_SHEETS_SPREADSHEET_ID");
  headerIndex ← getHeaderIndex context spreadsheetId cfg;
  row ← lift (buildRow trade headerIndex cfg);
  let dataStartRow := Sheets.firstDataRow cfg in
  existing ← await
               (ValuesGet spreadsheetId
                  (sheetName cfg +:+ "!A" +:+ Sheets.showZ dataStartRow +:+ ":ZZ"));
  let rows := existing ?? [] in
  let target := Sheets.targetRow rows dataStartRow in
  ensureSheetCapacity context spreadsheetId (sheetName cfg)
    target (Z.of_nat (length row));;
  await
    (ValuesUpdate spreadsheetId
       (sheetName cfg +:+ "!A" +:+ Sheets.showZ target) "USER_ENTERED" [row]).

Definition readTrades (cfg : TradeLogConfig) : Prog (list TradeRow) :=
  context ← lift (Sheets.getSheetsContext env);
  spreadsheetId ← lift (Sheets.requireEnv env "GOOGLE_SHEETS_SPREADSHEET_ID");
  headerIndex ← getHeaderIndex context spreadsheetId cfg;
  let dataStartRow := Sheets.firstDataRow cfg in
  response ← await
               (ValuesGet spreadsheetId
                  (sheetName cfg +:+ "!A" +:+ Sheets.showZ dataStartRow +:+ ":ZZ"));
  let rows := response ?? [] in
  mret (map (Sheets.projectRow headerIndex) rows).

(** Here the search catches its own failures. *)
Definition fetchLinkupSearch (query : string) : Prog LinkupSearchOutcome :=
  match env !! "LINKUP_API_KEY" with
  | None => mret SearchNotConfigured
  | Some raw =>
      let apiKey := JS.trim raw in
      if negb (JS.truthy apiKey) then mret SearchNotConfigured
      else
        tryCatch
          (response ← await (LinkupSearch apiKey query);
           if negb (ok response) then mret SearchError
           else
             payload ← lift (body response);
             mret (SearchOk payload))
          (fun _ => mret SearchError)
  end.

(** [process.env.OPENAI_MODEL || "gpt-4o-mini"] *)
Definition openAiModel : string :=
  match env !! "OPENAI_MODEL" with
  | Some m => if JS.truthy m then m else "gpt-4o-mini"
  | None => "gpt-4o-mini"
  end.

(** The completion request of [interpretMessage]. *)
Definition interpretRequest (apiKey message : string)
    (history : list ChatMessage) : call :=
  let historyText := formatHistory history in
  let prompt := systemPrompt +:+ JS.nl +:+ "Conversation:" +:+ JS.nl +:+
                historyText +:+ JS.nl +:+ "User message: " +:+ message in
  ChatCompletion apiKey openAiModel
    "You are a precise JSON generator." prompt 0.2%float.

Definition interpretMessage (message : string) (history : list ChatMessage)
    : Prog Interpretation :=
  apiKey ← lift (openAiKey env);
  result ← await (interpretRequest apiKey message history);
  let response := result ?? "" in
  mret (decodeResponse host response).

(** The effect of a search on the [tools] object handed in by the
    handler, and the text for the reply prompt. *)
Definition searchOutcome (tools : ToolUsage) (search : LinkupSearchOutcome)
    : option string * ToolUsage :=
  match search with
  | SearchNotConfigured =>
      (None, {| status := not_configured; results := results tools |})
  | SearchError => (None, {| status := error; results := results tools |})
  | SearchOk payload =>
      let found := search_results payload ?? [] in
      match found with
      | [] => (None, {| status := attempted; results := length found |})
      | _ => (Some (JSON_stringify host (payloadJson payload)),
              {| status := used; results := length found |})
      end
  end.

(** The completion request of [generateReply]. *)
Definition replyRequest (apiKey message : string)
    (context : option ReplyContext) (history : list ChatMessage)
    (webSearchPayload : option string) : call :=
  let payload :=
    ((fun c => JSON_stringify host (contextJson c)) <$> context) ?? "" in
  let historyText := formatHistory history in
  let prompt := replySystemPrompt +:+ JS.nl +:+ "Conversation:" +:+ JS.nl +:+
                historyText +:+ JS.nl +:+ "Context JSON: " +:+ payload +:+
                JS.nl +:+ "Web search JSON: " +:+ (webSearchPayload ?? "") +:+
                JS.nl +:+ "User message: " +:+ message in
  ChatCompletion apiKey openAiModel
    "You are a helpful assistant." prompt 0.4%float.

(** The search of [generateReply], run on the [tools] object handed in. *)
Definition searchStep (message : string) (tools : ToolUsage)
    : Prog (option string * ToolUsage) :=
  if shouldUseWebSearch message
  then search ← fetchLinkupSearch message; mret (searchOutcome tools search)
  else mret (None, tools).

Definition generateReply (message : string) (context : option ReplyContext)
    (history : list ChatMessage) (tools : ToolUsage)
    : Prog (string * ToolUsage) :=
  apiKey ← lift (openAiKey env);
  found ← searchStep message tools;
  let '(webSearchPayload, tools) := found in
  result ← await (replyRequest apiKey message context history webSearchPayload);
  mret ((JS.trim <$> result) ?? "", tools).

(** The variant's [summarizeTrades] keeps no count of other transaction
    types: its tallies stay without them and its lines have no extras. *)
Definition tallyRow (summary : list (string * Index.Tally)) (row : TradeRow)
    : list (string * Index.Tally) :=
  let c := columns config in
  let symbol := JS.toUpperCase (Index.cell row (c_symbol c) ?? "UNKNOWN") in
  let rawSide :=
    JS.toLowerCase (JS.trim (Index.cell row (c_transactionType c) ?? "")) in
  let qty := Index.parseMoney (Index.cell row (c_quantity c) ?? "") in
  let amountPerUnit := Index.parseMoney (Index.cell row (c_amountPerUnit c) ?? "") in
  let total := Index.parseMoney (Index.cell row (c_totalAmount c) ?? "") in
  let totalAmount :=
    if JS.truthyNumber total then total else PrimFloat.mul amountPerUnit qty in
  let entry := Index.getTally summary symbol ?? Index.newTally in
  let entry' :=
    if JS.startsWith rawSide "buy" then
      {| Index.buyQty := PrimFloat.add (Index.buyQty entry) qty;
         Index.buyValue := PrimFloat.add (Index.buyValue entry) totalAmount;
         Index.sellQty := Index.sellQty entry;
         Index.sellValue := Index.sellValue entry;
         Index.otherCount := Index.otherCount entry;
         Index.otherTypes := Index.otherTypes entry |}
    else if JS.startsWith rawSide "sell" then
      {| Index.buyQty := Index.buyQty entry;
         Index.buyValue := Index.buyValue entry;
         Index.sellQty := PrimFloat.add (Index.sellQty entry) qty;
         Index.sellValue := PrimFloat.add (Index.sellValue entry) totalAmount;
         Index.otherCount := Index.otherCount entry;
         Index.otherTypes := Index.otherTypes entry |}
    else entry in
  Index.setTally summary symbol entry'.

Definition tally (filtered : list TradeRow) : list (string * Index.Tally) :=
  fold_left tallyRow filtered [].

Definition summaryLine (item : string * Index.Tally) : string :=
  let '(symbol, entry) := item in
  symbol +:+ ": buy " +:+ Index.show host (Index.buyQty entry) +:+ " @ avg "
  +:+ Index.buyAvg host entry +:+ ", sell "
  +:+ Index.show host (Index.sellQty entry) +:+ " @ avg "
  +:+ Index.sellAvg host entry.

Definition summarizeTrades (rows : list TradeRow) (query : SummaryQuery)
    : string :=
  let filtered := List.filter (Index.keepRow host config query) rows in
  match filtered with
  | [] => Index.noTrades
  | _ =>
      let lines := map summaryLine (tally filtered) in
      "Total trades: " +:+ Index.show host (JS.ofNat (length filtered)) +:+ "."
      +:+ JS.nl +:+ JS.join JS.nl lines
  end.

(** The three places where the handler composes a reply, records the
    turn and answers. *)
Definition composeAndRecord (message : string)
    (context : Agent.ReplyContext) (tools : ToolUsage) : Prog Response :=
  history ← Index.getHistory;
  composed ← generateReply message (Some context) history tools;
  let '(reply, updatedTools) := composed in
  Index.recordTurn message reply;;
  mret (Replied 200 reply updatedTools).

(** The [try] block of the handler. *)
Definition respond (message : string) : Prog Response :=
  history ← Index.getHistory;
  action ← interpretMessage message history;
  let tools := {| status := skipped; results := 0 |} in
  match Agent.action action, Agent.trade action with
  | log_trade, Some trade =>
      appendTradeRow trade config;;
      composeAndRecord message
        {| ctx_action := Some log_trade; ctx_trade := Some trade;
           ctx_summary := None; ctx_summaryText := None;
           ctx_error := None |} tools
  | summarize, _ =>
      trades ← readTrades config;
      let query := Agent.summary action ?? emptyQuery in
      let summary := summarizeTrades trades query in
      composeAndRecord message
        {| ctx_action := Some summarize; ctx_trade := None;
           ctx_summary := Some query; ctx_summaryText := Some summary;
           ctx_error := None |} tools
  | _, _ =>
      composeAndRecord message
        {| ctx_action := Some unknown; ctx_trade := None;
           ctx_summary := None; ctx_summaryText := None;
           ctx_error := None |} tools
  end.

Definition handler (method : string) (bodyMessage : option string)
    : Prog Response :=
  if String.eqb method "OPTIONS" then mret (Ended 200)
  else if negb (String.eqb method "POST") then mret MethodNotAllowed
  else
    let message := JS.trim (bodyMessage ?? "") in
    if negb (JS.truthy message)
    then mret (Replied 400 "Message is required." defaultTools)
    else
      tryCatch (respond message)
        (fun error => mret (Replied 500 (err_message error) defaultTools)).

End WithHost.

End Api.

(* ================================================================== *)
(** * The chat client (the [App] component) *)
(* ================================================================== *)

Module App.

(** [input.trim().length > 0 && !isSending] *)
Definition canSend (input : string) (isSending : bool) : bool :=
  Nat.ltb 0 (String.length (JS.trim input)) && negb isSending.

(** The message that [handleSubmit] posts to [/api/chat], if it posts
    one: nothing unless [canSend], else the trimmed input. *)
Definition submitted (input : string) (isSending : bool) : option string :=
  if canSend input isSending then Some (JS.trim input) else None.

End App.

(* ================================================================== *)
(** * Vocabulary of the specification *)
(* ================================================================== *)

(** A request adds itself to the log and nothing else. *)
Definition asked (w : World) (c : call) : World :=
  {| chatHistory := chatHistory w; requests := requests w ++ [c] |}.

(** A row whose every cell trims to the empty string. *)
Definition blankRow (row : list string) : Prop :=
  Forall (fun cell => JS.trim cell = "") row.

(** The header configured for each logical field, in the order in which
    [buildRow] writes them. *)
Definition configuredHeaders (config : TradeLogConfig) : list (option string) :=
  let c := columns config in
  [ c_date c; c_transactionType c; c_symbol c; c_quantity c;
    c_amountPerUnit c; c_totalAmount c; c_tradingFees c;
    c_investmentAccount c ].

(** The columns to which the configured fields resolve. *)
Definition resolvedColumns (config : TradeLogConfig)
    (headerIndex : HeaderIndex) : list nat :=
  omap (Sheets.resolve headerIndex) (configuredHeaders config).

(** What a built row is made of, in the server and in the serverless
    variant: blanks up to the largest resolved column, then the entries
    written over them. *)
Definition filledRow (host : Host) (config : TradeLogConfig)
    (trade : TradeInput) (headerIndex : HeaderIndex) : list string :=
  Sheets.fillRow host headerIndex
    (Sheets.rowEntries config trade
       (Sheets.normalizeTransactionType (typeText (transactionType trade))))
    (replicate (max_list (resolvedColumns config headerIndex) + 1) "").

(** ** Sample data for the examples *)

(** How [Number::toString] renders the integers below [2^53], the only
    numbers the examples print. *)
Definition integerText (x : number) : string :=
  match Prim2SF x with
  | S754_zero _ => "0"
  | S754_infinity s => if s then "-Infinity" else "Infinity"
  | S754_nan => "NaN"
  | S754_finite s m e =>
      let sign := if s then "-" else "" in
      if (0 <=? e)%Z then sign +:+ JS.digitsOfZ (Z.pos m * 2 ^ e)
      else if (Z.pos m mod 2 ^ (- e) =? 0)%Z
           then sign +:+ JS.digitsOfZ (Z.pos m / 2 ^ (- e))
           else "?"
  end.

(** A host for the examples: it prints integers, parses no JSON and knows
    no date. *)
Definition sampleHost : Host :=
  {| numberToString := integerText;
     JSON_parse := fun _ => None;
     JSON_stringify := fun _ => "{}";
     Date_getTime := fun _ => PrimFloat.nan |}.

(** A purchase of 10 units at 5 with no total given. *)
Definition sampleTrade : TradeInput :=
  {| symbol := "AAPL"; transactionType := buy; quantity := 10%float;
     amountPerUnit := 5%float; totalAmount := None; tradingFees := 0%float;
     investmentAccount := "Brokerage 1"; date := "01-20-2026" |}.

(** A sheet that has three of the configured headers, in columns 0, 2
    and 4. *)
Definition sampleHeaders : HeaderIndex :=
  Sheets.indexHeaders
    [ "Stock / ETF Symbol"; "Notes"; "Total Amount (before trading fees)";
      ""; "Date (MM-DD-YYYY)" ].

(** ** Capacity manager *)

(** The requests a capacity check leaves in the log when the metadata
    request is answered with a grid of [rows] by [cols]: the metadata
    request and, unless [enough], one resize to [newRows] by [newCols]. *)
Definition capacityRequests (spreadsheetId : string) (sheet : Z)
    (enough : bool) (newRows newCols : Z) : list call :=
  SpreadsheetsGet spreadsheetId Sheets.gridFields ::
  (if enough then []
   else [BatchUpdate spreadsheetId sheet newRows newCols]).

(** The behaviour the specification states for [ensureCapacity]: no
    resize when both minimums are met, else one resize with ten rows of
    buffer. *)
Definition statedCapacityBehaviour
    (ensure : Sheets.SheetsContext -> string -> string -> Z -> Z -> Prog unit)
    : Prop :=
  forall (o : Oracle) (w : World) (context : Sheets.SheetsContext)
         (spreadsheetId sheet : string) (minRows minColumns : Z)
         sheets (grid : Sheets.SheetGrid),
    o (length (requests w)) (SpreadsheetsGet spreadsheetId Sheets.gridFields)
    = inr sheets ->
    Sheets.pickSheet spreadsheetId sheet sheets = inr grid ->
    requests (snd (run o (ensure context spreadsheetId sheet minRows minColumns) w))
    = requests w ++
      capacityRequests spreadsheetId (Sheets.g_sheetId grid)
        ((minRows <=? Sheets.g_rowCount grid)%Z
         && (minColumns <=? Sheets.g_columnCount grid)%Z)
        (Z.max (Sheets.g_rowCount grid) (minRows + 10))
        (Z.max (Sheets.g_columnCount grid) minColumns).

(** A spreadsheet whose only sheet, ["Trade Log"], has identifier 7 and
    a grid of 100 rows by 26 columns; the completion service answers
    every prompt with the same question, the sheet has no values and the
    search fails. *)
Definition sampleSheets : option (list (option SheetProperties)) :=
  Some [ Some {| sheetId := Some 7%Z; title := Some "Trade Log";
                 gridProperties :=
                   Some {| rowCount := Some 100%Z;
                           columnCount := Some 26%Z |} |} ].

Definition sampleOracle : Oracle :=
  fun _ c =>
    match c return Error + answer c with
    | ValuesGet _ _ => inr None
    | SpreadsheetsGet _ _ => inr sampleSheets
    | BatchUpdate _ _ _ _ => inr tt
    | ValuesUpdate _ _ _ _ => inr tt
    | ChatCompletion _ _ _ _ _ => inr (Some "Which trade do you mean?")
    | LinkupSearch _ _ =>
        inr {| ok := false; body := inr {| search_results := None |} |}
    end.

Definition startWorld : World := {| chatHistory := []; requests := [] |}.

Definition sampleContext : Sheets.SheetsContext :=
  {| Sheets.clientEmail := "bot@example.com" |}.

(** ** Chat history *)

(** A program that never writes the chat history. *)
Fixpoint Quiet {A} (p : Prog A) : Prop :=
  match p with
  | Ret _ => True
  | Throw _ => True
  | Await c k => forall r, Quiet (k r)
  | ReadHistory k => forall h, Quiet (k h)
  | WriteHistory _ _ => False
  end.

(** The history after one recorded turn: the user message, then the
    assistant reply, each pushed with the eviction of [pushHistory]. *)
Definition turn (history : list ChatMessage) (message reply : string)
    : list ChatMessage :=
  Index.pushed
    (Index.pushed history {| role := user; content := message |})
    {| role := assistant; content := reply |}.

(** The message the handlers work on: [String(req.body?.message ?? "").trim()]. *)
Definition received (bodyMessage : option string) : string :=
  JS.trim (bodyMessage ?? "").

(** What the specification states of the history: whenever the handler
    answers a message with a reply, the history has gained the turn. *)
Definition statedHistoryBehaviour
    (handler : option string -> Prog Index.Response) : Prop :=
  forall (o : Oracle) (w : World) (bodyMessage : option string) r,
    received bodyMessage <> "" ->
    fst (run o (handler bodyMessage) w) = Returned r ->
    chatHistory (snd (run o (handler bodyMessage) w))
    = turn (chatHistory w) (received bodyMessage) (Index.reply r).

(** The same for the serverless handler, on a [POST]. *)
Definition statedHistoryBehaviourApi
    (handler : string -> option string -> Prog Api.Response) : Prop :=
  forall (o : Oracle) (w : World) (bodyMessage : option string) c reply tools,
    received bodyMessage <> "" ->
    fst (run o (handler "POST" bodyMessage) w) = Returned (Api.Replied c reply tools) ->
    chatHistory (snd (run o (handler "POST" bodyMessage) w))
    = turn (chatHistory w) (received bodyMessage) reply.

(** An outside world in which every request is refused. *)
Definition downOracle : Oracle :=
  fun _ _ => inl (newError "connect ECONNREFUSED").

(** An environment with the completion credential and nothing else. *)
Definition keyOnly : Env := {[ "OPENAI_API_KEY" := "sk-test" ]}.

(** How a run of the server's handler may leave the history [h], given
    the message [m]: extended by the turn next to a 200 or 500 answer;
    untouched next to a 400, a 503 or a 500 answer that carries the
    default tool usage; untouched when the handler itself throws. *)
Inductive Turn (m : string) (h : list ChatMessage)
    : Outcome Index.Response -> list ChatMessage -> Prop :=
| Recorded (r : Index.Response) :
    Index.code r = 200%Z \/ Index.code r = 500%Z ->
    Turn m h (Returned r) (turn h m (Index.reply r))
| Silent (r : Index.Response) :
    Index.code r = 400%Z \/ Index.code r = 503%Z \/
    (Index.code r = 500%Z /\ Index.tools r = Some Agent.defaultTools) ->
    Turn m h (Returned r) h
| Failed (e : Error) :
    Turn m h (Thrown e) h.

(** The same for the serverless handler: the turn is recorded next to a
    200 answer and never otherwise. *)
Inductive ApiTurn (m : string) (h : list ChatMessage)
    : Outcome Api.Response -> list ChatMessage -> Prop :=
| ApiRecorded (reply : string) (tools : ToolUsage) :
    ApiTurn m h (Returned (Api.Replied 200 reply tools)) (turn h m reply)
| ApiSilent (r : Api.Response) :
    (forall reply tools, r <> Api.Replied 200 reply tools) ->
    ApiTurn m h (Returned r) h
| ApiFailed (e : Error) :
    ApiTurn m h (Thrown e) h.

(** A program all of whose runs relate the history before, the outcome
    and the history after by [Q]. *)
Definition Ensures {A} (p : Prog A)
    (Q : list ChatMessage -> Outcome A -> list ChatMessage -> Prop) : Prop :=
  forall (o : Oracle) (w : World),
    Q (chatHistory w) (fst (run o p w)) (chatHistory (snd (run o p w))).

(** ** Reply composer *)

(** The search credential, when one is configured:
    [process.env.LINKUP_API_KEY?.trim()], if not empty. *)
Definition searchCredential (env : Env) : option string :=
  match env !! "LINKUP_API_KEY" with
  | Some raw => if JS.truthy (JS.trim raw) then Some (JS.trim raw) else None
  | None => None
  end.

(** How the search service answered, if it was asked at all. *)
Definition SearchAnswer := option (Error + FetchResponse).

(** The results a search answer carries: those of a success response
    whose body could be read. *)
Definition foundResults (answer : Error + FetchResponse)
    : option (list LinkupSearchResult) :=
  match answer with
  | inl _ => None
  | inr response =>
      if ok response
      then match body response with
           | inl _ => None
           | inr payload => Some (search_results payload ?? [])
           end
      else None
  end.

(** The tool usage the specification states for a reply whose message
    triggers the search: [not_configured] without a credential, [error]
    on a transport failure or a non-success response, [attempted] on an
    empty result list, [used] with the result count otherwise. *)
Definition statedToolUsage (answer : SearchAnswer) : ToolUsage :=
  match answer with
  | None => {| status := not_configured; results := 0 |}
  | Some a =>
      match foundResults a with
      | None => {| status := error; results := 0 |}
      | Some [] => {| status := attempted; results := 0 |}
      | Some found => {| status := used; results := length found |}
      end
  end.

(** The raw payload made available to the reply prompt: that of a
    non-empty result list. *)
Definition searchText (host : Host) (answer : SearchAnswer) : option string :=
  match answer with
  | Some (inr response) =>
      match foundResults (inr response), body response with
      | Some (_ :: _), inr payload =>
          Some (JSON_stringify host (Agent.payloadJson payload))
      | _, _ => None
      end
  | _ => None
  end.

(** The answer of the outside world to the search of a run that starts in
    [w], and the world after it. *)
Definition searchAnswer (env : Env) (o : Oracle) (w : World)
    (message : string) : SearchAnswer :=
  match searchCredential env with
  | None => None
  | Some key => Some (o (length (requests w)) (LinkupSearch key message))
  end.

Definition afterSearch (env : Env) (w : World) (message : string) : World :=
  match searchCredential env with
  | None => w
  | Some key => asked w (LinkupSearch key message)
  end.

(** A search service that finds two pages. *)
Definition twoResults : FetchResponse :=
  {| ok := true;
     body := inr {| search_results :=
                      Some [ {| r_name := Some "AAPL"; r_url := None;
                                r_content := None |};
                             {| r_name := None; r_url := None;
                                r_content := Some "192.50" |} ] |} |}.

Definition searchingOracle : Oracle :=
  fun n c =>
    match c as c' return Error + answer c' with
    | LinkupSearch _ _ => inr twoResults
    | other => sampleOracle n other
    end.

(** An environment with both credentials. *)
Definition bothKeys : Env :=
  {[ "OPENAI_API_KEY" := "sk-test"; "LINKUP_API_KEY" := " lk-test " ]}.

(** ** Manual format *)

(** The eight required fields of the manual format. *)
Inductive Field :=
| FType | FSymbol | FQuantity | FAmount | FDate | FTotal | FFees | FAccount.

#[global] Instance Field_eq_dec : EqDecision Field.
Proof. solve_decision. Defined.

(** The fields in the order in which they are reported missing. *)
Definition allFields : list Field :=
  [FType; FSymbol; FQuantity; FAmount; FDate; FTotal; FFees; FAccount].

(** The label of a field, as the manual-format prompt writes it and as
    the missing list names it. *)
Definition labelOf (f : Field) : string :=
  match f with
  | FType => "Transaction Type"
  | FSymbol => "Stock/ETF Symbol"
  | FQuantity => "Quantity of Units"
  | FAmount => "Amount per unit"
  | FDate => "Date"
  | FTotal => "Total Amount (before fees)"
  | FFees => "Trading Fees"
  | FAccount => "Investment Account"
  end.

(** A correctly labelled line of the manual format, as in the prompt. *)
Definition fieldLine (entry : Field * string) : string :=
  "- " +:+ labelOf (fst entry) +:+ ": " +:+ snd entry.

(** The message made of the given labelled lines. *)
Definition manualMessage (entries : list (Field * string)) : string :=
  JS.join JS.nl (map fieldLine entries).

(** The message without the lines of one label. *)
Definition withoutField (f : Field) (entries : list (Field * string))
    : list (Field * string) :=
  filter (fun entry => fst entry <> f) entries.

(** The value of a line as the parser reads it: without emphasis markers
    and without the white space around it. *)
Definition lineValue (v : string) : string :=
  JS.trimStart (JS.trimEnd (Index.removeEmphasis v)).

(** A value as one writes it on a line: without line breaks, and with
    something left once markers and surrounding white space are gone. *)
Definition plainValue (v : string) : Prop :=
  JS.existsChar JS.isLineTerminator v = false /\ lineValue v <> "".

(** The fields whose value is a number that must not be zero. *)
Definition needsAmount (f : Field) : bool :=
  match f with
  | FQuantity | FAmount | FTotal => true
  | _ => false
  end.

(** A line that the manual path can use: a plain value, and a number
    other than zero where the field needs one. *)
Definition usableLine (entry : Field * string) : Prop :=
  plainValue (snd entry) /\
  (needsAmount (fst entry) = true ->
   JS.truthyNumber (Index.parseMoney (lineValue (snd entry))) = true).

(** A message that has a line for each of the eight fields. *)
Definition completeLines (entries : list (Field * string)) : Prop :=
  forall f, f ∈ map fst entries.

(** What a labelled line does to the parsed fields. *)
Definition setField (fields : Index.ManualFields) (entry : Field * string)
    : Index.ManualFields :=
  Index.assignField fields (JS.toLowerCase (labelOf (fst entry)))
    (lineValue (snd entry)).

(** The clause of [getMissingManualFields] for each field. *)
Definition isMissing (fields : Index.ManualFields) (f : Field) : bool :=
  match f with
  | FType => bool_decide (Index.m_transactionType fields = None)
  | FSymbol => Index.absentString (Index.m_symbol fields)
  | FQuantity => Index.absentNumber (Index.m_quantity fields)
  | FAmount => Index.absentNumber (Index.m_amountPerUnit fields)
  | FDate => Index.absentString (Index.m_date fields)
  | FTotal => Index.absentNumber (Index.m_totalAmount fields)
  | FFees => bool_decide (Index.m_tradingFees fields = None)
  | FAccount => Index.absentString (Index.m_investmentAccount fields)
  end.

(** What the specification states of a complete message: nothing is
    missing. *)
Definition statedCompleteBehaviour : Prop :=
  forall entries : list (Field * string),
    Forall (fun entry => plainValue (snd entry)) entries ->
    completeLines entries ->
    Index.getMissingManualFields (Index.parseManualTrade (manualMessage entries))
    = [].

(** The sample of the manual-format prompt, with the given quantity. *)
Definition promptSample (quantity : string) : list (Field * string) :=
  [ (FType, "buy"); (FSymbol, "SPUS"); (FQuantity, quantity);
    (FAmount, "55.00"); (FDate, "01-20-2026"); (FTotal, "550.00");
    (FFees, "0"); (FAccount, "Brokerage 1") ].

(** ** Summaries *)

(** The key under which a row is tallied: its symbol in upper case. *)
Definition rowSymbol (config : TradeLogConfig) (row : TradeRow) : string :=
  JS.toUpperCase (Index.cell row (c_symbol (columns config)) ?? "UNKNOWN").

(** A row read back from the sheet of [api/chat.ts]: a purchase of 10
    units at 5, with no total. *)
Definition purchaseRow (symbol : string) : TradeRow :=
  {[ "Stock / ETF Symbol" := symbol;
     "Transaction Type" := "Buy";
     "Quantity of Units" := "10";
     "Amount per unit" := "5" ]}.

(** The side, quantity and value of a row, as the tally reads them. *)
Definition rowSide (config : TradeLogConfig) (row : TradeRow) : string :=
  JS.toLowerCase
    (JS.trim (Index.cell row (c_transactionType (columns config)) ?? "")).

Definition rowQuantity (config : TradeLogConfig) (row : TradeRow) : number :=
  Index.parseMoney (Index.cell row (c_quantity (columns config)) ?? "").

Definition rowValue (config : TradeLogConfig) (row : TradeRow) : number :=
  let total :=
    Index.parseMoney (Index.cell row (c_totalAmount (columns config)) ?? "") in
  if JS.truthyNumber total then total
  else PrimFloat.mul
         (Index.parseMoney
            (Index.cell row (c_amountPerUnit (columns config)) ?? ""))
         (rowQuantity config row).

(** The four sums of a tally entry: quantity and value bought, quantity
    and value sold. *)
Definition sides (entry : Index.Tally) : number * number * number * number :=
  (Index.buyQty entry, Index.buyValue entry,
   Index.sellQty entry, Index.sellValue entry).

(** One row added to the sums of [symbol]: a row of another symbol, or of
    neither side, leaves them as they are. *)
Definition addRow (config : TradeLogConfig) (symbol : string)
    (sums : number * number * number * number) (row : TradeRow)
    : number * number * number * number :=
  let '(bought, paid, sold, received) := sums in
  if negb (String.eqb (rowSymbol config row) symbol) then sums
  else if JS.startsWith (rowSide config row) "buy"
  then (PrimFloat.add bought (rowQuantity config row),
        PrimFloat.add paid (rowValue config row), sold, received)
  else if JS.startsWith (rowSide config row) "sell"
  then (bought, paid, PrimFloat.add sold (rowQuantity config row),
        PrimFloat.add received (rowValue config row))
  else sums.

(** The sums of [symbol] over the rows, in their order, from zero. *)
Definition accumulated (config : TradeLogConfig) (symbol : string)
    (rows : list TradeRow) : number * number * number * number :=
  fold_left (addRow config symbol) rows (0%float, 0%float, 0%float, 0%float).

(** The sums that [summary] holds for [symbol]; those of a fresh entry if
    it has none. *)
Definition sumsOf (summary : list (string * Index.Tally)) (symbol : string)
    : number * number * number * number :=
  sides (Index.getTally summary symbol ?? Index.newTally).

(** ** Vocabulary of the further properties *)

(** *** White space *)

(** A string that does not begin with white space. *)
Definition startsClean (s : string) : Prop :=
  match s with
  | EmptyString => True
  | String c _ => JS.isWhiteSpace c = false
  end.

(** *** Environment *)

(** The variables the sheet functions require, in the order in which
    they are read. *)
Definition requiredVariables : list string :=
  [ "GOOGLE_SHEETS_SERVICE_ACCOUNT_EMAIL"; "GOOGLE_SHEETS_PRIVATE_KEY";
    "GOOGLE_SHEETS_SPREADSHEET_ID" ].

(** A variable that is not set, or set to the empty string. *)
Definition unset (env : Env) (name : string) : bool :=
  match env !! name with
  | Some value => negb (JS.truthy value)
  | None => true
  end.

Definition MissingVariable (name : string) : Error :=
  newError ("Missing required env var: " +:+ name).

(** *** Sheet metadata *)

(** The metadata of a spreadsheet whose only sheet is the first sheet of
    a new spreadsheet: title ["Trade Log"], identifier 0, 1000 rows by 26
    columns. *)
Definition firstSheetOnly : list (option SheetProperties) :=
  [ Some {| sheetId := Some 0%Z; title := Some "Trade Log";
            gridProperties :=
              Some {| rowCount := Some 1000%Z; columnCount := Some 26%Z |} |} ].

(** An outside world that answers the metadata request with [sheets]
    and refuses everything else. *)
Definition metadataOracle (sheets : list (option SheetProperties)) : Oracle :=
  fun n c =>
    match c as c' return Error + answer c' with
    | SpreadsheetsGet _ _ => inr (Some sheets)
    | other => downOracle n other
    end.

(** *** Requests *)

(** The range of the header row and the range of the data rows, as the
    sheet functions ask for them. *)
Definition headerRange (config : TradeLogConfig) : string :=
  sheetName config +:+ "!" +:+ Sheets.showZ (headerRow config) +:+ ":"
  +:+ Sheets.showZ (headerRow config).

Definition dataRange (config : TradeLogConfig) : string :=
  sheetName config +:+ "!A" +:+ Sheets.showZ (Sheets.firstDataRow config)
  +:+ ":ZZ".

(** The cell at which a row is written. *)
Definition targetCell (config : TradeLogConfig) (existing : list (list string))
    : string :=
  sheetName config +:+ "!A" +:+
  Sheets.showZ (Sheets.targetRow existing (Sheets.firstDataRow config)).

(** A program all of whose requests satisfy [P]. *)
Fixpoint Asks {A} (P : call -> Prop) (p : Prog A) : Prop :=
  match p with
  | Ret _ => True
  | Throw _ => True
  | Await c k => P c /\ forall r, Asks P (k r)
  | ReadHistory k => forall h, Asks P (k h)
  | WriteHistory _ k => Asks P k
  end.

(** A request that reads cell values. *)
Definition readsValues (c : call) : Prop :=
  match c with ValuesGet _ _ => True | _ => False end.

(** A request that leaves the spreadsheet as it is. *)
Definition leavesSheet (c : call) : Prop :=
  match c with
  | BatchUpdate _ _ _ _ => False
  | ValuesUpdate _ _ _ _ => False
  | _ => True
  end.

(** An environment with the three variables of the sheet functions. *)
Definition sheetEnv : Env :=
  {[ "GOOGLE_SHEETS_SERVICE_ACCOUNT_EMAIL" := "bot@example.com";
     "GOOGLE_SHEETS_PRIVATE_KEY" := "secret";
     "GOOGLE_SHEETS_SPREADSHEET_ID" := "sheet-1" ]}.

(** A ledger with the headers of the symbol and of the total in columns
    0 and 2, one trade row, one blank row and one more trade row; every
    request succeeds. *)
Definition ledgerOracle : Oracle :=
  fun n c =>
    match c as c' return Error + answer c' with
    | ValuesGet _ range =>
        if String.eqb range "Trade Log!7:7"
        then inr (Some [[ "Stock / ETF Symbol"; "Notes";
                          "Total Amount (before trading fees)" ]])
        else inr (Some [["MSFT"; ""; "100"]; [""; " "]; ["SPUS"; ""; "550"]])
    | other => sampleOracle n other
    end.

(** *** Brace span *)

(** A string in which the character [c] does not occur. *)
Definition lacks (c : ascii) (s : string) : Prop :=
  JS.existsChar (fun x => Ascii.eqb x c) s = false.

(** *** Response schema *)

(** The members that the schema requires of a trade. *)
Definition tradeKeys : list string :=
  [ "date"; "transactionType"; "symbol"; "quantity"; "amountPerUnit";
    "totalAmount"; "tradingFees"; "investmentAccount" ].

(** *** Answers of the handlers *)

(** A string made of white space only. *)
Definition blank (s : string) : Prop :=
  JS.existsChar (fun c => negb (JS.isWhiteSpace c)) s = false.

(** A program all of whose runs end in an outcome that satisfies [P]. *)
Definition Always {A} (p : Prog A) (P : Outcome A -> Prop) : Prop :=
  forall (o : Oracle) (w : World), P (fst (run o p w)).

(** An outcome that, if it is an answer, has a status code that
    satisfies [P]. *)
Definition answersWith (P : Z -> Prop) (out : Outcome Index.Response) : Prop :=
  match out with
  | Returned r => P (Index.code r)
  | Thrown _ => True
  end.

(** *** Other transaction types *)

(** A row that is of neither side although it names a type. *)
Definition rowIsOther (config : TradeLogConfig) (row : TradeRow) : bool :=
  negb (JS.startsWith (rowSide config row) "buy")
  && negb (JS.startsWith (rowSide config row) "sell")
  && JS.truthy (rowSide config row).

(** The type such a row is listed under. *)
Definition rowType (config : TradeLogConfig) (row : TradeRow) : string :=
  Index.cell row (c_transactionType (columns config)) ?? "Other".

(** The rows of [symbol] that are of neither side. *)
Definition otherRows (config : TradeLogConfig) (symbol : string)
    (rows : list TradeRow) : list TradeRow :=
  List.filter
    (fun row => String.eqb (rowSymbol config row) symbol && rowIsOther config row)
    rows.

(** The count and the types that [summary] holds for [symbol]. *)
Definition othersOf (summary : list (string * Index.Tally)) (symbol : string)
    : nat * list string :=
  let entry := Index.getTally summary symbol ?? Index.newTally in
  (Index.otherCount entry, Index.otherTypes entry).

(** A dividend of the given symbol, as a row read back from the sheet. *)
Definition dividendRow (symbol : string) : TradeRow :=
  {[ "Stock / ETF Symbol" := symbol; "Transaction Type" := "Dividend" ]}.

(** *** Credential failures *)

(** The texts by which [isLlmAuthError] recognises a credential failure. *)
Definition authMarkers : list string :=
  [ "Missing OPENAI_API_KEY"; "Incorrect API key"; "invalid_api_key";
    "API key expired"; "API_KEY_INVALID" ].

(* ================================================================== *)
(** * Properties *)
(* ================================================================== *)

(** ** Runs of composed programs *)

Lemma run_bind {A B} (o : Oracle) (p : Prog A) (f : A -> Prog B) (w : World) :
  run o (bind p f) w =
  match run o p w with
  | (Returned a, w') => run o (f a) w'
  | (Thrown e, w') => (Thrown e, w')
  end.
Proof.
  revert w. induction p as [a|e|c k IH|k IH|h k IH]; intros w; simpl; auto.
Qed.

Lemma run_tryCatch {A} (o : Oracle) (p : Prog A) (h : Error -> Prog A)
    (w : World) :
  run o (tryCatch p h) w =
  match run o p w with
  | (Returned a, w') => (Returned a, w')
  | (Thrown e, w') => run o (h e) w'
  end.
Proof.
  revert w. induction p as [a|e|c k IH|k IH|h' k IH]; intros w; simpl; auto.
Qed.

Lemma run_mbind {A B} (o : Oracle) (p : Prog A) (f : A -> Prog B) (w : World) :
  run o (p ≫= f) w =
  match run o p w with
  | (Returned a, w') => run o (f a) w'
  | (Thrown e, w') => (Thrown e, w')
  end.
Proof. apply run_bind. Qed.

Lemma run_fmap {A B} (o : Oracle) (p : Prog A) (f : A -> B) (w : World) :
  run o (f <$> p) w =
  match run o p w with
  | (Returned a, w') => (Returned (f a), w')
  | (Thrown e, w') => (Thrown e, w')
  end.
Proof.
  unfold fmap, Prog_fmap. rewrite run_bind.
  destruct (run o p w) as [[a|e] w']; reflexivity.
Qed.

Lemma run_lift {A} (o : Oracle) (r : Error + A) (w : World) :
  run o (lift r) w =
  (match r with inl e => Thrown e | inr a => Returned a end, w).
Proof. destruct r; reflexivity. Qed.

Lemma run_await (o : Oracle) (c : call) (w : World) :
  run o (await c) w =
  (match o (length (requests w)) c with
   | inl e => Thrown e
   | inr a => Returned a
   end, asked w c).
Proof.
  unfold await. simpl. destruct (o (length (requests w)) c); reflexivity.
Qed.

(** ** Slot finder *)

Lemma isEmpty_true (s : string) : JS.isEmpty s = true <-> s = "".
Proof. destruct s; simpl; split; congruence. Qed.

Lemma truthy_false (s : string) : JS.truthy s = false <-> s = "".
Proof.
  unfold JS.truthy. rewrite negb_false_iff. apply isEmpty_true.
Qed.

Lemma isBlankRow_spec (row : list string) :
  Sheets.isBlankRow row = true <-> blankRow row.
Proof.
  unfold Sheets.isBlankRow, blankRow. rewrite negb_true_iff.
  induction row as [|cell row IH]; simpl.
  - split; [constructor | reflexivity].
  - rewrite orb_false_iff, IH, truthy_false. split.
    + intros [H1 H2]. constructor; assumption.
    + intros H. inversion H; subst. split; assumption.
Qed.

Lemma findIndex_None {A} (p : A -> bool) (l : list A) :
  Sheets.findIndex p l = None <-> Forall (fun x => p x = false) l.
Proof.
  induction l as [|x l IH]; simpl.
  - split; [constructor | reflexivity].
  - destruct (p x) eqn:Hp.
    + split; [discriminate|]. intros H. inversion H; subst. congruence.
    + destruct (Sheets.findIndex p l) eqn:Hf; simpl.
      * split; [discriminate|]. intros H. inversion H; subst.
        apply IH in H3. discriminate.
      * split; [|reflexivity]. intros _. constructor; [assumption|].
        apply IH. reflexivity.
Qed.

Lemma findIndex_first {A} (p : A -> bool) (l : list A) (i : nat) (x : A) :
  l !! i = Some x -> p x = true ->
  (forall j y, (j < i)%nat -> l !! j = Some y -> p y = false) ->
  Sheets.findIndex p l = Some i.
Proof.
  revert i. induction l as [|a l IH]; intros i Hx Hp Hbefore.
  - rewrite lookup_nil in Hx. discriminate.
  - simpl. destruct i as [|i]; simpl in Hx.
    + injection Hx as ->. rewrite Hp. reflexivity.
    + rewrite (Hbefore 0%nat a) by (simpl; auto; lia).
      rewrite (IH i Hx Hp); [reflexivity|].
      intros j y Hj Hy. apply (Hbefore (S j) y); [lia | exact Hy].
Qed.



(** ** Row mapper *)

Section RowMapper.

Context (host : Host) (headerIndex : HeaderIndex).

Lemma fillRow_length (entries : list (option string * Sheets.value)) (row : list string) :
  length (Sheets.fillRow host headerIndex entries row) = length row.
Proof.
  unfold Sheets.fillRow. revert row.
  induction entries as [|e entries IH]; intros row; simpl; [reflexivity|].
  rewrite IH. destruct (Sheets.resolve headerIndex (fst e)); [|reflexivity].
  apply length_insert.
Qed.

Lemma fillRow_app (pre post : list (option string * Sheets.value)) (row : list string) :
  Sheets.fillRow host headerIndex (pre ++ post) row =
  Sheets.fillRow host headerIndex post
    (Sheets.fillRow host headerIndex pre row).
Proof. unfold Sheets.fillRow. apply fold_left_app. Qed.

(** A position that no entry resolves to keeps what it held. *)
Lemma fillRow_untouched (entries : list (option string * Sheets.value)) (row : list string) (i : nat) :
  Forall (fun e => Sheets.resolve headerIndex (fst e) <> Some i) entries ->
  Sheets.fillRow host headerIndex entries row !! i = row !! i.
Proof.
  unfold Sheets.fillRow. revert row.
  induction entries as [|e entries IH]; intros row Hnone; simpl; [reflexivity|].
  inversion Hnone as [|? ? He Hrest]; subst.
  rewrite (IH _ Hrest).
  destruct (Sheets.resolve headerIndex (fst e)) as [idx|]; [|reflexivity].
  apply list_lookup_insert_ne. congruence.
Qed.

(** A position holds the text of the last entry that resolves to it. *)
Lemma fillRow_last (pre post : list (option string * Sheets.value)) (e : option string * Sheets.value) (row : list string)
    (i : nat) :
  Sheets.resolve headerIndex (fst e) = Some i ->
  Forall (fun e' => Sheets.resolve headerIndex (fst e') <> Some i) post ->
  (i < length row)%nat ->
  Sheets.fillRow host headerIndex (pre ++ e :: post) row !! i
  = Some (Sheets.cellText host (snd e)).
Proof.
  intros He Hpost Hi.
  rewrite fillRow_app.
  change (e :: post) with ([e] ++ post). rewrite fillRow_app.
  rewrite (fillRow_untouched post _ i Hpost).
  unfold Sheets.fillRow at 1. simpl. rewrite He.
  apply list_lookup_insert_eq. rewrite fillRow_length. exact Hi.
Qed.

Lemma resolvedIndices_elem (entries : list (option string * Sheets.value)) (i : nat) :
  i ∈ Sheets.resolvedIndices headerIndex entries <->
  Exists (fun e => Sheets.resolve headerIndex (fst e) = Some i) entries.
Proof.
  unfold Sheets.resolvedIndices. rewrite list_elem_of_omap, Exists_exists.
  split; intros (e & He & Hr); exists e; split; auto.
Qed.

Lemma resolvedIndices_nil (entries : list (option string * Sheets.value)) :
  Sheets.resolvedIndices headerIndex entries = [] <->
  Forall (fun e => Sheets.resolve headerIndex (fst e) = None) entries.
Proof.
  unfold Sheets.resolvedIndices.
  induction entries as [|e entries IH]; simpl.
  - split; [constructor | reflexivity].
  - destruct (Sheets.resolve headerIndex (fst e)) eqn:E; simpl.
    + split; [discriminate|]. intros H. inversion H; subst. congruence.
    + rewrite IH. split.
      * intros H. constructor; assumption.
      * intros H. inversion H; subst. assumption.
Qed.

End RowMapper.

(** [typeText] yields only valid transaction types once normalised, so
    the server's validation never rejects a typed trade. *)
Lemma typed_transaction_valid (t : TransactionType) :
  Sheets.isValidTransactionType
    (Sheets.normalizeTransactionType (typeText t)) = true.
Proof. destruct t; reflexivity. Qed.

Section BuildRow.

Context (host : Host) (config : TradeLogConfig) (trade : TradeInput)
        (headerIndex : HeaderIndex).

Lemma resolvedIndices_rowEntries (normalizedType : string) :
  Sheets.resolvedIndices headerIndex
    (Sheets.rowEntries config trade normalizedType)
  = resolvedColumns config headerIndex.
Proof. reflexivity. Qed.

Lemma buildRow_cases :
  (resolvedColumns config headerIndex = [] /\
   Sheets.buildRow host config trade headerIndex = inl Sheets.NoMatchingHeaders /\
   Api.buildRow host trade headerIndex config = inl Api.NoMatchingHeaders) \/
  (resolvedColumns config headerIndex <> [] /\
   Sheets.buildRow host config trade headerIndex = inr (filledRow host config trade headerIndex) /\
   Api.buildRow host trade headerIndex config = inr (filledRow host config trade headerIndex)).
Proof.
  unfold Sheets.buildRow, Api.buildRow, filledRow.
  rewrite typed_transaction_valid. simpl negb. cbv iota.
  rewrite resolvedIndices_rowEntries.
  destruct (resolvedColumns config headerIndex) as [|i l] eqn:E.
  - left. auto.
  - right. repeat split; congruence.
Qed.

Lemma filledRow_length :
  length (filledRow host config trade headerIndex) = S (max_list (resolvedColumns config headerIndex)).
Proof.
  unfold filledRow. rewrite fillRow_length, length_replicate. lia.
Qed.

Lemma filledRow_blank (i : nat) :
  (i < length (filledRow host config trade headerIndex))%nat ->
  i ∉ resolvedColumns config headerIndex ->
  filledRow host config trade headerIndex !! i = Some "".
Proof.
  intros Hi Hnot. unfold filledRow. rewrite fillRow_untouched.
  - apply lookup_replicate_2. rewrite filledRow_length in Hi. lia.
  - rewrite <- (resolvedIndices_rowEntries
                  (Sheets.normalizeTransactionType
                     (typeText (transactionType trade)))) in Hnot.
    rewrite resolvedIndices_elem in Hnot.
    apply Forall_forall. intros e He Hr. apply Hnot.
    apply Exists_exists. exists e. split; assumption.
Qed.

End BuildRow.

(** Among the entries that satisfy a decidable property there is a last
    one. *)
Lemma Exists_last_split {A} (P : A -> Prop) (l : list A) :
  (forall x, Decision (P x)) ->
  Exists P l ->
  exists pre x post, l = pre ++ x :: post /\ P x /\ Forall (fun y => ~ P y) post.
Proof.
  intros Hdec. induction l as [|a l IH]; intros Hex.
  - inversion Hex.
  - destruct (decide (Exists P l)) as [Hl|Hl].
    + destruct (IH Hl) as (pre & x & post & -> & Hx & Hpost).
      exists (a :: pre), x, post. auto.
    + inversion Hex as [? ? Ha|? ? Ht]; subst; [|contradiction].
      exists [], a, l. repeat split; auto.
      apply Forall_forall. intros y Hy HP. apply Hl.
      apply Exists_exists. exists y. auto.
Qed.

(** C1: [buildRow] fails, with [NoMatchingHeaders], exactly when no
    configured field resolves to a column; otherwise it succeeds with a
    row of length [max resolved column + 1] that is blank wherever no
    field resolves and holds a resolved field's text elsewhere.  This
    holds of the server's [buildRow] and of the serverless one. *)
Theorem buildRow_fails_iff_no_header_resolves
    (host : Host) (config : TradeLogConfig) (trade : TradeInput)
    (headerIndex : HeaderIndex) :
  let resolved := resolvedColumns config headerIndex in
  (resolved = [] /\
   Sheets.buildRow host config trade headerIndex = inl Sheets.NoMatchingHeaders /\
   Api.buildRow host trade headerIndex config = inl Api.NoMatchingHeaders)
  \/
  (resolved <> [] /\
   exists row,
     Sheets.buildRow host config trade headerIndex = inr row /\
     Api.buildRow host trade headerIndex config = inr row /\
     length row = S (max_list resolved) /\
     (forall i, (i < length row)%nat -> i ∉ resolved -> row !! i = Some "") /\
     (forall i, i ∈ resolved ->
        exists header v,
          Sheets.resolve headerIndex header = Some i /\
          (header, v) ∈ Sheets.rowEntries config trade
                           (Sheets.normalizeTransactionType
                              (typeText (transactionType trade))) /\
          row !! i = Some (Sheets.cellText host v))).
Proof.
  intros resolved.
  destruct (buildRow_cases host config trade headerIndex)
    as [(Hnil & Hs & Ha) | (Hne & Hs & Ha)]; [left; auto | right].
  split; [exact Hne|]. exists (filledRow host config trade headerIndex).
  split; [exact Hs|]. split; [exact Ha|].
  split; [apply filledRow_length|].
  split; [apply filledRow_blank|].
  intros i Hi.
  pose proof Hi as Hmax. apply max_list_elem_of_le in Hmax.
  unfold resolved in Hi.
  rewrite <- (resolvedIndices_rowEntries config trade headerIndex
                (Sheets.normalizeTransactionType
                   (typeText (transactionType trade)))) in Hi.
  apply resolvedIndices_elem in Hi.
  apply Exists_last_split in Hi; [|intros x; apply _].
  destruct Hi as (pre & [header v] & post & Hsplit & Hres & Hpost).
  exists header, v. split; [exact Hres|]. split.
  - rewrite Hsplit. apply elem_of_app. right. left.
  - unfold filledRow. rewrite Hsplit. apply fillRow_last; auto.
    rewrite length_replicate. fold resolved. lia.
Qed.

(** C5: the total that [buildRow] stores is [quantity * amountPerUnit]
    when [totalAmount] is absent, not finite or zero, and the given
    [totalAmount] when that is finite and not zero.  The stored total is
    the cell at the column of the total-amount header, provided the two
    fields written after it go to other columns. *)
Theorem stored_total_defaults_to_product
    (host : Host) (config : TradeLogConfig) (trade : TradeInput)
    (headerIndex : HeaderIndex) (row : list string) (i : nat) :
  Sheets.buildRow host config trade headerIndex = inr row \/
  Api.buildRow host trade headerIndex config = inr row ->
  Sheets.resolve headerIndex (c_totalAmount (columns config)) = Some i ->
  Sheets.resolve headerIndex (c_tradingFees (columns config)) <> Some i ->
  Sheets.resolve headerIndex (c_investmentAccount (columns config)) <> Some i ->
  ((totalAmount trade = None \/
    exists t, totalAmount trade = Some t /\
              (JS.isFinite t = false \/ PrimFloat.eqb t 0%float = true)) ->
   row !! i = Some (numberToString host
                      (PrimFloat.mul (quantity trade) (amountPerUnit trade))))
  /\
  (forall t, totalAmount trade = Some t ->
             JS.isFinite t = true -> PrimFloat.eqb t 0%float = false ->
             row !! i = Some (numberToString host t)).
Proof.
  intros Hbuilt Htotal Hfees Haccount.
  assert (row = filledRow host config trade headerIndex
          /\ i ∈ resolvedColumns config headerIndex) as [Hrow Hi].
  { assert (i ∈ resolvedColumns config headerIndex) as Hi.
    { unfold resolvedColumns, configuredHeaders.
      apply list_elem_of_omap. exists (c_totalAmount (columns config)).
      split; [|exact Htotal]. do 5 right. left. }
    split; [|exact Hi].
    destruct (buildRow_cases host config trade headerIndex)
      as [(Hnil & Hs & Ha) | (Hne & Hs & Ha)].
    - rewrite Hnil in Hi. inversion Hi.
    - destruct Hbuilt as [Hb|Hb]; congruence. }
  rewrite Hrow. clear Hrow Hbuilt.
  assert (filledRow host config trade headerIndex !! i
          = Some (numberToString host (Sheets.rowTotalAmount trade))) as Hcell.
  { unfold filledRow, Sheets.rowEntries.
    match goal with
    | |- Sheets.fillRow _ _ [?e1; ?e2; ?e3; ?e4; ?e5; ?e6; ?e7; ?e8] _ !! _ = _ =>
        change [e1; e2; e3; e4; e5; e6; e7; e8]
          with ([e1; e2; e3; e4; e5] ++ e6 :: [e7; e8])
    end.
    rewrite (fillRow_last host headerIndex _ _ _ _ i).
    - reflexivity.
    - exact Htotal.
    - constructor; [exact Hfees|]. constructor; [exact Haccount|]. constructor.
    - rewrite length_replicate. apply max_list_elem_of_le in Hi. lia. }
  rewrite Hcell. unfold Sheets.rowTotalAmount, JS.isZero. split.
  - intros [Hnone | (t & Ht & Hbad)].
    + rewrite Hnone. reflexivity.
    + rewrite Ht. destruct Hbad as [Hf | Hz].
      * rewrite Hf. reflexivity.
      * rewrite Hz. rewrite andb_false_r. reflexivity.
  - intros t Ht Hf Hz. rewrite Ht, Hf, Hz. reflexivity.
Qed.

Lemma buildRow_fails_iff_no_header_resolves_witness :
  Api.buildRow sampleHost sampleTrade sampleHeaders Api.config
  = inr ["AAPL"; ""; "50"; ""; "01-20-2026"] /\
  Sheets.buildRow sampleHost Api.config sampleTrade ∅
  = inl Sheets.NoMatchingHeaders.
Proof.
  split.
  - destruct (buildRow_fails_iff_no_header_resolves
                sampleHost Api.config sampleTrade sampleHeaders)
      as [(Hnil & _) | (_ & row & _ & Hrow & _)].
    + vm_compute in Hnil. discriminate.
    + vm_compute. reflexivity.
  - destruct (buildRow_fails_iff_no_header_resolves
                sampleHost Api.config sampleTrade ∅)
      as [(_ & Hfail & _) | (Hne & _)].
    + exact Hfail.
    + exfalso. apply Hne. vm_compute. reflexivity.
Defined.

Lemma stored_total_defaults_to_product_witness :
  ["AAPL"; ""; "50"; ""; "01-20-2026"] !! 2%nat = Some "50".
Proof.
  pose proof (stored_total_defaults_to_product
                sampleHost Api.config sampleTrade sampleHeaders
                ["AAPL"; ""; "50"; ""; "01-20-2026"] 2) as H.
  destruct H as [Habsent _].
  - right. vm_compute. reflexivity.
  - vm_compute. reflexivity.
  - vm_compute. discriminate.
  - vm_compute. discriminate.
  - rewrite Habsent; [vm_compute; reflexivity | left; reflexivity].
Defined.

(** ** Capacity manager *)

Lemma run_awaitSheets (o : Oracle) (c : call)
    (spreadsheetId email action : string) (w : World) :
  run o (Sheets.awaitSheets c spreadsheetId email action) w =
  (match o (length (requests w)) c with
   | inl e => Thrown (Sheets.formatSheetsError e spreadsheetId email action)
   | inr a => Returned a
   end, asked w c).
Proof.
  unfold Sheets.awaitSheets. rewrite run_tryCatch, run_await.
  destruct (o (length (requests w)) c); reflexivity.
Qed.

Lemma run_getSheetProperties (o : Oracle) (context : Sheets.SheetsContext)
    (spreadsheetId sheet : string) (w : World) sheets :
  o (length (requests w)) (SpreadsheetsGet spreadsheetId Sheets.gridFields)
  = inr sheets ->
  run o (Sheets.getSheetProperties context spreadsheetId sheet) w =
  (match Sheets.pickSheet spreadsheetId sheet sheets with
   | inl e => Thrown e
   | inr grid => Returned grid
   end, asked w (SpreadsheetsGet spreadsheetId Sheets.gridFields))
  /\
  run o (Api.getSheetProperties context spreadsheetId sheet) w =
  (match Sheets.pickSheet spreadsheetId sheet sheets with
   | inl e => Thrown e
   | inr grid => Returned grid
   end, asked w (SpreadsheetsGet spreadsheetId Sheets.gridFields)).
Proof.
  intros Hanswer.
  unfold Sheets.getSheetProperties, Api.getSheetProperties.
  rewrite !run_mbind.
  rewrite (run_awaitSheets o (SpreadsheetsGet spreadsheetId Sheets.gridFields)).
  rewrite (run_await o (SpreadsheetsGet spreadsheetId Sheets.gridFields)).
  rewrite Hanswer, !run_lift.
  split; reflexivity.
Qed.

Lemma max_unchanged (current minimum : Z) :
  (Z.max current minimum =? current)%Z = (minimum <=? current)%Z.
Proof.
  destruct (Z.leb_spec minimum current), (Z.eqb_spec (Z.max current minimum) current);
    try reflexivity; lia.
Qed.

(** C2, as the code has it: once the grid size is read, the server's
    capacity check resizes only when a minimum is not met, and then once,
    to the larger of current and minimum in each dimension, without any
    buffer; the serverless variant resizes, once, whenever the rows fall
    short of the minimum plus ten or the columns of their minimum, to
    [max rows (minRows + 10)] by [max columns minColumns]. *)
Theorem ensureSheetCapacity_resizes_once
    (o : Oracle) (w : World) (context : Sheets.SheetsContext)
    (spreadsheetId sheet : string) (minRows minColumns : Z)
    sheets (grid : Sheets.SheetGrid) :
  o (length (requests w)) (SpreadsheetsGet spreadsheetId Sheets.gridFields)
  = inr sheets ->
  Sheets.pickSheet spreadsheetId sheet sheets = inr grid ->
  let rows := Sheets.g_rowCount grid in
  let cols := Sheets.g_columnCount grid in
  requests (snd (run o (Sheets.ensureSheetCapacity context spreadsheetId sheet
                          minRows minColumns) w))
  = requests w ++
    capacityRequests spreadsheetId (Sheets.g_sheetId grid)
      ((minRows <=? rows)%Z && (minColumns <=? cols)%Z)
      (Z.max rows minRows) (Z.max cols minColumns)
  /\
  requests (snd (run o (Api.ensureSheetCapacity context spreadsheetId sheet
                          minRows minColumns) w))
  = requests w ++
    capacityRequests spreadsheetId (Sheets.g_sheetId grid)
      ((minRows + 10 <=? rows)%Z && (minColumns <=? cols)%Z)
      (Z.max rows (minRows + 10)) (Z.max cols minColumns).
Proof.
  intros Hanswer Hgrid rows cols.
  destruct (run_getSheetProperties o context spreadsheetId sheet w sheets Hanswer)
    as [Hserver Hvariant].
  unfold Sheets.ensureSheetCapacity, Api.ensureSheetCapacity, capacityRequests.
  rewrite !run_mbind, Hserver, Hvariant, Hgrid.
  fold rows cols. rewrite !max_unchanged.
  split.
  - destruct ((minRows <=? rows)%Z && (minColumns <=? cols)%Z); cbv iota.
    + reflexivity.
    + rewrite (run_awaitSheets o (BatchUpdate _ _ _ _)). simpl.
      rewrite <- app_assoc. reflexivity.
  - destruct ((minRows + 10 <=? rows)%Z && (minColumns <=? cols)%Z); cbv iota.
    + reflexivity.
    + rewrite (run_await o (BatchUpdate _ _ _ _)). simpl.
      rewrite <- app_assoc. reflexivity.
Qed.

Lemma ensureSheetCapacity_resizes_once_witness :
  requests (snd (run sampleOracle
                   (Sheets.ensureSheetCapacity sampleContext "sheet-1"
                      "Trade Log" 105 5) startWorld))
  = [ SpreadsheetsGet "sheet-1" Sheets.gridFields;
      BatchUpdate "sheet-1" 7 105 26 ] /\
  requests (snd (run sampleOracle
                   (Api.ensureSheetCapacity sampleContext "sheet-1"
                      "Trade Log" 95 5) startWorld))
  = [ SpreadsheetsGet "sheet-1" Sheets.gridFields;
      BatchUpdate "sheet-1" 7 105 26 ].
Proof.
  destruct (ensureSheetCapacity_resizes_once sampleOracle startWorld
              sampleContext "sheet-1" "Trade Log" 105 5 sampleSheets
              {| Sheets.g_sheetId := 7; Sheets.g_rowCount := 100;
                 Sheets.g_columnCount := 26 |} eq_refl eq_refl) as [Hserver _].
  destruct (ensureSheetCapacity_resizes_once sampleOracle startWorld
              sampleContext "sheet-1" "Trade Log" 95 5 sampleSheets
              {| Sheets.g_sheetId := 7; Sheets.g_rowCount := 100;
                 Sheets.g_columnCount := 26 |} eq_refl eq_refl) as [_ Hvariant].
  split; [exact Hserver | exact Hvariant].
Defined.

(** C2, as stated, fails for both implementations.  On a grid of 100 by
    26: the server asked for 105 rows resizes to 105, not to 115; the
    serverless variant asked for 95 rows resizes to 105 although both
    minimums are met. *)
Lemma ensureSheetCapacity_not_as_stated :
  ~ statedCapacityBehaviour Sheets.ensureSheetCapacity /\
  ~ statedCapacityBehaviour Api.ensureSheetCapacity.
Proof.
  split; intros Hstated.
  - specialize (Hstated sampleOracle startWorld sampleContext "sheet-1"
                  "Trade Log" 105%Z 5%Z sampleSheets
                  {| Sheets.g_sheetId := 7; Sheets.g_rowCount := 100;
                     Sheets.g_columnCount := 26 |} eq_refl eq_refl).
    vm_compute in Hstated. discriminate.
  - specialize (Hstated sampleOracle startWorld sampleContext "sheet-1"
                  "Trade Log" 95%Z 5%Z sampleSheets
                  {| Sheets.g_sheetId := 7; Sheets.g_rowCount := 100;
                     Sheets.g_columnCount := 26 |} eq_refl eq_refl).
    vm_compute in Hstated. discriminate.
Qed.

(** ** Chat history *)

Lemma quiet_run {A} (o : Oracle) (p : Prog A) (w : World) :
  Quiet p -> chatHistory (snd (run o p w)) = chatHistory w.
Proof.
  revert w. induction p as [a|e|c k IH|k IH|h k IH]; intros w Hq; simpl in *.
  - reflexivity.
  - reflexivity.
  - rewrite IH; [reflexivity | apply Hq].
  - apply IH, Hq.
  - contradiction.
Qed.

Lemma quiet_bind {A B} (p : Prog A) (f : A -> Prog B) :
  Quiet p -> (forall a, Quiet (f a)) -> Quiet (p ≫= f).
Proof.
  unfold mbind, Prog_bind.
  induction p as [a|e|c k IH|k IH|h k IH]; intros Hp Hf; simpl in *; auto.
Qed.

Lemma quiet_tryCatch {A} (p : Prog A) (h : Error -> Prog A) :
  Quiet p -> (forall e, Quiet (h e)) -> Quiet (tryCatch p h).
Proof.
  induction p as [a|e|c k IH|k IH|h' k IH]; intros Hp Hh; simpl in *; auto.
Qed.

Lemma quiet_fmap {A B} (f : A -> B) (p : Prog A) :
  Quiet p -> Quiet (f <$> p).
Proof.
  intros Hp. unfold fmap, Prog_fmap.
  induction p as [a|e|c k IH|k IH|h k IH]; simpl in *; auto.
Qed.

Lemma quiet_await (c : call) : Quiet (await c).
Proof. intros [e|a]; exact I. Qed.

Lemma quiet_lift {A} (r : Error + A) : Quiet (lift r).
Proof. destruct r; exact I. Qed.

Lemma quiet_mret {A} (a : A) : Quiet (mret a : Prog A).
Proof. exact I. Qed.

Lemma quiet_getHistory : Quiet Index.getHistory.
Proof. intros h. exact I. Qed.

(** Splits a goal [Quiet p] along the structure of [p]. *)
Ltac quiet :=
  repeat first
    [ exact I
    | apply quiet_getHistory
    | apply quiet_await
    | apply quiet_lift
    | apply quiet_mret
    | apply quiet_fmap
    | apply quiet_tryCatch; [| intros ?]
    | apply quiet_bind; [| intros ?]
    | match goal with
      | |- Quiet (if ?b then _ else _) => destruct b
      | |- Quiet (match ?x with _ => _ end) => destruct x
      | |- Quiet (let '(_, _) := ?x in _) => destruct x
      end ].

Section QuietCalls.

Context (host : Host) (env : Env) (config : TradeLogConfig).

Lemma quiet_awaitSheets (c : call) (spreadsheetId email action : string) :
  Quiet (Sheets.awaitSheets c spreadsheetId email action).
Proof. unfold Sheets.awaitSheets. quiet. Qed.

Lemma quiet_appendTradeRow (trade : TradeInput) :
  Quiet (Sheets.appendTradeRow host env config trade).
Proof.
  unfold Sheets.appendTradeRow, Sheets.getHeaderIndex,
    Sheets.ensureSheetCapacity, Sheets.getSheetProperties.
  quiet; apply quiet_awaitSheets.
Qed.

Lemma quiet_readTrades : Quiet (Sheets.readTrades env config).
Proof.
  unfold Sheets.readTrades, Sheets.getHeaderIndex.
  quiet; apply quiet_awaitSheets.
Qed.

Lemma quiet_interpretMessage (message : string) (history : list ChatMessage) :
  Quiet (Agent.interpretMessage host env message history).
Proof. unfold Agent.interpretMessage. quiet. Qed.

Lemma quiet_generateReply (message : string)
    (context : option Agent.ReplyContext) (history : list ChatMessage) :
  Quiet (Agent.generateReply host env message context history).
Proof.
  unfold Agent.generateReply, Agent.searchStep, Agent.fetchLinkupSearch.
  quiet.
Qed.

Lemma quiet_api_appendTradeRow (trade : TradeInput) (cfg : TradeLogConfig) :
  Quiet (Api.appendTradeRow host env trade cfg).
Proof.
  unfold Api.appendTradeRow, Api.getHeaderIndex, Api.ensureSheetCapacity,
    Api.getSheetProperties.
  quiet.
Qed.

Lemma quiet_api_readTrades (cfg : TradeLogConfig) :
  Quiet (Api.readTrades env cfg).
Proof. unfold Api.readTrades, Api.getHeaderIndex. quiet. Qed.

Lemma quiet_api_interpretMessage (message : string)
    (history : list ChatMessage) :
  Quiet (Api.interpretMessage host env message history).
Proof. unfold Api.interpretMessage. quiet. Qed.

Lemma quiet_api_generateReply (message : string)
    (context : option Agent.ReplyContext) (history : list ChatMessage)
    (tools : ToolUsage) :
  Quiet (Api.generateReply host env message context history tools).
Proof.
  unfold Api.generateReply, Api.searchStep, Api.fetchLinkupSearch.
  quiet.
Qed.

End QuietCalls.

Lemma run_getHistory (o : Oracle) (w : World) :
  run o Index.getHistory w = (Returned (chatHistory w), w).
Proof. reflexivity. Qed.

Lemma run_recordTurn (o : Oracle) (message reply : string) (w : World) :
  run o (Index.recordTurn message reply) w =
  (Returned tt, {| chatHistory := turn (chatHistory w) message reply;
                   requests := requests w |}).
Proof. reflexivity. Qed.

(** After a quiet step the rest of the program starts from the same
    history; a throw of the quiet step leaves it as it was. *)
Lemma ensures_quiet_bind {A B} (p : Prog A) (f : A -> Prog B)
    (Q : list ChatMessage -> Outcome B -> list ChatMessage -> Prop) :
  Quiet p ->
  (forall a, Ensures (f a) Q) ->
  (forall h e, Q h (Thrown e) h) ->
  Ensures (p ≫= f) Q.
Proof.
  intros Hquiet Hrest Hthrow o w. rewrite run_mbind.
  pose proof (quiet_run o p w Hquiet) as Hsame.
  destruct (run o p w) as [[a|e] w']; simpl in Hsame.
  - rewrite <- Hsame. apply Hrest.
  - simpl. rewrite Hsame. apply Hthrow.
Qed.

Lemma ensures_tryCatch {A} (p : Prog A) (handler : Error -> Prog A)
    (Q : list ChatMessage -> Outcome A -> list ChatMessage -> Prop) :
  Ensures p Q ->
  (forall h e h', Q h (Thrown e) h' -> h' = h) ->
  (forall e, Ensures (handler e) Q) ->
  Ensures (tryCatch p handler) Q.
Proof.
  intros Hp Hthrow Hhandler o w. rewrite run_tryCatch.
  specialize (Hp o w).
  destruct (run o p w) as [[a|e] w']; simpl in Hp.
  - exact Hp.
  - apply Hthrow in Hp. rewrite <- Hp. apply Hhandler.
Qed.

Lemma turn_thrown (m : string) (h : list ChatMessage) (e : Error)
    (h' : list ChatMessage) :
  Turn m h (Thrown e) h' -> h' = h.
Proof. intros H. inversion H. reflexivity. Qed.

Lemma api_turn_thrown (m : string) (h : list ChatMessage) (e : Error)
    (h' : list ChatMessage) :
  ApiTurn m h (Thrown e) h' -> h' = h.
Proof. intros H. inversion H. reflexivity. Qed.

Section Orchestrator.

Context (host : Host) (env : Env) (config : TradeLogConfig).

Lemma ensures_composeAndRecord (m : string) (status : Z)
    (context : Agent.ReplyContext) :
  status = 200%Z \/ status = 500%Z ->
  Ensures (Index.composeAndRecord host env m status context) (Turn m).
Proof.
  intros Hstatus. unfold Index.composeAndRecord.
  apply ensures_quiet_bind; [apply quiet_getHistory | | constructor].
  intros history.
  apply ensures_quiet_bind; [apply quiet_generateReply | | constructor].
  intros [reply tools] o w.
  rewrite run_mbind, run_recordTurn. simpl.
  apply (Recorded m (chatHistory w)
           {| Index.code := status; Index.reply := reply;
              Index.tools := Some tools |}).
  exact Hstatus.
Qed.

Lemma ensures_manualFallback (m : string) :
  Ensures (Index.manualFallback host env config m) (Turn m).
Proof.
  unfold Index.manualFallback.
  destruct (Index.getMissingManualFields (Index.parseManualTrade m)).
  - destruct (Index.manualTrade (Index.parseManualTrade m)) as [trade|].
    + apply ensures_quiet_bind; [apply quiet_appendTradeRow | | constructor].
      intros [] o w. rewrite run_mbind, run_recordTurn. simpl.
      apply (Recorded m (chatHistory w)
               {| Index.code := 200;
                  Index.reply := Index.manualTradeConfirmation host trade;
                  Index.tools := Some Agent.defaultTools |}).
      left. reflexivity.
    + intros o w. simpl. constructor.
  - intros o w. simpl. apply Silent. simpl. auto.
Qed.

Lemma ensures_dispatch (m : string) (action : Agent.Interpretation) :
  Ensures (Index.dispatch host env config m action) (Turn m).
Proof.
  unfold Index.dispatch.
  destruct (Agent.action action); [destruct (Agent.trade action)| |].
  - apply ensures_quiet_bind; [apply quiet_appendTradeRow | | constructor].
    intros _. apply ensures_composeAndRecord. auto.
  - apply ensures_composeAndRecord. auto.
  - apply ensures_quiet_bind; [apply quiet_readTrades | | constructor].
    intros trades. apply ensures_composeAndRecord. auto.
  - apply ensures_composeAndRecord. auto.
Qed.

Lemma ensures_recover (m : string) (e : Error) :
  Ensures (Index.recover host env config m e) (Turn m).
Proof.
  unfold Index.recover.
  destruct (Index.isLlmAuthError (err_message e)).
  - apply ensures_manualFallback.
  - apply ensures_tryCatch.
    + apply ensures_composeAndRecord. auto.
    + apply turn_thrown.
    + intros _ o w. simpl. apply Silent. simpl. auto.
Qed.

Lemma ensures_chat (bodyMessage : option string) :
  Ensures (Index.chat host env config bodyMessage)
    (Turn (received bodyMessage)).
Proof.
  unfold Index.chat. fold (received bodyMessage).
  set (m := received bodyMessage).
  destruct (JS.truthy m).
  2:{ intros o w. simpl. apply Silent. simpl. auto. }
  simpl negb. cbv iota.
  apply ensures_tryCatch; [| apply turn_thrown | apply ensures_recover].
  intros o w. rewrite run_mbind, run_tryCatch, run_mbind, run_getHistory.
  rewrite run_fmap.
  pose proof (quiet_run o (Agent.interpretMessage host env m (chatHistory w)) w
                (quiet_interpretMessage host env m (chatHistory w))) as Hsame.
  destruct (run o (Agent.interpretMessage host env m (chatHistory w)) w)
    as [[action|e] w1]; simpl in Hsame.
  - rewrite <- Hsame. apply ensures_dispatch.
  - rewrite <- Hsame. clear Hsame.
    destruct (Index.isLlmAuthError (err_message e)).
    + rewrite run_fmap.
      pose proof (ensures_manualFallback m o w1) as Hmanual.
      destruct (run o (Index.manualFallback host env config m) w1)
        as [[r|e'] w2]; simpl in *.
      * exact Hmanual.
      * exact Hmanual.
    + simpl. constructor.
Qed.

End Orchestrator.

Section ApiOrchestrator.

Context (host : Host) (env : Env).

Lemma ensures_api_composeAndRecord (m : string)
    (context : Agent.ReplyContext) (tools : ToolUsage) :
  Ensures (Api.composeAndRecord host env m context tools) (ApiTurn m).
Proof.
  unfold Api.composeAndRecord.
  apply ensures_quiet_bind; [apply quiet_getHistory | | constructor].
  intros history.
  apply ensures_quiet_bind; [apply quiet_api_generateReply | | constructor].
  intros [reply updated] o w.
  rewrite run_mbind, run_recordTurn. simpl. constructor.
Qed.

Lemma ensures_api_respond (m : string) :
  Ensures (Api.respond host env m) (ApiTurn m).
Proof.
  unfold Api.respond.
  apply ensures_quiet_bind; [apply quiet_getHistory | | constructor].
  intros history.
  apply ensures_quiet_bind; [apply quiet_api_interpretMessage | | constructor].
  intros action.
  destruct (Agent.action action); [destruct (Agent.trade action)| |].
  - apply ensures_quiet_bind; [apply quiet_api_appendTradeRow | | constructor].
    intros _. apply ensures_api_composeAndRecord.
  - apply ensures_api_composeAndRecord.
  - apply ensures_quiet_bind; [apply quiet_api_readTrades | | constructor].
    intros trades. apply ensures_api_composeAndRecord.
  - apply ensures_api_composeAndRecord.
Qed.

Lemma ensures_api_handler (method : string) (bodyMessage : option string) :
  Ensures (Api.handler host env method bodyMessage)
    (ApiTurn (received bodyMessage)).
Proof.
  unfold Api.handler. fold (received bodyMessage).
  destruct (String.eqb method "OPTIONS").
  { intros o w. simpl. apply ApiSilent. discriminate. }
  destruct (String.eqb method "POST"); simpl negb; cbv iota.
  2:{ intros o w. simpl. apply ApiSilent. discriminate. }
  destruct (JS.truthy (received bodyMessage)); simpl negb; cbv iota.
  2:{ intros o w. simpl. apply ApiSilent. discriminate. }
  apply ensures_tryCatch.
  - apply ensures_api_respond.
  - apply api_turn_thrown.
  - intros e o w. simpl. apply ApiSilent. discriminate.
Qed.

End ApiOrchestrator.




(** ** Intent resolver *)

(** C8: [interpretMessage] throws only for a missing completion
    credential or a refused completion request; once the service has
    answered, whatever the text, it returns: a missing brace span or a
    failed parse gives the payload [{}], and a payload that fails the
    schema gives the [unknown] action.  The same holds in the serverless
    variant. *)
Theorem interpretMessage_throws_only_for_the_service
    (host : Host) (env : Env) (o : Oracle) (w : World)
    (message : string) (history : list ChatMessage) :
  match Agent.openAiKey env with
  | inl e =>
      e = Agent.MissingOpenAiKey /\
      fst (run o (Agent.interpretMessage host env message history) w) = Thrown e /\
      fst (run o (Api.interpretMessage host env message history) w) = Thrown e
  | inr key =>
      match o (length (requests w))
              (Agent.interpretRequest env key message history) with
      | inl e =>
          fst (run o (Agent.interpretMessage host env message history) w)
          = Thrown e
      | inr text =>
          fst (run o (Agent.interpretMessage host env message history) w)
          = Returned (Agent.decodeResponse host (text ?? ""))
      end /\
      match o (length (requests w))
              (Api.interpretRequest env key message history) with
      | inl e =>
          fst (run o (Api.interpretMessage host env message history) w)
          = Thrown e
      | inr text =>
          fst (run o (Api.interpretMessage host env message history) w)
          = Returned (Agent.decodeResponse host (text ?? ""))
      end
  end /\
  (forall text : string,
     (Agent.extractJson text = None ->
      Agent.extractPayload host text = JObject []) /\
     (forall span, Agent.extractJson text = Some span ->
                   JSON_parse host span = None ->
                   Agent.extractPayload host text = JObject []) /\
     (Agent.safeParse (Agent.extractPayload host text) = None ->
      Agent.decodeResponse host text = Agent.unknownAction)) /\
  Agent.safeParse (JObject []) = None.
Proof.
  split; [|split; [|reflexivity]].
  - unfold Agent.interpretMessage, Api.interpretMessage.
    rewrite !run_mbind, !run_lift.
    destruct (Agent.openAiKey env) as [e|key] eqn:Hkey.
    + split; [|split; reflexivity].
      unfold Agent.openAiKey in Hkey.
      destruct (env !! "OPENAI_API_KEY") as [k|];
        [destruct (JS.truthy k)|]; congruence.
    + rewrite (run_mbind o (await (Agent.interpretRequest env key message history))).
      rewrite (run_mbind o (await (Api.interpretRequest env key message history))).
      rewrite (run_await o (Agent.interpretRequest env key message history)).
      rewrite (run_await o (Api.interpretRequest env key message history)).
      split.
      * destruct (o (length (requests w))
                    (Agent.interpretRequest env key message history));
          reflexivity.
      * destruct (o (length (requests w))
                    (Api.interpretRequest env key message history));
          reflexivity.
  - intros text. unfold Agent.decodeResponse, Agent.extractPayload.
    split; [|split].
    + intros ->. reflexivity.
    + intros span -> Hparse. rewrite Hparse.
      destruct (JS.truthy span); reflexivity.
    + intros ->. reflexivity.
Qed.

Lemma interpretMessage_throws_only_for_the_service_witness :
  Agent.decodeResponse sampleHost "I am not sure what you mean {"
  = Agent.unknownAction.
Proof.
  destruct (interpretMessage_throws_only_for_the_service
              sampleHost keyOnly sampleOracle startWorld "hello" [])
    as (_ & Hdecode & Hempty).
  destruct (Hdecode "I am not sure what you mean {") as (Hspan & _ & Hschema).
  apply Hschema. rewrite Hspan; [exact Hempty | reflexivity].
Defined.

(** ** Reply composer *)

Section ReplyComposer.

Context (host : Host) (env : Env) (o : Oracle) (w : World) (message : string).

Hypothesis triggers : Agent.shouldUseWebSearch message = true.

Lemma run_searchStep :
  run o (Agent.searchStep host env message) w =
  (Returned (searchText host (searchAnswer env o w message),
             statedToolUsage (searchAnswer env o w message)),
   afterSearch env w message).
Proof.
  unfold Agent.searchStep, Agent.fetchLinkupSearch, searchAnswer, afterSearch,
    searchCredential.
  rewrite triggers, run_tryCatch, run_mbind.
  destruct (env !! "LINKUP_API_KEY") as [raw|]; [|reflexivity].
  destruct (JS.truthy (JS.trim raw)); [|reflexivity].
  simpl negb. cbv iota.
  rewrite run_mbind, (run_await o (LinkupSearch (JS.trim raw) message)).
  unfold statedToolUsage, searchText, foundResults.
  destruct (o (length (requests w)) (LinkupSearch (JS.trim raw) message))
    as [e|response]; [reflexivity|].
  destruct (ok response); simpl negb; cbv iota; [|reflexivity].
  rewrite run_mbind, run_lift.
  destruct (body response) as [e|payload]; [reflexivity|].
  simpl. unfold Agent.searchOutcome.
  destruct (search_results payload ?? []); reflexivity.
Qed.

Lemma run_api_searchStep :
  run o (Api.searchStep host env message {| status := skipped; results := 0 |}) w =
  (Returned (searchText host (searchAnswer env o w message),
             statedToolUsage (searchAnswer env o w message)),
   afterSearch env w message).
Proof.
  unfold Api.searchStep, Api.fetchLinkupSearch, searchAnswer, afterSearch,
    searchCredential.
  rewrite triggers, run_mbind.
  destruct (env !! "LINKUP_API_KEY") as [raw|]; [|reflexivity].
  destruct (JS.truthy (JS.trim raw)); [|reflexivity].
  simpl negb. cbv iota.
  rewrite run_tryCatch.
  rewrite run_mbind, (run_await o (LinkupSearch (JS.trim raw) message)).
  unfold statedToolUsage, searchText, foundResults.
  destruct (o (length (requests w)) (LinkupSearch (JS.trim raw) message))
    as [e|response]; [reflexivity|].
  destruct (ok response); simpl negb; cbv iota; [|reflexivity].
  rewrite run_mbind, run_lift.
  destruct (body response) as [e|payload]; [reflexivity|].
  simpl. unfold Api.searchOutcome.
  destruct (search_results payload ?? []); reflexivity.
Qed.

End ReplyComposer.

(** C9: when the message triggers the search heuristic and the completion
    credential is there, [generateReply] returns, as soon as the
    completion service answers, the trimmed text and the tool usage
    [statedToolUsage]: [not_configured] without a search credential,
    [error] on a refused search request, a non-success response or an
    unreadable body, [attempted] on an empty result list, [used] with
    the result count otherwise; it throws only what the completion
    service refuses with.  The message ["current price of AAPL"]
    triggers the heuristic.  The same holds in the serverless variant. *)
Theorem tool_usage_follows_the_search
    (host : Host) (env : Env) (o : Oracle) (w : World) (message : string)
    (context : option Agent.ReplyContext) (history : list ChatMessage)
    (key : string) :
  Agent.shouldUseWebSearch message = true ->
  Agent.openAiKey env = inr key ->
  let answer := searchAnswer env o w message in
  let asked := length (requests (afterSearch env w message)) in
  match o asked (Agent.replyRequest host env key message context history
                   (searchText host answer)) with
  | inl e =>
      fst (run o (Agent.generateReply host env message context history) w)
      = Thrown e
  | inr text =>
      fst (run o (Agent.generateReply host env message context history) w)
      = Returned ((JS.trim <$> text) ?? "", statedToolUsage answer)
  end /\
  match o asked (Api.replyRequest host env key message context history
                   (searchText host answer)) with
  | inl e =>
      fst (run o (Api.generateReply host env message context history
                    {| status := skipped; results := 0 |}) w)
      = Thrown e
  | inr text =>
      fst (run o (Api.generateReply host env message context history
                    {| status := skipped; results := 0 |}) w)
      = Returned ((JS.trim <$> text) ?? "", statedToolUsage answer)
  end /\
  Agent.shouldUseWebSearch "current price of AAPL" = true.
Proof.
  intros Htriggers Hkey answer asked.
  split; [|split; [|reflexivity]].
  - unfold Agent.generateReply.
    rewrite run_mbind, run_lift, Hkey, run_mbind, run_searchStep by assumption.
    fold answer.
    rewrite (run_mbind o (await (Agent.replyRequest host env key message
                                   context history (searchText host answer)))).
    rewrite (run_await o (Agent.replyRequest host env key message context
                            history (searchText host answer))).
    fold asked.
    destruct (o asked (Agent.replyRequest host env key message context history
                         (searchText host answer))); reflexivity.
  - unfold Api.generateReply.
    rewrite run_mbind, run_lift, Hkey, run_mbind, run_api_searchStep
      by assumption.
    fold answer.
    rewrite (run_mbind o (await (Api.replyRequest host env key message
                                   context history (searchText host answer)))).
    rewrite (run_await o (Api.replyRequest host env key message context
                            history (searchText host answer))).
    fold asked.
    destruct (o asked (Api.replyRequest host env key message context history
                         (searchText host answer))); reflexivity.
Qed.

Lemma tool_usage_follows_the_search_witness :
  fst (run sampleOracle
         (Agent.generateReply sampleHost keyOnly "current price of AAPL"
            None []) startWorld)
  = Returned ("Which trade do you mean?",
              {| status := not_configured; results := 0 |}) /\
  fst (run searchingOracle
         (Api.generateReply sampleHost bothKeys "current price of AAPL"
            None [] {| status := skipped; results := 0 |}) startWorld)
  = Returned ("Which trade do you mean?",
              {| status := used; results := 2 |}).
Proof.
  split.
  - destruct (tool_usage_follows_the_search sampleHost keyOnly sampleOracle
                startWorld "current price of AAPL" None [] "sk-test"
                eq_refl eq_refl) as (Hserver & _ & _).
    exact Hserver.
  - destruct (tool_usage_follows_the_search sampleHost bothKeys searchingOracle
                startWorld "current price of AAPL" None [] "sk-test"
                eq_refl eq_refl) as (_ & Hvariant & _).
    exact Hvariant.
Defined.

(** ** Manual fallback *)

Lemma getMissing_by_field (fields : Index.ManualFields) :
  Index.getMissingManualFields fields
  = map labelOf (List.filter (isMissing fields) allFields).
Proof.
  unfold Index.getMissingManualFields, allFields. simpl.
  destruct (bool_decide (Index.m_transactionType fields = None)),
    (Index.absentString (Index.m_symbol fields)),
    (Index.absentNumber (Index.m_quantity fields)),
    (Index.absentNumber (Index.m_amountPerUnit fields)),
    (Index.absentString (Index.m_date fields)),
    (Index.absentNumber (Index.m_totalAmount fields)),
    (bool_decide (Index.m_tradingFees fields = None)),
    (Index.absentString (Index.m_investmentAccount fields));
    reflexivity.
Qed.

Lemma labelOf_inj (f g : Field) : labelOf f = labelOf g -> f = g.
Proof. destruct f, g; simpl; intros H; try reflexivity; discriminate. Qed.

Lemma missing_iff (fields : Index.ManualFields) (f : Field) :
  labelOf f ∈ Index.getMissingManualFields fields <-> isMissing fields f = true.
Proof.
  rewrite getMissing_by_field, list_elem_of_fmap. split.
  - intros (g & Hlabel & Hg). apply labelOf_inj in Hlabel. subst g.
    apply list_elem_of_In, filter_In in Hg. apply Hg.
  - intros Hmissing. exists f. split; [reflexivity|].
    apply list_elem_of_In, filter_In. split; [|exact Hmissing].
    destruct f; simpl; auto 10.
Qed.

Lemma zero_is_absent (x : number) :
  JS.isZero x = true -> Index.absentNumber (Some x) = true.
Proof.
  intros Hzero. unfold Index.absentNumber, JS.truthyNumber.
  rewrite Hzero. reflexivity.
Qed.

(** C10: in a manually parsed message a quantity, amount per unit or
    total amount that parses to zero is reported missing like an absent
    one, whereas trading fees are reported only when absent, so a fee of
    zero is accepted; and with anything missing the manual path commits
    nothing: it answers 503 with the prompt, without any request. *)
Theorem zero_amounts_count_as_missing
    (host : Host) (env : Env) (config : TradeLogConfig) (message : string) :
  let fields := Index.parseManualTrade message in
  let missing := Index.getMissingManualFields fields in
  (forall x, Index.m_quantity fields = Some x -> JS.isZero x = true ->
             "Quantity of Units" ∈ missing) /\
  (forall x, Index.m_amountPerUnit fields = Some x -> JS.isZero x = true ->
             "Amount per unit" ∈ missing) /\
  (forall x, Index.m_totalAmount fields = Some x -> JS.isZero x = true ->
             "Total Amount (before fees)" ∈ missing) /\
  (forall x, Index.m_tradingFees fields = Some x -> "Trading Fees" ∉ missing) /\
  (missing <> [] ->
   forall (o : Oracle) (w : World),
     run o (Index.manualFallback host env config message) w
     = (Returned {| Index.code := 503;
                    Index.reply := Index.manualTradePrompt missing;
                    Index.tools := Some Agent.defaultTools |}, w)).
Proof.
  intros fields missing. repeat split.
  - intros x Hx Hzero. apply (missing_iff fields FQuantity). simpl.
    rewrite Hx. apply zero_is_absent, Hzero.
  - intros x Hx Hzero. apply (missing_iff fields FAmount). simpl.
    rewrite Hx. apply zero_is_absent, Hzero.
  - intros x Hx Hzero. apply (missing_iff fields FTotal). simpl.
    rewrite Hx. apply zero_is_absent, Hzero.
  - intros x Hx Hin. apply (missing_iff fields FFees) in Hin. simpl in Hin.
    rewrite Hx in Hin. discriminate.
  - intros Hmissing o w. unfold Index.manualFallback.
    fold fields. fold missing.
    destruct missing; [contradiction | reflexivity].
Qed.

Lemma zero_amounts_count_as_missing_witness :
  "Quantity of Units"
    ∈ Index.getMissingManualFields
        (Index.parseManualTrade (manualMessage (promptSample "0"))) /\
  "Trading Fees"
    ∉ Index.getMissingManualFields
        (Index.parseManualTrade (manualMessage (promptSample "0"))).
Proof.
  destruct (zero_amounts_count_as_missing sampleHost ∅ Api.config
              (manualMessage (promptSample "0")))
    as (Hquantity & _ & _ & Hfees & _).
  split.
  - exact (Hquantity 0%float eq_refl eq_refl).
  - exact (Hfees 0%float eq_refl).
Defined.

(** ** Manual parser: lines *)

Lemma splitLines_plain_char (c : ascii) (r : string) :
  JS.isLineTerminator c = false ->
  JS.splitLines (String c r) =
  match JS.splitLines r with
  | [] => [String c ""]
  | p :: ps => String c p :: ps
  end.
Proof.
  unfold JS.isLineTerminator. intros Hc.
  apply orb_false_iff in Hc. destruct Hc as [Hlf Hcr].
  destruct r as [|c' r']; simpl; rewrite Hlf, ?Hcr; reflexivity.
Qed.

Lemma splitLines_line (l s : string) :
  JS.existsChar JS.isLineTerminator l = false ->
  JS.splitLines (l +:+ JS.nl +:+ s) = l :: JS.splitLines s.
Proof.
  induction l as [|c l IH]; intros Hplain.
  - reflexivity.
  - simpl in Hplain. apply orb_false_iff in Hplain.
    destruct Hplain as [Hc Hl].
    change (String c l +:+ JS.nl +:+ s) with (String c (l +:+ JS.nl +:+ s)).
    rewrite (splitLines_plain_char c _ Hc), (IH Hl). reflexivity.
Qed.

Lemma splitLines_single (l : string) :
  JS.existsChar JS.isLineTerminator l = false ->
  JS.splitLines l = [l].
Proof.
  induction l as [|c l IH]; intros Hplain.
  - reflexivity.
  - simpl in Hplain. apply orb_false_iff in Hplain.
    destruct Hplain as [Hc Hl].
    rewrite (splitLines_plain_char c _ Hc), (IH Hl). reflexivity.
Qed.

Lemma splitLines_join (lines : list string) :
  Forall (fun l => JS.existsChar JS.isLineTerminator l = false) lines ->
  lines <> [] ->
  JS.splitLines (JS.join JS.nl lines) = lines.
Proof.
  unfold JS.join. induction lines as [|l rest IH]; intros Hplain Hne.
  - contradiction.
  - inversion Hplain as [|? ? Hl Hrest]; subst.
    destruct rest as [|l' rest].
    + simpl. apply splitLines_single, Hl.
    + change (String.concat JS.nl (l :: l' :: rest))
        with (l +:+ JS.nl +:+ String.concat JS.nl (l' :: rest)).
      rewrite splitLines_line by exact Hl.
      rewrite IH; [reflexivity | exact Hrest | discriminate].
Qed.

Lemma existsChar_app (q : ascii -> bool) (a b : string) :
  JS.existsChar q (a +:+ b) = JS.existsChar q a || JS.existsChar q b.
Proof.
  induction a as [|c a IH]; simpl; [reflexivity|].
  rewrite IH. apply orb_assoc.
Qed.

Lemma trimEnd_app (p v : string) :
  JS.trimEnd v <> "" -> JS.trimEnd (p +:+ v) = p +:+ JS.trimEnd v.
Proof.
  intros Hv. induction p as [|c p IH]; [reflexivity|].
  change (String c p +:+ v) with (String c (p +:+ v)).
  change (String c p +:+ JS.trimEnd v) with (String c (p +:+ JS.trimEnd v)).
  simpl JS.trimEnd at 1. rewrite IH.
  destruct (p +:+ JS.trimEnd v) eqn:E.
  - destruct p; simpl in E; [contradiction | discriminate].
  - simpl. rewrite andb_false_r. reflexivity.
Qed.

Lemma removeEmphasis_cons (c : ascii) (r : string) :
  Index.removeEmphasis (String c r) =
  match r with
  | String c' r' =>
      if Ascii.eqb c "*" && Ascii.eqb c' "*" then Index.removeEmphasis r'
      else String c (Index.removeEmphasis r)
  | EmptyString => String c EmptyString
  end.
Proof.
  destruct (Ascii.eqb_spec c "*") as [->|Hc].
  - destruct r as [|c' r']; [reflexivity|].
    destruct (Ascii.eqb_spec c' "*") as [->|Hc']; [reflexivity|].
    destruct c' as [[] [] [] [] [] [] [] []]; try reflexivity; contradiction.
  - destruct r as [|c' r'];
      destruct c as [[] [] [] [] [] [] [] []]; try reflexivity; contradiction.
Qed.

Lemma existsChar_removeEmphasis (q : ascii -> bool) (v : string) :
  JS.existsChar q v = false -> JS.existsChar q (Index.removeEmphasis v) = false.
Proof.
  assert (forall n v, (String.length v <= n)%nat ->
                      JS.existsChar q v = false ->
                      JS.existsChar q (Index.removeEmphasis v) = false) as Hn.
  { induction n as [|n IH]; intros [|c r] Hlen Hq; try reflexivity.
    - simpl in Hlen. lia.
    - simpl in Hlen, Hq. apply orb_false_iff in Hq. destruct Hq as [Hc Hr].
      rewrite removeEmphasis_cons. destruct r as [|c' r'].
      + simpl. rewrite Hc. reflexivity.
      + simpl in Hlen, Hr. apply orb_false_iff in Hr. destruct Hr as [Hc' Hr'].
        destruct (Ascii.eqb c "*" && Ascii.eqb c' "*").
        * apply IH; [lia | exact Hr'].
        * change (q c || JS.existsChar q (Index.removeEmphasis (String c' r'))
                  = false).
          rewrite Hc. apply IH; [simpl; lia | simpl; rewrite Hc', Hr'; reflexivity]. }
  apply (Hn (String.length v)). lia.
Qed.

Lemma existsChar_trimStart (q : ascii -> bool) (v : string) :
  JS.existsChar q v = false -> JS.existsChar q (JS.trimStart v) = false.
Proof.
  induction v as [|c r IH]; intros Hq; [reflexivity|].
  simpl. destruct (JS.isWhiteSpace c); [|exact Hq].
  simpl in Hq. apply orb_false_iff in Hq. apply IH, Hq.
Qed.

Lemma existsChar_trimEnd (q : ascii -> bool) (v : string) :
  JS.existsChar q v = false -> JS.existsChar q (JS.trimEnd v) = false.
Proof.
  induction v as [|c r IH]; intros Hq; [reflexivity|].
  simpl in Hq. apply orb_false_iff in Hq. destruct Hq as [Hc Hr].
  simpl. destruct (JS.isWhiteSpace c && JS.isEmpty (JS.trimEnd r));
    [reflexivity|].
  simpl. rewrite Hc. apply IH, Hr.
Qed.

Lemma trimEnd_idempotent (v : string) : JS.trimEnd (JS.trimEnd v) = JS.trimEnd v.
Proof.
  induction v as [|c r IH]; [reflexivity|]. simpl.
  destruct (JS.isWhiteSpace c && JS.isEmpty (JS.trimEnd r)) eqn:E;
    [reflexivity|].
  simpl. rewrite IH, E. reflexivity.
Qed.

Lemma trimStart_idempotent (v : string) :
  JS.trimStart (JS.trimStart v) = JS.trimStart v.
Proof.
  induction v as [|c r IH]; [reflexivity|]. simpl.
  destruct (JS.isWhiteSpace c) eqn:E; [exact IH|].
  simpl. rewrite E. reflexivity.
Qed.

(** What is trimmed at its end stays so when trimmed at its start. *)
Lemma trimEnd_trimStart (v : string) :
  JS.trimEnd v = v -> JS.trimEnd (JS.trimStart v) = JS.trimStart v.
Proof.
  induction v as [|c r IH]; intros Hend; [reflexivity|].
  simpl. destruct (JS.isWhiteSpace c); [|exact Hend].
  apply IH. simpl in Hend.
  destruct (JS.isWhiteSpace c && JS.isEmpty (JS.trimEnd r));
    [discriminate | congruence].
Qed.

Lemma trim_lineValue (v : string) : JS.trim (lineValue v) = lineValue v.
Proof.
  unfold JS.trim, lineValue. rewrite trimStart_idempotent.
  apply trimEnd_trimStart, trimEnd_idempotent.
Qed.

Section PlainValues.

Context (f : Field) (v : string).

Hypothesis plain : plainValue v.

Lemma fieldLine_unbroken :
  JS.existsChar JS.isLineTerminator (fieldLine (f, v)) = false.
Proof.
  destruct plain as (Hbreak & _).
  unfold fieldLine. simpl fst. simpl snd.
  rewrite !existsChar_app, Hbreak. destruct f; reflexivity.
Qed.

Lemma normalizeLine_fieldLine :
  Index.normalizeLine (fieldLine (f, v))
  = labelOf f +:+ ": " +:+ JS.trimEnd (Index.removeEmphasis v).
Proof.
  destruct plain as (_ & Hvalue).
  assert (Index.normalizeLine (fieldLine (f, v))
          = JS.trimEnd ((labelOf f +:+ ": ") +:+ Index.removeEmphasis v))
    as -> by (destruct f; reflexivity).
  rewrite trimEnd_app.
  - destruct f; reflexivity.
  - intros Hempty. apply Hvalue. unfold lineValue. rewrite Hempty. reflexivity.
Qed.

Lemma matchLine_fieldLine :
  Index.matchLine (labelOf f +:+ ": " +:+ JS.trimEnd (Index.removeEmphasis v))
  = Some (labelOf f, lineValue v).
Proof.
  destruct plain as (Hbreak & Hvalue).
  set (t := JS.trimEnd (Index.removeEmphasis v)).
  assert (Index.matchLine (labelOf f +:+ ": " +:+ t)
          = if JS.isEmpty (JS.trimStart t)
            then match Index.lastChar (String " " t) with
                 | Some c =>
                     if JS.isLineTerminator c then None
                     else Some (labelOf f, String c "")
                 | None => None
                 end
            else if JS.existsChar JS.isLineTerminator (JS.trimStart t)
                 then None
                 else Some (labelOf f, JS.trimStart t))
    as -> by (destruct f; reflexivity).
  change (JS.trimStart t) with (lineValue v).
  assert (JS.existsChar JS.isLineTerminator (lineValue v) = false) as ->.
  { apply existsChar_trimStart, existsChar_trimEnd, existsChar_removeEmphasis.
    exact Hbreak. }
  destruct (lineValue v); [contradiction | reflexivity].
Qed.

Lemma parseLine_fieldLine (fields : Index.ManualFields) :
  Index.parseLine fields (Index.normalizeLine (fieldLine (f, v)))
  = setField fields (f, v).
Proof.
  unfold Index.parseLine. rewrite normalizeLine_fieldLine, matchLine_fieldLine.
  unfold setField. simpl fst. simpl snd. rewrite trim_lineValue.
  destruct f; reflexivity.
Qed.

Lemma normalized_fieldLine_kept :
  JS.truthy (Index.normalizeLine (fieldLine (f, v))) = true.
Proof. rewrite normalizeLine_fieldLine. destruct f; reflexivity. Qed.

End PlainValues.

Lemma filter_all_kept {A} (p : A -> bool) (l : list A) :
  Forall (fun x => p x = true) l -> List.filter p l = l.
Proof.
  induction 1 as [|x l Hx Hl IH]; simpl; [reflexivity|].
  rewrite Hx, IH. reflexivity.
Qed.

Lemma filter_none_kept {A} (p : A -> bool) (l : list A) :
  (forall x, p x = false) -> List.filter p l = [].
Proof.
  intros Hnone. induction l as [|x l IH]; simpl; [reflexivity|].
  rewrite Hnone. exact IH.
Qed.

Lemma manualLines_manualMessage (entries : list (Field * string)) :
  Forall (fun entry => plainValue (snd entry)) entries ->
  Index.manualLines (manualMessage entries)
  = map (fun entry => Index.normalizeLine (fieldLine entry)) entries.
Proof.
  intros Hplain. destruct entries as [|e es]; [reflexivity|].
  unfold Index.manualLines, manualMessage.
  rewrite splitLines_join.
  - rewrite List.map_map. apply filter_all_kept.
    apply Forall_map. eapply Forall_impl; [exact Hplain|].
    intros [f v] Hv. apply normalized_fieldLine_kept, Hv.
  - apply Forall_map. eapply Forall_impl; [exact Hplain|].
    intros [f v] Hv. apply fieldLine_unbroken, Hv.
  - discriminate.
Qed.

Lemma parse_manualMessage (entries : list (Field * string)) :
  Forall (fun entry => plainValue (snd entry)) entries ->
  Index.parseManualTrade (manualMessage entries)
  = fold_left setField entries Index.noFields.
Proof.
  intros Hplain. unfold Index.parseManualTrade.
  rewrite manualLines_manualMessage by exact Hplain.
  generalize Index.noFields.
  induction Hplain as [|[f v] es Hv Hes IH]; intros fields; [reflexivity|].
  simpl. rewrite parseLine_fieldLine by exact Hv. apply IH.
Qed.

Lemma setField_eq (fields : Index.ManualFields) (f : Field) (v : string) :
  setField fields (f, v) =
  let 'Index.Build_ManualFields t s q a total fees acc d := fields in
  let value := lineValue v in
  match f with
  | FType =>
      Index.Build_ManualFields
        (Some (if JS.includes (JS.toLowerCase value) "sell" then sell else buy))
        s q a total fees acc d
  | FSymbol =>
      Index.Build_ManualFields t (Some (JS.toUpperCase value)) q a total fees
        acc d
  | FQuantity =>
      Index.Build_ManualFields t s (Some (Index.parseMoney value)) a total fees
        acc d
  | FAmount =>
      Index.Build_ManualFields t s q (Some (Index.parseMoney value)) total fees
        acc d
  | FDate => Index.Build_ManualFields t s q a total fees acc (Some value)
  | FTotal =>
      Index.Build_ManualFields t s q a (Some (Index.parseMoney value)) fees
        acc d
  | FFees =>
      Index.Build_ManualFields t s q a total (Some (Index.parseMoney value))
        acc d
  | FAccount => Index.Build_ManualFields t s q a total fees (Some value) d
  end.
Proof. destruct fields, f; reflexivity. Qed.

Lemma upper_not_empty (v : string) :
  v <> "" -> Index.absentString (Some (JS.toUpperCase v)) = false.
Proof. destruct v; [contradiction | reflexivity]. Qed.

Lemma present_not_empty (v : string) :
  v <> "" -> Index.absentString (Some v) = false.
Proof. destruct v; [contradiction | reflexivity]. Qed.

Lemma isMissing_setField (fields : Index.ManualFields)
    (entry : Field * string) (f : Field) :
  usableLine entry ->
  isMissing (setField fields entry) f
  = if decide (f = fst entry) then false else isMissing fields f.
Proof.
  destruct entry as [g v]. intros [(_ & Hne) Hamount]. simpl in Hamount.
  rewrite setField_eq. destruct fields.
  pose proof (upper_not_empty (lineValue v) Hne) as Hupper.
  pose proof (present_not_empty (lineValue v) Hne) as Hpresent.
  destruct g, f; simpl; try reflexivity; try assumption;
    unfold Index.absentNumber; rewrite Hamount; reflexivity.
Qed.

Lemma isMissing_fold (entries : list (Field * string))
    (fields : Index.ManualFields) (f : Field) :
  Forall usableLine entries ->
  isMissing (fold_left setField entries fields) f
  = if decide (f ∈ map fst entries) then false else isMissing fields f.
Proof.
  intros Husable. revert fields.
  induction Husable as [|e es He Hes IH]; intros fields; simpl.
  - destruct (decide (f ∈ [])) as [Hin|_]; [inversion Hin | reflexivity].
  - rewrite IH, (isMissing_setField _ _ _ He).
    destruct (decide (f ∈ map fst es)) as [Hin|Hout],
             (decide (f = fst e)) as [Heq|Hneq],
             (decide (f ∈ fst e :: map fst es)) as [Hin'|Hout'];
      try reflexivity; exfalso.
    + apply Hout'. right. exact Hin.
    + apply Hout'. right. exact Hin.
    + apply Hout'. subst f. left.
    + apply elem_of_cons in Hin'. destruct Hin'; contradiction.
Qed.

Lemma nothing_parsed_all_missing (f : Field) :
  isMissing Index.noFields f = true.
Proof. destruct f; reflexivity. Qed.

Lemma without_field_fields (f g : Field) (entries : list (Field * string)) :
  completeLines entries ->
  g ∈ map fst (withoutField f entries) <-> g <> f.
Proof.
  intros Hcomplete. unfold withoutField.
  rewrite list_elem_of_fmap. split.
  - intros (e & -> & He). apply list_elem_of_filter in He. apply He.
  - intros Hg. specialize (Hcomplete g).
    apply list_elem_of_fmap in Hcomplete. destruct Hcomplete as (e & -> & He).
    exists e. split; [reflexivity|]. apply list_elem_of_filter. auto.
Qed.


(** Proves [plainValue] of a literal. *)
Ltac plain_literal :=
  split; [reflexivity | let H := fresh in intros H; vm_compute in H; discriminate H].

Lemma promptSample_plain (quantity : string) :
  plainValue quantity ->
  Forall (fun entry => plainValue (snd entry)) (promptSample quantity).
Proof.
  intros Hq. unfold promptSample.
  repeat (constructor; [first [exact Hq | plain_literal] |]).
  constructor.
Qed.

Lemma promptSample_complete (quantity : string) :
  completeLines (promptSample quantity).
Proof.
  intros f. unfold promptSample. simpl.
  destruct f; repeat first [left | right].
Qed.



(** ** Summaries *)

Lemma length_append (a b : string) :
  String.length (a +:+ b) = (String.length a + String.length b)%nat.
Proof. induction a as [|c a IH]; simpl; [reflexivity | rewrite IH; reflexivity]. Qed.

Lemma length_substring (n m : nat) (s : string) :
  (n + m <= String.length s)%nat ->
  String.length (String.substring n m s) = m.
Proof.
  revert n m. induction s as [|c s IH]; intros n m Hle; simpl in Hle.
  - destruct n, m; simpl; try reflexivity; lia.
  - destruct n as [|n]; simpl.
    + destruct m as [|m]; simpl; [reflexivity|].
      rewrite (IH 0%nat m) by lia. reflexivity.
    + apply IH. lia.
Qed.

Lemma length_padZeros (width : nat) (s : string) :
  (width <= String.length (JS.padZeros width s))%nat.
Proof.
  unfold JS.padZeros. rewrite length_append.
  assert (forall n, String.length (String.concat "" (repeat "0" n)) = n) as Hn.
  { induction n as [|n IH]; [reflexivity|].
    simpl repeat. destruct n as [|n']; [reflexivity|].
    change (String.concat "" ("0" :: repeat "0" (S n')))
      with ("0" +:+ "" +:+ String.concat "" (repeat "0" (S n'))).
    rewrite !length_append, IH. reflexivity. }
  rewrite Hn. lia.
Qed.

(** In its own range [toFixed(2)] writes exactly two decimals. *)
Lemma toFixed2_two_decimals (numberToString : number -> string) (x : number) :
  JS.isFinite x = true ->
  PrimFloat.leb 1e21%float (PrimFloat.abs x) = false ->
  exists sign whole cents,
    JS.toFixed2 numberToString x = sign +:+ whole +:+ "." +:+ cents /\
    String.length cents = 2%nat /\ (sign = "" \/ sign = "-").
Proof.
  intros Hfinite Hrange. unfold JS.toFixed2. rewrite Hfinite, Hrange. simpl.
  set (digits := JS.padZeros 3 (JS.digitsOfZ (JS.scaledHundredths (PrimFloat.abs x)))).
  pose proof (length_padZeros 3
                (JS.digitsOfZ (JS.scaledHundredths (PrimFloat.abs x)))) as Hlen.
  fold digits in Hlen.
  eexists _, _, _. split; [reflexivity|]. split.
  - apply length_substring. lia.
  - destruct (PrimFloat.ltb x 0); auto.
Qed.

(** A quantity that is zero is not greater than zero. *)
Lemma zero_not_positive (qty : number) :
  JS.isZero qty = true -> PrimFloat.ltb 0%float qty = false.
Proof.
  unfold JS.isZero. rewrite FloatAxioms.eqb_spec, FloatAxioms.ltb_spec.
  change (Prim2SF 0%float) with (S754_zero false).
  destruct (Prim2SF qty) as [s|s| |s m e]; try reflexivity;
    destruct s; intros H; try reflexivity; discriminate H.
Qed.

Section Tally.

Context (config : TradeLogConfig).

(** The keys after [summary.set]: a new key goes last. *)
Lemma keys_setTally (summary : list (string * Index.Tally)) (k : string)
    (entry : Index.Tally) :
  map fst (Index.setTally summary k entry)
  = if decide (k ∈ map fst summary) then map fst summary
    else map fst summary ++ [k].
Proof.
  induction summary as [|[k' v] rest IH]; simpl.
  - destruct (decide (k ∈ [])) as [Hin|_]; [inversion Hin | reflexivity].
  - destruct (String.eqb_spec k' k) as [->|Hne]; simpl.
    + destruct (decide (k ∈ k :: map fst rest)) as [_|Hout]; [reflexivity|].
      exfalso. apply Hout. left.
    + rewrite IH.
      destruct (decide (k ∈ map fst rest)) as [Hin|Hout],
               (decide (k ∈ k' :: map fst rest)) as [Hin'|Hout'];
        try reflexivity; exfalso.
      * apply Hout'. right. exact Hin.
      * apply elem_of_cons in Hin'. destruct Hin'; congruence.
Qed.

Lemma keys_tallyRow (summary : list (string * Index.Tally)) (row : TradeRow) :
  map fst (Index.tallyRow config summary row)
  = if decide (rowSymbol config row ∈ map fst summary) then map fst summary
    else map fst summary ++ [rowSymbol config row].
Proof. unfold Index.tallyRow. apply keys_setTally. Qed.

(** One key for each symbol met, and each only once. *)
Lemma keys_fold
    (step : list (string * Index.Tally) -> TradeRow -> list (string * Index.Tally))
    (rows : list TradeRow) (summary : list (string * Index.Tally)) :
  (forall s row,
     map fst (step s row)
     = if decide (rowSymbol config row ∈ map fst s) then map fst s
       else map fst s ++ [rowSymbol config row]) ->
  NoDup (map fst summary) ->
  NoDup (map fst (fold_left step rows summary)) /\
  forall k, k ∈ map fst (fold_left step rows summary) <->
            k ∈ map fst summary \/
            exists row, row ∈ rows /\ rowSymbol config row = k.
Proof.
  intros Hstep. revert summary.
  induction rows as [|row rows IH]; intros summary Hnodup; simpl.
  - split; [exact Hnodup|]. intros k. split; [auto|].
    intros [Hk|(row & Hrow & _)]; [exact Hk | inversion Hrow].
  - assert (NoDup (map fst (step summary row))
            /\ forall k, k ∈ map fst (step summary row) <->
                         k ∈ map fst summary \/ rowSymbol config row = k)
      as [Hnodup' Hkeys].
    { rewrite Hstep.
      destruct (decide (rowSymbol config row ∈ map fst summary)) as [Hin|Hout].
      - split; [exact Hnodup|]. intros k. split; [auto|].
        intros [Hk| <-]; assumption.
      - split.
        + apply NoDup_app. split; [exact Hnodup|]. split.
          * intros x Hx Hx'. apply list_elem_of_singleton in Hx'.
            subst x. contradiction.
          * apply NoDup_singleton.
        + intros k. rewrite elem_of_app, list_elem_of_singleton.
          split; intros [Hk|Hk]; auto. }
    destruct (IH _ Hnodup') as [Hfinal Hmember].
    split; [exact Hfinal|]. intros k. rewrite Hmember, Hkeys. split.
    + intros [[Hk|Hk]|(r & Hr & Hk)].
      * left. exact Hk.
      * right. exists row. split; [left | exact Hk].
      * right. exists r. split; [right; exact Hr | exact Hk].
    + intros [Hk|(r & Hr & Hk)].
      * left. left. exact Hk.
      * apply elem_of_cons in Hr. destruct Hr as [->|Hr].
        -- left. right. exact Hk.
        -- right. exists r. split; assumption.
Qed.

End Tally.

Lemma keys_api_tallyRow (summary : list (string * Index.Tally)) (row : TradeRow) :
  map fst (Api.tallyRow summary row)
  = if decide (rowSymbol Api.config row ∈ map fst summary) then map fst summary
    else map fst summary ++ [rowSymbol Api.config row].
Proof. unfold Api.tallyRow. apply keys_setTally. Qed.

Lemma getTally_setTally (summary : list (string * Index.Tally))
    (k symbol : string) (entry : Index.Tally) :
  Index.getTally (Index.setTally summary symbol entry) k
  = if String.eqb symbol k then Some entry else Index.getTally summary k.
Proof.
  induction summary as [|[k' v] rest IH]; simpl.
  - reflexivity.
  - destruct (String.eqb_spec k' symbol) as [->|Hne]; simpl.
    + destruct (String.eqb symbol k); reflexivity.
    + rewrite IH. destruct (String.eqb_spec k' k) as [->|Hne'];
        [|reflexivity].
      destruct (String.eqb_spec symbol k) as [->|_];
        [contradiction | reflexivity].
Qed.

Lemma getTally_elem (summary : list (string * Index.Tally)) (k : string)
    (entry : Index.Tally) :
  NoDup (map fst summary) -> (k, entry) ∈ summary ->
  Index.getTally summary k = Some entry.
Proof.
  induction summary as [|[k' v] rest IH]; intros Hnodup Hin.
  - inversion Hin.
  - simpl in Hnodup. apply NoDup_cons in Hnodup. destruct Hnodup as [Hk' Hrest].
    apply elem_of_cons in Hin. simpl. destruct Hin as [Heq|Hin].
    + injection Heq as -> ->. rewrite String.eqb_refl. reflexivity.
    + destruct (String.eqb_spec k' k) as [->|_]; [|apply IH; assumption].
      exfalso. apply Hk'. apply list_elem_of_fmap. exists (k, entry). auto.
Qed.

Section Sums.

Context (config : TradeLogConfig).

Lemma sums_tallyRow (summary : list (string * Index.Tally)) (row : TradeRow)
    (k : string) :
  sumsOf (Index.tallyRow config summary row) k
  = addRow config k (sumsOf summary k) row.
Proof.
  unfold sumsOf, Index.tallyRow, addRow.
  rewrite getTally_setTally.
  fold (rowSymbol config row) (rowSide config row) (rowQuantity config row).
  destruct (String.eqb_spec (rowSymbol config row) k) as [->|Hne]; simpl.
  - fold (rowSymbol config row).
    destruct (JS.startsWith (rowSide config row) "buy"); [reflexivity|].
    destruct (JS.startsWith (rowSide config row) "sell"); [reflexivity|].
    destruct (JS.truthy (rowSide config row)); reflexivity.
  - destruct (Index.getTally summary k ?? Index.newTally). reflexivity.
Qed.

Lemma sums_fold
    (step : list (string * Index.Tally) -> TradeRow -> list (string * Index.Tally))
    (rows : list TradeRow) (summary : list (string * Index.Tally)) (k : string) :
  (forall s row, sumsOf (step s row) k = addRow config k (sumsOf s k) row) ->
  sumsOf (fold_left step rows summary) k
  = fold_left (addRow config k) rows (sumsOf summary k).
Proof.
  intros Hstep. revert summary.
  induction rows as [|row rows IH]; intros summary; simpl; [reflexivity|].
  rewrite IH, Hstep. reflexivity.
Qed.

Lemma sums_tally (rows : list TradeRow) (k : string) (entry : Index.Tally) :
  (k, entry) ∈ Index.tally config rows ->
  sides entry = accumulated config k rows.
Proof.
  intros Hin. unfold accumulated.
  change (0%float, 0%float, 0%float, 0%float) with (sumsOf [] k).
  rewrite <- (sums_fold (Index.tallyRow config) rows [] k)
    by (intros; apply sums_tallyRow).
  unfold sumsOf. fold (Index.tally config rows).
  rewrite (getTally_elem _ k entry); [reflexivity | | exact Hin].
  apply (keys_fold config (Index.tallyRow config) rows []
           (keys_tallyRow config) NoDup_nil_2).
Qed.

End Sums.

Lemma sums_api_tally (rows : list TradeRow) (k : string) (entry : Index.Tally) :
  (k, entry) ∈ Api.tally rows ->
  sides entry = accumulated Api.config k rows.
Proof.
  intros Hin. unfold accumulated.
  change (0%float, 0%float, 0%float, 0%float) with (sumsOf [] k).
  rewrite <- (sums_fold Api.config Api.tallyRow rows [] k).
  - unfold sumsOf. fold (Api.tally rows).
    rewrite (getTally_elem _ k entry); [reflexivity | | exact Hin].
    apply (keys_fold Api.config Api.tallyRow rows []
             keys_api_tallyRow NoDup_nil_2).
  - intros s row. unfold sumsOf, Api.tallyRow, addRow.
    rewrite getTally_setTally.
    fold (rowSymbol Api.config row) (rowSide Api.config row)
      (rowQuantity Api.config row).
    destruct (String.eqb_spec (rowSymbol Api.config row) k) as [->|Hne]; simpl.
    + fold (rowSymbol Api.config row).
      destruct (JS.startsWith (rowSide Api.config row) "buy"); [reflexivity|].
      destruct (JS.startsWith (rowSide Api.config row) "sell"); reflexivity.
    + unfold sumsOf. destruct (Index.getTally s k ?? Index.newTally).
      reflexivity.
Qed.

Lemma summary_text_is_not_noTrades (rest : string) :
  "Total trades: " +:+ rest <> Index.noTrades.
Proof. discriminate. Qed.



(* ================================================================== *)
(** * Further properties of the code *)
(* ================================================================== *)

(** ** White space *)

Lemma trimStart_startsClean (s : string) : startsClean (JS.trimStart s).
Proof.
  induction s as [|c r IH]; simpl; [exact I|].
  destruct (JS.isWhiteSpace c) eqn:E; [exact IH | exact E].
Qed.

Lemma trimStart_clean (s : string) : startsClean s -> JS.trimStart s = s.
Proof. destruct s as [|c r]; simpl; [reflexivity|]. intros ->. reflexivity. Qed.

Lemma trimEnd_startsClean (s : string) : startsClean s -> startsClean (JS.trimEnd s).
Proof.
  destruct s as [|c r]; simpl; [auto|]. intros Hc. rewrite Hc. exact Hc.
Qed.

Lemma trim_idempotent (s : string) : JS.trim (JS.trim s) = JS.trim s.
Proof.
  unfold JS.trim.
  rewrite (trimStart_clean (JS.trimEnd (JS.trimStart s)))
    by apply trimEnd_startsClean, trimStart_startsClean.
  apply trimEnd_idempotent.
Qed.

(** ** Transaction types *)

Lemma valid_types_are_trimmed (v : string) :
  v ∈ Sheets.VALID_TRANSACTION_TYPES -> JS.trim v = v.
Proof.
  unfold Sheets.VALID_TRANSACTION_TYPES. intros Hv.
  repeat (apply elem_of_cons in Hv; destruct Hv as [->|Hv]; [reflexivity|]).
  inversion Hv.
Qed.

Lemma valid_type_found (v t : string) :
  v ∈ Sheets.VALID_TRANSACTION_TYPES ->
  JS.toLowerCase v = JS.toLowerCase t ->
  find (fun value => String.eqb (JS.toLowerCase value) (JS.toLowerCase t))
       Sheets.VALID_TRANSACTION_TYPES = Some v.
Proof.
  unfold Sheets.VALID_TRANSACTION_TYPES. intros Hv Hlower.
  repeat (apply elem_of_cons in Hv;
          destruct Hv as [->|Hv]; [rewrite <- Hlower; reflexivity|]).
  inversion Hv.
Qed.

Lemma isValid_elem (s : string) :
  Sheets.isValidTransactionType s = true <-> s ∈ Sheets.VALID_TRANSACTION_TYPES.
Proof.
  unfold Sheets.isValidTransactionType. rewrite existsb_exists. split.
  - intros (v & Hv & Heq). apply String.eqb_eq in Heq. subst v.
    apply list_elem_of_In, Hv.
  - intros Hs. exists s. split; [apply list_elem_of_In, Hs | apply String.eqb_refl].
Qed.


(** ** Environment *)

Lemma requireEnv_unset (env : Env) (name : string) :
  unset env name = true -> Sheets.requireEnv env name = inl (MissingVariable name).
Proof.
  unfold unset, Sheets.requireEnv.
  destruct (env !! name) as [v|]; [|reflexivity].
  destruct (JS.truthy v); [discriminate | reflexivity].
Qed.

Lemma requireEnv_set (env : Env) (name : string) :
  unset env name = false -> exists v, Sheets.requireEnv env name = inr v.
Proof.
  unfold unset, Sheets.requireEnv.
  destruct (env !! name) as [v|]; [|discriminate].
  destruct (JS.truthy v); [eauto | discriminate].
Qed.

(** X2: The sheet functions read three variables before anything else and
    throw at the first one that is unset or empty, naming it, without a
    request and without touching the history. *)
Theorem sheet_functions_require_their_variables
    (host : Host) (env : Env) (config : TradeLogConfig) (trade : TradeInput)
    (name : string) (o : Oracle) (w : World) :
  find (unset env) requiredVariables = Some name ->
  run o (Sheets.appendTradeRow host env config trade) w
  = (Thrown (MissingVariable name), w) /\
  run o (Sheets.readTrades env config) w = (Thrown (MissingVariable name), w) /\
  run o (Api.appendTradeRow host env trade config) w
  = (Thrown (MissingVariable name), w) /\
  run o (Api.readTrades env config) w = (Thrown (MissingVariable name), w).
Proof.
  unfold requiredVariables. simpl. intros Hfirst.
  unfold Sheets.appendTradeRow, Sheets.readTrades, Api.appendTradeRow,
    Api.readTrades, Sheets.getSheetsContext.
  rewrite !run_mbind, !run_lift.
  destruct (unset env "GOOGLE_SHEETS_SERVICE_ACCOUNT_EMAIL") eqn:Hmail.
  { injection Hfirst as <-. rewrite (requireEnv_unset env _ Hmail). auto. }
  destruct (requireEnv_set env _ Hmail) as (mail & ->).
  destruct (unset env "GOOGLE_SHEETS_PRIVATE_KEY") eqn:Hkey.
  { injection Hfirst as <-. rewrite (requireEnv_unset env _ Hkey). auto. }
  destruct (requireEnv_set env _ Hkey) as (key & ->).
  destruct (unset env "GOOGLE_SHEETS_SPREADSHEET_ID") eqn:Hid; [|discriminate].
  injection Hfirst as <-.
  rewrite !run_mbind, !run_lift, (requireEnv_unset env _ Hid). auto.
Qed.

Lemma sheet_functions_require_their_variables_witness :
  run downOracle (Sheets.readTrades keyOnly Api.config) startWorld
  = (Thrown (MissingVariable "GOOGLE_SHEETS_SERVICE_ACCOUNT_EMAIL"), startWorld).
Proof.
  apply (sheet_functions_require_their_variables sampleHost keyOnly Api.config
           sampleTrade "GOOGLE_SHEETS_SERVICE_ACCOUNT_EMAIL" downOracle
           startWorld).
  reflexivity.
Defined.

(** ** Errors of the sheet requests *)

(** An error that is none of the recognised kinds passes through. *)
Lemma formatSheetsError_unrecognised
    (err : Error) (spreadsheetId clientEmail action : string) :
  err_status err <> Some 403%Z -> err_status err <> Some 404%Z ->
  apiStatus err <> Some "PERMISSION_DENIED" -> apiStatus err <> Some "NOT_FOUND" ->
  (apiMessage err = None \/ apiMessage err = Some "") ->
  Sheets.formatSheetsError err spreadsheetId clientEmail action = err.
Proof.
  intros H403 H404 Hdenied Hfound Hmessage. unfold Sheets.formatSheetsError.
  rewrite !bool_decide_eq_false_2 by assumption. simpl.
  destruct Hmessage as [-> | ->]; reflexivity.
Qed.

(** X3: An error that [formatSheetsError] has produced passes through it
    unchanged, whatever the spreadsheet, account and action named the
    second time. *)
Theorem formatSheetsError_is_idempotent
    (err : Error) (spreadsheetId clientEmail action : string)
    (spreadsheetId' clientEmail' action' : string) :
  Sheets.formatSheetsError
    (Sheets.formatSheetsError err spreadsheetId clientEmail action)
    spreadsheetId' clientEmail' action'
  = Sheets.formatSheetsError err spreadsheetId clientEmail action.
Proof.
  assert (forall msg, Sheets.formatSheetsError (newError msg)
                        spreadsheetId' clientEmail' action' = newError msg)
    as Hfresh.
  { intros msg. apply formatSheetsError_unrecognised; simpl; auto; discriminate. }
  remember (Sheets.formatSheetsError err spreadsheetId clientEmail action)
    as formatted eqn:Hformatted.
  unfold Sheets.formatSheetsError in Hformatted.
  destruct (bool_decide (err_status err = Some 403%Z)
            || bool_decide (apiStatus err = Some "PERMISSION_DENIED")) eqn:E1;
    [subst formatted; apply Hfresh|].
  destruct (bool_decide (err_status err = Some 404%Z)
            || bool_decide (apiStatus err = Some "NOT_FOUND")) eqn:E2;
    [subst formatted; apply Hfresh|].
  apply orb_false_iff in E1, E2. destruct E1 as [E1 E1'], E2 as [E2 E2'].
  apply bool_decide_eq_false in E1, E1', E2, E2'.
  destruct (apiMessage err) as [m|] eqn:E3.
  - destruct (JS.truthy m) eqn:E4; subst formatted; [apply Hfresh|].
    apply truthy_false in E4. subst m.
    apply formatSheetsError_unrecognised; auto.
  - subst formatted. apply formatSheetsError_unrecognised; auto.
Qed.

(** ** Header index *)

Lemma indexHeaders_snoc (headers : list string) (header : string) :
  Sheets.indexHeaders (headers ++ [header])
  = if JS.truthy (JS.trim header)
    then <[JS.trim header := length headers]> (Sheets.indexHeaders headers)
    else Sheets.indexHeaders headers.
Proof.
  unfold Sheets.indexHeaders.
  rewrite imap_app, fold_left_app. simpl. rewrite Nat.add_0_r. reflexivity.
Qed.


(** ** Sheet metadata *)

(** X6: [getSheetProperties] takes the first sheet with the title asked for,
    and finds it only if its identifier is not zero: the grid it returns
    never has the identifier 0, and when the first sheet of that title
    has the identifier 0 the capacity check throws the not-found error
    after the metadata request, without resizing.  The same holds in the
    serverless variant. *)
Theorem sheet_with_identifier_zero_is_not_found
    (o : Oracle) (w : World) (context : Sheets.SheetsContext)
    (spreadsheetId sheet : string) (minRows minColumns : Z)
    (sheets : list (option SheetProperties)) (properties : SheetProperties) :
  o (length (requests w)) (SpreadsheetsGet spreadsheetId Sheets.gridFields)
  = inr (Some sheets) ->
  find (Sheets.hasTitle sheet) sheets = Some (Some properties) ->
  (forall grid,
     Sheets.pickSheet spreadsheetId sheet (Some sheets) = inr grid ->
     sheetId properties = Some (Sheets.g_sheetId grid) /\
     Sheets.g_sheetId grid <> 0%Z) /\
  (sheetId properties = Some 0%Z ->
   run o (Sheets.ensureSheetCapacity context spreadsheetId sheet
            minRows minColumns) w
   = (Thrown (Sheets.SheetNotFound spreadsheetId sheet),
      asked w (SpreadsheetsGet spreadsheetId Sheets.gridFields)) /\
   run o (Api.ensureSheetCapacity context spreadsheetId sheet
            minRows minColumns) w
   = (Thrown (Sheets.SheetNotFound spreadsheetId sheet),
      asked w (SpreadsheetsGet spreadsheetId Sheets.gridFields))).
Proof.
  intros Hanswer Hfirst. split.
  - intros grid. unfold Sheets.pickSheet. simpl. rewrite Hfirst. simpl.
    destruct (sheetId properties) as [sid|]; [|discriminate].
    destruct (gridProperties properties) as [g|]; [|discriminate].
    simpl. destruct (Z.eqb_spec sid 0); [discriminate|].
    intros [= <-]. simpl. auto.
  - intros Hzero.
    destruct (run_getSheetProperties o context spreadsheetId sheet w
                (Some sheets) Hanswer) as [Hserver Hvariant].
    assert (Sheets.pickSheet spreadsheetId sheet (Some sheets)
            = inl (Sheets.SheetNotFound spreadsheetId sheet)) as Hpick.
    { unfold Sheets.pickSheet. simpl. rewrite Hfirst. simpl. rewrite Hzero.
      simpl. destruct (gridProperties properties); reflexivity. }
    unfold Sheets.ensureSheetCapacity, Api.ensureSheetCapacity.
    rewrite !run_mbind, Hserver, Hvariant, Hpick. auto.
Qed.

Lemma sheet_with_identifier_zero_is_not_found_witness :
  run (metadataOracle firstSheetOnly)
    (Sheets.ensureSheetCapacity sampleContext "sheet-1" "Trade Log" 8 5)
    startWorld
  = (Thrown (Sheets.SheetNotFound "sheet-1" "Trade Log"),
     asked startWorld (SpreadsheetsGet "sheet-1" Sheets.gridFields)).
Proof.
  apply (sheet_with_identifier_zero_is_not_found
           (metadataOracle firstSheetOnly) startWorld sampleContext
           "sheet-1" "Trade Log" 8 5 firstSheetOnly
           {| sheetId := Some 0%Z; title := Some "Trade Log";
              gridProperties :=
                Some {| rowCount := Some 1000%Z;
                        columnCount := Some 26%Z |} |});
    reflexivity.
Defined.

(** ** Cells of a built row *)

(** X5: The account that [buildRow] writes is the default one, whatever
    account the trade names, and the transaction type it writes is the
    valid spelling of the trade's type, [Buy] or [Sell]; each in the
    cell of its header, the type provided no field written after it goes
    to the same column.  The same holds in the serverless variant. *)
Theorem buildRow_writes_default_account_and_valid_type
    (host : Host) (config : TradeLogConfig) (trade : TradeInput)
    (headerIndex : HeaderIndex) (row : list string) :
  Sheets.buildRow host config trade headerIndex = inr row \/
  Api.buildRow host trade headerIndex config = inr row ->
  (forall i,
     Sheets.resolve headerIndex (c_investmentAccount (columns config)) = Some i ->
     row !! i = Some "Interactive Brokers (IBKR)") /\
  (forall i,
     Sheets.resolve headerIndex (c_transactionType (columns config)) = Some i ->
     Forall (fun header => Sheets.resolve headerIndex header <> Some i)
       (drop 2 (configuredHeaders config)) ->
     row !! i = Some (match transactionType trade with
                      | buy => "Buy"
                      | sell => "Sell"
                      end)).
Proof.
  intros Hbuilt.
  assert (row = filledRow host config trade headerIndex
          /\ resolvedColumns config headerIndex <> []) as [-> Hne].
  { destruct (buildRow_cases host config trade headerIndex)
      as [(Hnil & Hs & Ha) | (Hne & Hs & Ha)].
    - destruct Hbuilt; congruence.
    - split; [destruct Hbuilt; congruence | exact Hne]. }
  assert (forall header i, header ∈ configuredHeaders config ->
            Sheets.resolve headerIndex header = Some i ->
            (i < length (replicate (max_list (resolvedColumns config headerIndex) + 1) ""))%nat)
    as Hfits.
  { intros header i Hin Hres. rewrite length_replicate.
    assert (i ∈ resolvedColumns config headerIndex) as Hi.
    { apply list_elem_of_omap. exists header. auto. }
    apply max_list_elem_of_le in Hi. lia. }
  split.
  - intros i Hres. unfold filledRow, Sheets.rowEntries.
    match goal with
    | |- Sheets.fillRow _ _ [?e1; ?e2; ?e3; ?e4; ?e5; ?e6; ?e7; ?e8] _ !! _ = _ =>
        change [e1; e2; e3; e4; e5; e6; e7; e8]
          with ([e1; e2; e3; e4; e5; e6; e7] ++ e8 :: [])
    end.
    rewrite (fillRow_last host headerIndex _ _ _ _ i).
    + reflexivity.
    + exact Hres.
    + constructor.
    + apply (Hfits (c_investmentAccount (columns config))); [|exact Hres].
      unfold configuredHeaders. do 7 right. left.
  - intros i Hres Hlater. unfold filledRow, Sheets.rowEntries.
    match goal with
    | |- Sheets.fillRow _ _ [?e1; ?e2; ?e3; ?e4; ?e5; ?e6; ?e7; ?e8] _ !! _ = _ =>
        change [e1; e2; e3; e4; e5; e6; e7; e8]
          with ([e1] ++ e2 :: [e3; e4; e5; e6; e7; e8])
    end.
    rewrite (fillRow_last host headerIndex _ _ _ _ i).
    + destruct (transactionType trade); reflexivity.
    + exact Hres.
    + unfold configuredHeaders in Hlater. simpl in Hlater.
      repeat (apply Forall_cons in Hlater; destruct Hlater as [? Hlater]).
      repeat (constructor; [assumption|]). constructor.
    + apply (Hfits (c_transactionType (columns config))); [|exact Hres].
      unfold configuredHeaders. right. left.
Qed.

Lemma buildRow_writes_default_account_and_valid_type_witness :
  Api.buildRow sampleHost sampleTrade
    (Sheets.indexHeaders ["Transaction Type"; "Investment Account"]) Api.config
  = inr ["Buy"; "Interactive Brokers (IBKR)"] /\
  ["Buy"; "Interactive Brokers (IBKR)"] !! 1%nat
  = Some "Interactive Brokers (IBKR)".
Proof.
  assert (Api.buildRow sampleHost sampleTrade
            (Sheets.indexHeaders ["Transaction Type"; "Investment Account"])
            Api.config
          = inr ["Buy"; "Interactive Brokers (IBKR)"]) as Hbuilt
    by (vm_compute; reflexivity).
  split; [exact Hbuilt|].
  apply (buildRow_writes_default_account_and_valid_type sampleHost Api.config
           sampleTrade
           (Sheets.indexHeaders ["Transaction Type"; "Investment Account"])
           ["Buy"; "Interactive Brokers (IBKR)"] (or_intror Hbuilt)).
  vm_compute. reflexivity.
Defined.

(** ** Requests *)


Lemma asks_run {A} (P : call -> Prop) (o : Oracle) (p : Prog A) (w : World) :
  Asks P p ->
  exists cs, requests (snd (run o p w)) = requests w ++ cs /\ Forall P cs.
Proof.
  revert w. induction p as [a|e|c k IH|k IH|h k IH]; intros w Hp; simpl in *.
  - exists []. rewrite app_nil_r. auto.
  - exists []. rewrite app_nil_r. auto.
  - destruct Hp as [Hc Hk].
    destruct (IH (o (length (requests w)) c)
                {| chatHistory := chatHistory w; requests := requests w ++ [c] |}
                (Hk _)) as (cs & Heq & Hcs).
    exists (c :: cs). simpl in Heq. rewrite Heq, <- app_assoc. auto.
  - apply IH, Hp.
  - apply (IH {| chatHistory := h; requests := requests w |} Hp).
Qed.

Lemma asks_bind {A B} (P : call -> Prop) (p : Prog A) (f : A -> Prog B) :
  Asks P p -> (forall a, Asks P (f a)) -> Asks P (p ≫= f).
Proof.
  unfold mbind, Prog_bind.
  induction p as [a|e|c k IH|k IH|h k IH]; intros Hp Hf; simpl in *; auto.
  destruct Hp as [Hc Hk]. auto.
Qed.

Lemma asks_tryCatch {A} (P : call -> Prop) (p : Prog A) (h : Error -> Prog A) :
  Asks P p -> (forall e, Asks P (h e)) -> Asks P (tryCatch p h).
Proof.
  induction p as [a|e|c k IH|k IH|h' k IH]; intros Hp Hh; simpl in *; auto.
  destruct Hp as [Hc Hk]. auto.
Qed.

Lemma asks_fmap {A B} (P : call -> Prop) (f : A -> B) (p : Prog A) :
  Asks P p -> Asks P (f <$> p).
Proof.
  intros Hp. unfold fmap, Prog_fmap.
  induction p as [a|e|c k IH|k IH|h k IH]; simpl in *; auto.
  destruct Hp as [Hc Hk]. auto.
Qed.

Lemma asks_await (P : call -> Prop) (c : call) : P c -> Asks P (await c).
Proof. intros Hc. split; [exact Hc|]. intros [e|a]; exact I. Qed.

Lemma asks_awaitSheets (P : call -> Prop) (c : call)
    (spreadsheetId email action : string) :
  P c -> Asks P (Sheets.awaitSheets c spreadsheetId email action).
Proof.
  intros Hc. unfold Sheets.awaitSheets.
  apply asks_tryCatch; [apply asks_await, Hc | intros e; exact I].
Qed.

Lemma asks_lift {A} (P : call -> Prop) (r : Error + A) : Asks P (lift r).
Proof. destruct r; exact I. Qed.

Lemma asks_mret {A} (P : call -> Prop) (a : A) : Asks P (mret a : Prog A).
Proof. exact I. Qed.

Lemma asks_getHistory (P : call -> Prop) : Asks P Index.getHistory.
Proof. intros h. exact I. Qed.

Lemma asks_recordTurn (P : call -> Prop) (message reply : string) :
  Asks P (Index.recordTurn message reply).
Proof. intros h h'. exact I. Qed.

(** Splits a goal [Asks P p] along the structure of [p]. *)
Ltac asks :=
  repeat first
    [ exact I
    | apply asks_getHistory
    | apply asks_recordTurn
    | apply asks_await; exact I
    | apply asks_awaitSheets; exact I
    | apply asks_lift
    | apply asks_mret
    | apply asks_fmap
    | apply asks_tryCatch; [| intros ?]
    | apply asks_bind; [| intros ?]
    | match goal with
      | |- Asks _ (if ?b then _ else _) => destruct b
      | |- Asks _ (match ?x with _ => _ end) => destruct x
      | |- Asks _ (let '(_, _) := ?x in _) => destruct x
      end ].

Section Readers.

Context (host : Host) (env : Env) (config : TradeLogConfig).

Lemma asks_readTrades : Asks readsValues (Sheets.readTrades env config).
Proof. unfold Sheets.readTrades, Sheets.getHeaderIndex. asks. Qed.

Lemma asks_api_readTrades : Asks readsValues (Api.readTrades env config).
Proof. unfold Api.readTrades, Api.getHeaderIndex. asks. Qed.

Lemma asks_generateReply (message : string)
    (context : option Agent.ReplyContext) (history : list ChatMessage) :
  Asks leavesSheet (Agent.generateReply host env message context history).
Proof.
  unfold Agent.generateReply, Agent.searchStep, Agent.fetchLinkupSearch.
  asks.
Qed.

Lemma asks_composeAndRecord (message : string) (status : Z)
    (context : Agent.ReplyContext) :
  Asks leavesSheet (Index.composeAndRecord host env message status context).
Proof.
  unfold Index.composeAndRecord.
  apply asks_bind; [apply asks_getHistory | intros history].
  apply asks_bind; [apply asks_generateReply | intros [reply tools]].
  asks.
Qed.

Lemma asks_weaken {A} (P Q : call -> Prop) (p : Prog A) :
  (forall c, P c -> Q c) -> Asks P p -> Asks Q p.
Proof.
  intros HPQ. induction p as [a|e|c k IH|k IH|h k IH]; simpl; auto.
  intros [Hc Hk]. auto.
Qed.

End Readers.

Lemma run_mret {A} (o : Oracle) (a : A) (w : World) :
  run o (mret a) w = (Returned a, w).
Proof. reflexivity. Qed.

Lemma run_getHeaderIndex (o : Oracle) (config : TradeLogConfig)
    (context : Sheets.SheetsContext) (spreadsheetId : string) (w : World) :
  run o (Sheets.getHeaderIndex config context spreadsheetId) w =
  (match o (length (requests w))
           (ValuesGet spreadsheetId (headerRange config)) with
   | inl e => Thrown (Sheets.formatSheetsError e spreadsheetId
                        (Sheets.clientEmail context) "reading headers")
   | inr values => Returned (Sheets.indexHeaders ((values ≫= head) ?? []))
   end, asked w (ValuesGet spreadsheetId (headerRange config))).
Proof.
  unfold Sheets.getHeaderIndex. fold (headerRange config).
  rewrite run_mbind.
  rewrite (run_awaitSheets o (ValuesGet spreadsheetId (headerRange config))).
  destruct (o (length (requests w))
              (ValuesGet spreadsheetId (headerRange config))); reflexivity.
Qed.

Lemma run_api_getHeaderIndex (o : Oracle) (config : TradeLogConfig)
    (context : Sheets.SheetsContext) (spreadsheetId : string) (w : World) :
  run o (Api.getHeaderIndex context spreadsheetId config) w =
  (match o (length (requests w))
           (ValuesGet spreadsheetId (headerRange config)) with
   | inl e => Thrown e
   | inr values => Returned (Sheets.indexHeaders ((values ≫= head) ?? []))
   end, asked w (ValuesGet spreadsheetId (headerRange config))).
Proof.
  unfold Api.getHeaderIndex. fold (headerRange config).
  rewrite run_mbind.
  rewrite (run_await o (ValuesGet spreadsheetId (headerRange config))).
  destruct (o (length (requests w))
              (ValuesGet spreadsheetId (headerRange config))); reflexivity.
Qed.

Lemma asked_length (w : World) (c : call) :
  length (requests (asked w c)) = S (length (requests w)).
Proof. unfold asked. simpl. rewrite length_app. simpl. lia. Qed.


(** X11: Of the paths of a resolved action, only the one of a trade to log
    changes the spreadsheet: when the action is not [log_trade], or
    carries no trade, no request of the run resizes a sheet or writes
    values. *)
Theorem only_a_trade_to_log_changes_the_sheet
    (host : Host) (env : Env) (config : TradeLogConfig) (message : string)
    (action : Agent.Interpretation) (o : Oracle) (w : World) :
  Agent.action action <> Agent.log_trade \/ Agent.trade action = None ->
  exists cs,
    requests (snd (run o (Index.dispatch host env config message action) w))
    = requests w ++ cs /\
    Forall leavesSheet cs.
Proof.
  intros Hother. apply asks_run. unfold Index.dispatch.
  destruct (Agent.action action) eqn:Haction.
  - destruct Hother as [Hne | ->]; [contradiction|].
    apply asks_composeAndRecord.
  - apply asks_bind.
    + apply (asks_weaken readsValues); [|apply asks_readTrades].
      intros []; simpl; auto.
    + intros trades. apply asks_composeAndRecord.
  - apply asks_composeAndRecord.
Qed.

Lemma only_a_trade_to_log_changes_the_sheet_witness :
  exists cs,
    requests (snd (run ledgerOracle
                     (Index.dispatch sampleHost sheetEnv Api.config "summary"
                        {| Agent.action := Agent.summarize;
                           Agent.trade := None; Agent.summary := None |})
                     startWorld))
    = requests startWorld ++ cs /\
    Forall leavesSheet cs.
Proof.
  apply (only_a_trade_to_log_changes_the_sheet sampleHost sheetEnv Api.config
           "summary"
           {| Agent.action := Agent.summarize;
              Agent.trade := None; Agent.summary := None |}
           ledgerOracle startWorld).
  left. discriminate.
Defined.

(** X7: When the server's [appendTradeRow] returns, it has read the header
    row, built the row from it, read the data rows, checked the capacity
    for the target row and the row's length, resizing at most once, and
    last of all written that one row, as entered by a user, at column A of
    the target row; it has made no other request. *)
Theorem appendTradeRow_writes_one_row_last
    (host : Host) (env : Env) (config : TradeLogConfig) (trade : TradeInput)
    (o : Oracle) (w : World) :
  fst (run o (Sheets.appendTradeRow host env config trade) w) = Returned tt ->
  exists spreadsheetId headers row existing sheets grid,
    let sent := length (requests w) in
    let target := Sheets.targetRow (existing ?? []) (Sheets.firstDataRow config) in
    let width := Z.of_nat (length row) in
    Sheets.requireEnv env "GOOGLE_SHEETS_SPREADSHEET_ID" = inr spreadsheetId /\
    o sent (ValuesGet spreadsheetId (headerRange config)) = inr headers /\
    Sheets.buildRow host config trade
      (Sheets.indexHeaders ((headers ≫= head) ?? [])) = inr row /\
    o (S sent) (ValuesGet spreadsheetId (dataRange config)) = inr existing /\
    o (S (S sent)) (SpreadsheetsGet spreadsheetId Sheets.gridFields)
    = inr sheets /\
    Sheets.pickSheet spreadsheetId (sheetName config) sheets = inr grid /\
    requests (snd (run o (Sheets.appendTradeRow host env config trade) w))
    = requests w ++
      [ ValuesGet spreadsheetId (headerRange config);
        ValuesGet spreadsheetId (dataRange config) ] ++
      capacityRequests spreadsheetId (Sheets.g_sheetId grid)
        ((target <=? Sheets.g_rowCount grid)%Z
         && (width <=? Sheets.g_columnCount grid)%Z)
        (Z.max (Sheets.g_rowCount grid) target)
        (Z.max (Sheets.g_columnCount grid) width) ++
      [ ValuesUpdate spreadsheetId (targetCell config (existing ?? []))
          "USER_ENTERED" [row] ].
Proof.
  unfold Sheets.appendTradeRow.
  fold (dataRange config).
  rewrite !run_mbind, !run_lift.
  destruct (Sheets.getSheetsContext env) as [e|context]; [discriminate|].
  cbv beta iota. rewrite !run_mbind, !run_lift.
  destruct (Sheets.requireEnv env "GOOGLE_SHEETS_SPREADSHEET_ID")
    as [e|spreadsheetId]; [discriminate|].
  cbv beta iota. rewrite !run_mbind, run_getHeaderIndex.
  destruct (o (length (requests w))
              (ValuesGet spreadsheetId (headerRange config)))
    as [e|headers] eqn:Hheaders; [discriminate|].
  cbv beta iota. rewrite !run_mbind, !run_lift.
  destruct (Sheets.buildRow host config trade
              (Sheets.indexHeaders ((headers ≫= head) ?? [])))
    as [e|row] eqn:Hrow; [discriminate|].
  cbv beta iota. rewrite !run_mbind.
  rewrite (run_awaitSheets o (ValuesGet spreadsheetId (dataRange config))).
  rewrite asked_length.
  destruct (o (S (length (requests w)))
              (ValuesGet spreadsheetId (dataRange config)))
    as [e|existing] eqn:Hexisting; [discriminate|].
  cbv beta iota.
  fold (targetCell config (existing ?? [])).
  set (target := Sheets.targetRow (existing ?? []) (Sheets.firstDataRow config)).
  set (w2 := asked (asked w (ValuesGet spreadsheetId (headerRange config)))
               (ValuesGet spreadsheetId (dataRange config))).
  assert (length (requests w2) = S (S (length (requests w)))) as Hw2
    by (unfold w2; rewrite !asked_length; reflexivity).
  unfold Sheets.ensureSheetCapacity.
  rewrite !run_mbind.
  unfold Sheets.getSheetProperties. rewrite run_mbind.
  rewrite (run_awaitSheets o (SpreadsheetsGet spreadsheetId Sheets.gridFields)).
  rewrite Hw2.
  destruct (o (S (S (length (requests w))))
              (SpreadsheetsGet spreadsheetId Sheets.gridFields))
    as [e|sheets] eqn:Hsheets; [discriminate|].
  cbv beta iota. rewrite run_lift.
  destruct (Sheets.pickSheet spreadsheetId (sheetName config) sheets)
    as [e|grid] eqn:Hgrid; [discriminate|].
  cbv beta iota. rewrite !max_unchanged.
  intros Hreturned.
  exists spreadsheetId, headers, row, existing, sheets, grid.
  cbv zeta. fold target.
  split; [reflexivity|]. split; [exact Hheaders|]. split; [exact Hrow|].
  split; [exact Hexisting|]. split; [exact Hsheets|]. split; [exact Hgrid|].
  revert Hreturned. unfold capacityRequests.
  destruct ((target <=? Sheets.g_rowCount grid)%Z
            && (Z.of_nat (length row) <=? Sheets.g_columnCount grid)%Z);
    cbv beta iota.
  - rewrite run_mret. cbv beta iota.
    rewrite (run_awaitSheets o (ValuesUpdate _ _ _ _)).
    intros _. unfold w2, asked. simpl. rewrite <- !app_assoc. reflexivity.
  - rewrite (run_awaitSheets o (BatchUpdate _ _ _ _)).
    destruct (o _ (BatchUpdate _ _ _ _)); [discriminate|].
    cbv beta iota.
    rewrite (run_awaitSheets o (ValuesUpdate _ _ _ _)).
    intros _. unfold w2, asked. simpl. rewrite <- !app_assoc. reflexivity.
Qed.

Lemma appendTradeRow_writes_one_row_last_witness :
  requests (snd (run ledgerOracle
                   (Sheets.appendTradeRow sampleHost sheetEnv Api.config
                      sampleTrade) startWorld))
  = [ ValuesGet "sheet-1" "Trade Log!7:7";
      ValuesGet "sheet-1" "Trade Log!A8:ZZ";
      SpreadsheetsGet "sheet-1" Sheets.gridFields;
      ValuesUpdate "sheet-1" "Trade Log!A9" "USER_ENTERED"
        [["AAPL"; ""; "50"]] ].
Proof.
  destruct (appendTradeRow_writes_one_row_last sampleHost sheetEnv Api.config
              sampleTrade ledgerOracle startWorld eq_refl)
    as (spreadsheetId & headers & row & existing & sheets & grid & Hid
        & Hheaders & Hrow & Hexisting & Hsheets & Hgrid & Hrequests).
  injection Hid as <-.
  injection Hheaders as <-. injection Hexisting as <-.
  injection Hsheets as <-. injection Hgrid as <-.
  vm_compute in Hrow. injection Hrow as <-.
  exact Hrequests.
Defined.

(** X8: The same for the serverless [appendTradeRow], whose capacity check
    asks for ten rows more than the target row. *)
Theorem api_appendTradeRow_writes_one_row_last
    (host : Host) (env : Env) (config : TradeLogConfig) (trade : TradeInput)
    (o : Oracle) (w : World) :
  fst (run o (Api.appendTradeRow host env trade config) w) = Returned tt ->
  exists spreadsheetId headers row existing sheets grid,
    let sent := length (requests w) in
    let target := Sheets.targetRow (existing ?? []) (Sheets.firstDataRow config) in
    let width := Z.of_nat (length row) in
    Sheets.requireEnv env "GOOGLE_SHEETS_SPREADSHEET_ID" = inr spreadsheetId /\
    o sent (ValuesGet spreadsheetId (headerRange config)) = inr headers /\
    Api.buildRow host trade
      (Sheets.indexHeaders ((headers ≫= head) ?? [])) config = inr row /\
    o (S sent) (ValuesGet spreadsheetId (dataRange config)) = inr existing /\
    o (S (S sent)) (SpreadsheetsGet spreadsheetId Sheets.gridFields)
    = inr sheets /\
    Sheets.pickSheet spreadsheetId (sheetName config) sheets = inr grid /\
    requests (snd (run o (Api.appendTradeRow host env trade config) w))
    = requests w ++
      [ ValuesGet spreadsheetId (headerRange config);
        ValuesGet spreadsheetId (dataRange config) ] ++
      capacityRequests spreadsheetId (Sheets.g_sheetId grid)
        ((target + 10 <=? Sheets.g_rowCount grid)%Z
         && (width <=? Sheets.g_columnCount grid)%Z)
        (Z.max (Sheets.g_rowCount grid) (target + 10))
        (Z.max (Sheets.g_columnCount grid) width) ++
      [ ValuesUpdate spreadsheetId (targetCell config (existing ?? []))
          "USER_ENTERED" [row] ].
Proof.
  unfold Api.appendTradeRow.
  fold (dataRange config).
  rewrite !run_mbind, !run_lift.
  destruct (Sheets.getSheetsContext env) as [e|context]; [discriminate|].
  cbv beta iota. rewrite !run_mbind, !run_lift.
  destruct (Sheets.requireEnv env "GOOGLE_SHEETS_SPREADSHEET_ID")
    as [e|spreadsheetId]; [discriminate|].
  cbv beta iota. rewrite !run_mbind, run_api_getHeaderIndex.
  destruct (o (length (requests w))
              (ValuesGet spreadsheetId (headerRange config)))
    as [e|headers] eqn:Hheaders; [discriminate|].
  cbv beta iota. rewrite !run_mbind, !run_lift.
  destruct (Api.buildRow host trade
              (Sheets.indexHeaders ((headers ≫= head) ?? [])) config)
    as [e|row] eqn:Hrow; [discriminate|].
  cbv beta iota. rewrite !run_mbind.
  rewrite (run_await o (ValuesGet spreadsheetId (dataRange config))).
  rewrite asked_length.
  destruct (o (S (length (requests w)))
              (ValuesGet spreadsheetId (dataRange config)))
    as [e|existing] eqn:Hexisting; [discriminate|].
  cbv beta iota.
  fold (targetCell config (existing ?? [])).
  set (target := Sheets.targetRow (existing ?? []) (Sheets.firstDataRow config)).
  set (w2 := asked (asked w (ValuesGet spreadsheetId (headerRange config)))
               (ValuesGet spreadsheetId (dataRange config))).
  assert (length (requests w2) = S (S (length (requests w)))) as Hw2
    by (unfold w2; rewrite !asked_length; reflexivity).
  unfold Api.ensureSheetCapacity.
  rewrite !run_mbind.
  unfold Api.getSheetProperties. rewrite run_mbind.
  rewrite (run_await o (SpreadsheetsGet spreadsheetId Sheets.gridFields)).
  rewrite Hw2.
  destruct (o (S (S (length (requests w))))
              (SpreadsheetsGet spreadsheetId Sheets.gridFields))
    as [e|sheets] eqn:Hsheets; [discriminate|].
  cbv beta iota. rewrite run_lift.
  destruct (Sheets.pickSheet spreadsheetId (sheetName config) sheets)
    as [e|grid] eqn:Hgrid; [discriminate|].
  cbv beta iota. rewrite !max_unchanged.
  intros Hreturned.
  exists spreadsheetId, headers, row, existing, sheets, grid.
  cbv zeta. fold target.
  split; [reflexivity|]. split; [exact Hheaders|]. split; [exact Hrow|].
  split; [exact Hexisting|]. split; [exact Hsheets|]. split; [exact Hgrid|].
  revert Hreturned. unfold capacityRequests.
  destruct ((target + 10 <=? Sheets.g_rowCount grid)%Z
            && (Z.of_nat (length row) <=? Sheets.g_columnCount grid)%Z);
    cbv beta iota.
  - rewrite run_mret. cbv beta iota.
    rewrite (run_await o (ValuesUpdate _ _ _ _)).
    intros _. unfold w2, asked. simpl. rewrite <- !app_assoc. reflexivity.
  - rewrite (run_await o (BatchUpdate _ _ _ _)).
    destruct (o _ (BatchUpdate _ _ _ _)); [discriminate|].
    cbv beta iota.
    rewrite (run_await o (ValuesUpdate _ _ _ _)).
    intros _. unfold w2, asked. simpl. rewrite <- !app_assoc. reflexivity.
Qed.

Lemma api_appendTradeRow_writes_one_row_last_witness :
  requests (snd (run ledgerOracle
                   (Api.appendTradeRow sampleHost sheetEnv sampleTrade
                      Api.config) startWorld))
  = [ ValuesGet "sheet-1" "Trade Log!7:7";
      ValuesGet "sheet-1" "Trade Log!A8:ZZ";
      SpreadsheetsGet "sheet-1" Sheets.gridFields;
      ValuesUpdate "sheet-1" "Trade Log!A9" "USER_ENTERED"
        [["AAPL"; ""; "50"]] ].
Proof.
  destruct (api_appendTradeRow_writes_one_row_last sampleHost sheetEnv
              Api.config sampleTrade ledgerOracle startWorld eq_refl)
    as (spreadsheetId & headers & row & existing & sheets & grid & Hid
        & Hheaders & Hrow & Hexisting & Hsheets & Hgrid & Hrequests).
  injection Hid as <-.
  injection Hheaders as <-. injection Hexisting as <-.
  injection Hsheets as <-. injection Hgrid as <-.
  vm_compute in Hrow. injection Hrow as <-.
  exact Hrequests.
Defined.

(** X9: When no configured header is found in the header row, [appendTradeRow]
    throws after that one read: it asks for nothing else and writes
    nothing. *)
Theorem appendTradeRow_stops_without_matching_headers
    (host : Host) (env : Env) (config : TradeLogConfig) (trade : TradeInput)
    (o : Oracle) (w : World) (context : Sheets.SheetsContext)
    (spreadsheetId : string) headers :
  Sheets.getSheetsContext env = inr context ->
  Sheets.requireEnv env "GOOGLE_SHEETS_SPREADSHEET_ID" = inr spreadsheetId ->
  o (length (requests w)) (ValuesGet spreadsheetId (headerRange config))
  = inr headers ->
  resolvedColumns config (Sheets.indexHeaders ((headers ≫= head) ?? [])) = [] ->
  run o (Sheets.appendTradeRow host env config trade) w
  = (Thrown Sheets.NoMatchingHeaders,
     asked w (ValuesGet spreadsheetId (headerRange config))) /\
  run o (Api.appendTradeRow host env trade config) w
  = (Thrown Api.NoMatchingHeaders,
     asked w (ValuesGet spreadsheetId (headerRange config))).
Proof.
  intros Hcontext Hid Hheaders Hnone.
  destruct (buildRow_cases host config trade
              (Sheets.indexHeaders ((headers ≫= head) ?? [])))
    as [(_ & Hserver & Hvariant) | (Hsome & _)]; [|contradiction].
  unfold Sheets.appendTradeRow, Api.appendTradeRow.
  rewrite !run_mbind, !run_lift, Hcontext. cbv beta iota.
  rewrite !run_mbind, !run_lift, Hid. cbv beta iota.
  rewrite !run_mbind, run_getHeaderIndex, run_api_getHeaderIndex, Hheaders.
  cbv beta iota.
  rewrite !run_mbind, !run_lift, Hserver, Hvariant. auto.
Qed.

Lemma appendTradeRow_stops_without_matching_headers_witness :
  run sampleOracle
    (Sheets.appendTradeRow sampleHost sheetEnv Api.config sampleTrade)
    startWorld
  = (Thrown Sheets.NoMatchingHeaders,
     asked startWorld (ValuesGet "sheet-1" "Trade Log!7:7")).
Proof.
  apply (appendTradeRow_stops_without_matching_headers sampleHost sheetEnv
           Api.config sampleTrade sampleOracle startWorld
           {| Sheets.clientEmail := "bot@example.com" |} "sheet-1" None);
    reflexivity.
Defined.

(** ** Brace span *)


Lemma append_assoc (a b c : string) : (a +:+ b) +:+ c = a +:+ (b +:+ c).
Proof.
  induction a as [|x a IH]; [reflexivity|].
  change (String x ((a +:+ b) +:+ c) = String x (a +:+ b +:+ c)).
  f_equal. exact IH.
Qed.

Lemma indexOf_found (c : ascii) (before rest : string) :
  lacks c before ->
  Agent.indexOf c (before +:+ String c rest) = Some (String.length before).
Proof.
  unfold lacks. induction before as [|x before IH]; simpl; intros Hlacks.
  - rewrite Ascii.eqb_refl. reflexivity.
  - apply orb_false_iff in Hlacks. destruct Hlacks as [-> Hrest].
    rewrite (IH Hrest). reflexivity.
Qed.

Lemma indexOf_None (c : ascii) (text : string) :
  Agent.indexOf c text = None <-> lacks c text.
Proof.
  unfold lacks. induction text as [|x text IH]; simpl; [tauto|].
  destruct (Ascii.eqb x c); simpl.
  - split; discriminate.
  - rewrite <- IH. destruct (Agent.indexOf c text); simpl; split;
      congruence.
Qed.

Lemma indexOf_Some (c : ascii) (text : string) (n : nat) :
  Agent.indexOf c text = Some n ->
  exists before rest,
    text = before +:+ String c rest /\ String.length before = n /\
    lacks c before.
Proof.
  unfold lacks. revert n. induction text as [|x text IH]; simpl; intros n Hn.
  - discriminate.
  - destruct (Ascii.eqb_spec x c) as [->|Hne].
    + injection Hn as <-. exists "", text. auto.
    + destruct (Agent.indexOf c text) as [m|]; [|discriminate].
      injection Hn as <-.
      destruct (IH m eq_refl) as (before & rest & -> & <- & Hlacks).
      exists (String x before), rest. simpl.
      rewrite Hlacks. apply Ascii.eqb_neq in Hne. rewrite Hne. auto.
Qed.

Lemma lastIndexOf_None (c : ascii) (text : string) :
  Agent.lastIndexOf c text = None <-> lacks c text.
Proof.
  unfold lacks. induction text as [|x text IH]; simpl; [tauto|].
  destruct (Agent.lastIndexOf c text) as [i|].
  - split; [discriminate|]. intros H. apply orb_false_iff in H.
    destruct H as [_ H]. apply IH in H. discriminate.
  - destruct (Ascii.eqb x c); simpl; [split; discriminate|].
    split; [intros _; apply IH; reflexivity | reflexivity].
Qed.

Lemma lastIndexOf_found (c : ascii) (before after : string) :
  lacks c after ->
  Agent.lastIndexOf c (before +:+ String c after) = Some (String.length before).
Proof.
  intros Hlacks. induction before as [|x before IH]; simpl.
  - apply lastIndexOf_None in Hlacks. rewrite Hlacks, Ascii.eqb_refl.
    reflexivity.
  - rewrite IH. reflexivity.
Qed.

Lemma lastIndexOf_Some (c : ascii) (text : string) (n : nat) :
  Agent.lastIndexOf c text = Some n ->
  exists before after,
    text = before +:+ String c after /\ String.length before = n /\
    lacks c after.
Proof.
  revert n. induction text as [|x text IH]; simpl; intros n Hn.
  - discriminate.
  - destruct (Agent.lastIndexOf c text) as [m|] eqn:E.
    + injection Hn as <-.
      destruct (IH m eq_refl) as (before & after & -> & <- & Hlacks).
      exists (String x before), after. auto.
    + destruct (Ascii.eqb_spec x c) as [->|Hne]; [|discriminate].
      injection Hn as <-. exists "", text.
      split; [reflexivity|]. split; [reflexivity|].
      apply lastIndexOf_None, E.
Qed.

Lemma substring_middle (before middle after : string) :
  String.substring (String.length before) (String.length middle)
    (before +:+ middle +:+ after) = middle.
Proof.
  induction before as [|x before IH].
  - change ("" +:+ middle +:+ after) with (middle +:+ after). simpl.
    induction middle as [|y middle IH].
    + change ("" +:+ after) with after. destruct after; reflexivity.
    + change (String y middle +:+ after) with (String y (middle +:+ after)).
      simpl. rewrite IH. reflexivity.
  - change (String x before +:+ middle +:+ after)
      with (String x (before +:+ middle +:+ after)).
    simpl. exact IH.
Qed.

(** Two ways of cutting the same string: the longer first part extends
    the shorter one. *)
Lemma append_cut (a x b y : string) :
  a +:+ x = b +:+ y -> (String.length a < String.length b)%nat ->
  exists m, b = a +:+ m /\ x = m +:+ y /\ m <> "".
Proof.
  revert b. induction a as [|c a IH]; intros b Heq Hlen; simpl in *.
  - exists b. split; [reflexivity|]. split; [exact Heq|].
    intros ->. simpl in Hlen. lia.
  - destruct b as [|c' b]; simpl in *; [lia|].
    injection Heq as <- Heq.
    destruct (IH b Heq) as (m & -> & -> & Hm); [lia|].
    exists m. auto.
Qed.

Lemma spanned (before body after : string) :
  before +:+ String "{" (body +:+ String "}" after)
  = before +:+ ("{" +:+ body +:+ "}") +:+ after.
Proof.
  f_equal.
  change (String "{" (body +:+ "}" +:+ after)
          = String "{" ((body +:+ "}") +:+ after)).
  f_equal. symmetry. apply append_assoc.
Qed.

(** X12: [extractJson] returns the text from the first opening brace to the
    last closing brace, both included, whatever surrounds them, and
    returns nothing exactly when no closing brace follows the first
    opening one. *)
Theorem extractJson_spans_the_outer_braces (text span : string) :
  Agent.extractJson text = Some span <->
  exists before body after,
    text = before +:+ "{" +:+ body +:+ "}" +:+ after /\
    span = "{" +:+ body +:+ "}" /\
    lacks "{" before /\ lacks "}" after.
Proof.
  unfold Agent.extractJson. split.
  - destruct (Agent.indexOf "{" text) as [start|] eqn:Hstart; [|discriminate].
    destruct (Agent.lastIndexOf "}" text) as [stop|] eqn:Hstop; [|discriminate].
    destruct (Nat.leb_spec stop start) as [Hle|Hlt]; [discriminate|].
    intros [= <-].
    destruct (indexOf_Some _ _ _ Hstart) as (before & rest & Htext & Hb & Hlb).
    destruct (lastIndexOf_Some _ _ _ Hstop) as (upto & after & Htext' & Hu & Hla).
    assert (exists m, upto = before +:+ m /\
                      String "{" rest = m +:+ String "}" after /\ m <> "")
      as (m & -> & Hrest & Hm).
    { apply append_cut; [congruence | lia]. }
    destruct m as [|c body]; [contradiction|].
    simpl in Hrest. injection Hrest as <- ->.
    exists before, body, after.
    split; [exact Htext|]. split; [|auto].
    rewrite Htext. subst start stop.
    rewrite length_append. simpl String.length.
    replace (String.length before + S (String.length body) + 1
             - String.length before)%nat
      with (String.length ("{" +:+ body +:+ "}")).
    + rewrite spanned.
      apply (substring_middle before ("{" +:+ body +:+ "}") after).
    + rewrite !length_append. simpl. lia.
  - intros (before & body & after & -> & -> & Hlb & Hla).
    change (before +:+ "{" +:+ body +:+ "}" +:+ after)
      with (before +:+ String "{" (body +:+ String "}" after)).
    rewrite (indexOf_found "{" before _ Hlb).
    replace (before +:+ String "{" (body +:+ String "}" after))
      with ((before +:+ String "{" body) +:+ String "}" after)
      by (rewrite append_assoc; reflexivity).
    rewrite (lastIndexOf_found "}" _ after Hla).
    rewrite length_append. simpl String.length.
    destruct (Nat.leb_spec (String.length before + S (String.length body))
                (String.length before)) as [Hle|Hlt]; [lia|].
    f_equal.
    replace (String.length before + S (String.length body) + 1
             - String.length before)%nat
      with (String.length ("{" +:+ body +:+ "}"))
      by (rewrite !length_append; simpl; lia).
    rewrite append_assoc.
    change (String.substring (String.length before)
              (String.length ("{" +:+ body +:+ "}"))
              (before +:+ String "{" (body +:+ String "}" after))
            = "{" +:+ body +:+ "}").
    rewrite spanned.
    apply (substring_middle before ("{" +:+ body +:+ "}") after).
Qed.

(** ** Search heuristic *)

Lemma prefix_append (p s : string) :
  String.prefix p s = true <-> exists rest, s = p +:+ rest.
Proof.
  revert s. induction p as [|c p IH]; intros s.
  - split; [intros _; exists s; reflexivity | intros _; destruct s; reflexivity].
  - destruct s as [|c' s]; simpl;
      [split; [discriminate | intros (r & Hr); discriminate Hr]|].
    destruct (Ascii.ascii_dec c c') as [->|Hne].
    + rewrite IH. split; intros (r & Hr); exists r.
      * change (String c' p +:+ r) with (String c' (p +:+ r)). congruence.
      * change (String c' p +:+ r) with (String c' (p +:+ r)) in Hr.
        congruence.
    + split; [discriminate|]. intros (r & Hr).
      change (String c p +:+ r) with (String c (p +:+ r)) in Hr. congruence.
Qed.

Lemma includes_nil (sub : string) :
  JS.includes "" sub = String.prefix sub "".
Proof.
  change (String.prefix sub "" || false = String.prefix sub "").
  apply orb_false_r.
Qed.

Lemma includes_cons (c : ascii) (s sub : string) :
  JS.includes (String c s) sub
  = String.prefix sub (String c s) || JS.includes s sub.
Proof. reflexivity. Qed.

Lemma includes_append (s sub : string) :
  JS.includes s sub = true <-> exists before after, s = before +:+ sub +:+ after.
Proof.
  induction s as [|c s IH].
  - rewrite includes_nil, prefix_append. split.
    + intros (r & Hr). exists "", r. exact Hr.
    + intros (b & a & H). destruct b as [|x b]; [|discriminate H].
      exists a. exact H.
  - rewrite includes_cons, orb_true_iff, prefix_append, IH. split.
    + intros [(r & Hr) | (b & a & ->)].
      * exists "", r. exact Hr.
      * exists (String c b), a. reflexivity.
    + intros (b & a & H). destruct b as [|x b].
      * left. exists a. exact H.
      * right. change (String x b +:+ sub +:+ a)
                 with (String x (b +:+ sub +:+ a)) in H.
        injection H as <- ->. eauto.
Qed.

(** What includes a text includes the end of that text. *)
Lemma includes_end (s front back : string) :
  JS.includes s (front +:+ back) = true -> JS.includes s back = true.
Proof.
  rewrite !includes_append. intros (b & a & ->).
  exists (b +:+ front), a. rewrite !append_assoc. reflexivity.
Qed.

Lemma lower_of_upper (c : ascii) :
  JS.lowerChar (JS.upperChar c) = JS.lowerChar c.
Proof. destruct c as [[] [] [] [] [] [] [] []]; reflexivity. Qed.

Lemma toLowerCase_toUpperCase (s : string) :
  JS.toLowerCase (JS.toUpperCase s) = JS.toLowerCase s.
Proof.
  unfold JS.toLowerCase, JS.toUpperCase.
  induction s as [|c s IH]; simpl; [reflexivity|].
  rewrite lower_of_upper, IH. reflexivity.
Qed.


(** ** Response schema *)


Lemma zString_Some (j : option json) (s : string) :
  Agent.zString j = Some s -> j = Some (JString s).
Proof. destruct j as [[]|]; simpl; congruence. Qed.

Lemma zNumber_Some (j : option json) (x : number) :
  Agent.zNumber j = Some x -> j = Some (JNumber x) /\ PrimFloat.is_nan x = false.
Proof.
  destruct j as [[| |y| | |]|]; simpl; try discriminate.
  destruct (PrimFloat.is_nan y) eqn:E; [discriminate|].
  intros [= <-]. auto.
Qed.

Lemma zTransactionType_Some (j : option json) (t : TransactionType) :
  Agent.zTransactionType j = Some t -> j = Some (JString (typeText t)).
Proof.
  unfold Agent.zTransactionType.
  destruct (Agent.zString j) as [s|] eqn:E; [|discriminate].
  apply zString_Some in E. subst j.
  destruct (String.eqb_spec s "buy") as [->|_]; [intros [= <-]; reflexivity|].
  destruct (String.eqb_spec s "sell") as [->|_]; [intros [= <-]; reflexivity|].
  discriminate.
Qed.

Lemma zTrade_Some (j : option json) (t : TradeInput) :
  Agent.zTrade j = Some t ->
  exists fields,
    j = Some (JObject fields) /\
    Agent.member "date" fields = Some (JString (date t)) /\
    Agent.member "transactionType" fields
    = Some (JString (typeText (transactionType t))) /\
    Agent.member "symbol" fields = Some (JString (symbol t)) /\
    Agent.member "quantity" fields = Some (JNumber (quantity t)) /\
    Agent.member "amountPerUnit" fields = Some (JNumber (amountPerUnit t)) /\
    (exists total, totalAmount t = Some total /\
                   Agent.member "totalAmount" fields = Some (JNumber total) /\
                   PrimFloat.is_nan total = false) /\
    Agent.member "tradingFees" fields = Some (JNumber (tradingFees t)) /\
    Agent.member "investmentAccount" fields
    = Some (JString (investmentAccount t)) /\
    PrimFloat.is_nan (quantity t) = false /\
    PrimFloat.is_nan (amountPerUnit t) = false /\
    PrimFloat.is_nan (tradingFees t) = false.
Proof.
  destruct j as [[| | | | |fields]|]; simpl; try discriminate.
  destruct (Agent.zString (Agent.member "date" fields)) as [d|] eqn:Hd;
    [|discriminate]. simpl.
  destruct (Agent.zTransactionType (Agent.member "transactionType" fields))
    as [ty|] eqn:Hty; [|discriminate]. simpl.
  destruct (Agent.zString (Agent.member "symbol" fields)) as [s|] eqn:Hs;
    [|discriminate]. simpl.
  destruct (Agent.zNumber (Agent.member "quantity" fields)) as [q|] eqn:Hq;
    [|discriminate]. simpl.
  destruct (Agent.zNumber (Agent.member "amountPerUnit" fields)) as [a|] eqn:Ha;
    [|discriminate]. simpl.
  destruct (Agent.zNumber (Agent.member "totalAmount" fields)) as [total|] eqn:Ht;
    [|discriminate]. simpl.
  destruct (Agent.zNumber (Agent.member "tradingFees" fields)) as [f|] eqn:Hf;
    [|discriminate]. simpl.
  destruct (Agent.zString (Agent.member "investmentAccount" fields))
    as [acc|] eqn:Hacc; [|discriminate]. simpl.
  intros [= <-]. simpl.
  apply zString_Some in Hd, Hs, Hacc. apply zTransactionType_Some in Hty.
  apply zNumber_Some in Hq, Ha, Ht, Hf.
  destruct Hq as [Hq Hq'], Ha as [Ha Ha'], Ht as [Ht Ht'], Hf as [Hf Hf'].
  exists fields. repeat split; try assumption.
  exists total. auto.
Qed.

Lemma safeParse_trade (members : list (string * json))
    (accepted : Agent.Interpretation) :
  Agent.safeParse (JObject members) = Some accepted ->
  Agent.zNullableOptional Agent.zTrade (Agent.member "trade" members)
  = Some (Agent.trade accepted).
Proof.
  simpl.
  destruct (Agent.zAction (Agent.member "action" members)) as [a|];
    [|discriminate]. simpl.
  destruct (Agent.zNullableOptional Agent.zTrade
              (Agent.member "trade" members)) as [parsed|];
    [|discriminate]. simpl.
  destruct (Agent.zNullableOptional Agent.zSummary
              (Agent.member "summary" members)) as [s|];
    [|discriminate]. simpl.
  intros [= <-]. reflexivity.
Qed.

(** X13: The schema accepts a trade only as a whole: when [safeParse] yields
    a trade, the payload had a [trade] object with every one of the
    eight members, the strings as strings and the numbers as numbers
    that are not [NaN]; so the trade has its total, and a response whose
    trade lacks a member is not accepted at all and is decoded as the
    [unknown] action. *)
Theorem schema_accepts_only_complete_trades (payload : json) :
  (forall accepted t,
     Agent.safeParse payload = Some accepted ->
     Agent.trade accepted = Some t ->
     exists members fields total,
       payload = JObject members /\
       Agent.member "trade" members = Some (JObject fields) /\
       (forall key, key ∈ tradeKeys -> Agent.member key fields <> None) /\
       totalAmount t = Some total /\
       PrimFloat.is_nan total = false /\
       PrimFloat.is_nan (quantity t) = false /\
       PrimFloat.is_nan (amountPerUnit t) = false /\
       PrimFloat.is_nan (tradingFees t) = false) /\
  (forall members fields key,
     payload = JObject members ->
     Agent.member "trade" members = Some (JObject fields) ->
     key ∈ tradeKeys -> Agent.member key fields = None ->
     Agent.safeParse payload = None /\
     forall host text,
       Agent.extractPayload host text = payload ->
       Agent.decodeResponse host text = Agent.unknownAction).
Proof.
  assert (forall accepted t,
     Agent.safeParse payload = Some accepted ->
     Agent.trade accepted = Some t ->
     exists members fields total,
       payload = JObject members /\
       Agent.member "trade" members = Some (JObject fields) /\
       (forall key, key ∈ tradeKeys -> Agent.member key fields <> None) /\
       totalAmount t = Some total /\
       PrimFloat.is_nan total = false /\
       PrimFloat.is_nan (quantity t) = false /\
       PrimFloat.is_nan (amountPerUnit t) = false /\
       PrimFloat.is_nan (tradingFees t) = false) as Hcomplete.
  { intros accepted t. destruct payload as [| | | | |members]; try discriminate.
    intros Hparse Htrade. apply safeParse_trade in Hparse.
    rewrite Htrade in Hparse.
    unfold Agent.zNullableOptional in Hparse.
    assert (Agent.zTrade (Agent.member "trade" members) = Some t) as Hparsed.
    { destruct (Agent.member "trade" members) as [j|];
        [|discriminate Hparse].
      destruct (Agent.zTrade (Some j)) as [t'|];
        destruct j; simpl in Hparse; congruence. }
    apply zTrade_Some in Hparsed.
    destruct Hparsed as (fields & Hfields & Hd & Hty & Hs & Hq & Ha
                         & (total & Htotal & Ht & Hnan) & Hf & Hacc & Hrest).
    exists members, fields, total.
    split; [reflexivity|]. split; [exact Hfields|]. split.
    - intros key Hkey. unfold tradeKeys in Hkey.
      repeat (apply elem_of_cons in Hkey;
              destruct Hkey as [->|Hkey]; [congruence|]).
      inversion Hkey.
    - split; [exact Htotal|]. split; [exact Hnan|]. exact Hrest. }
  split; [exact Hcomplete|].
  intros members fields key -> Hfields Hkey Habsent.
  assert (Agent.safeParse (JObject members) = None) as Hrejected.
  { destruct (Agent.safeParse (JObject members)) as [accepted|] eqn:Hparse;
      [|reflexivity].
    exfalso. destruct (Agent.trade accepted) as [t|] eqn:Ht.
    - destruct (Hcomplete accepted t eq_refl Ht)
        as (members' & fields' & total & [= <-] & Hfields' & Hall & _).
      rewrite Hfields in Hfields'. injection Hfields' as <-.
      exact (Hall key Hkey Habsent).
    - apply safeParse_trade in Hparse. rewrite Ht, Hfields in Hparse.
      unfold Agent.zNullableOptional in Hparse.
      destruct (Agent.zTrade (Some (JObject fields))); discriminate Hparse. }
  split; [exact Hrejected|].
  intros host text Hpayload. unfold Agent.decodeResponse.
  rewrite Hpayload, Hrejected. reflexivity.
Qed.

Lemma schema_accepts_only_complete_trades_witness :
  Agent.safeParse
    (JObject [ ("action", JString "log_trade");
               ("trade", JObject [ ("symbol", JString "AAPL");
                                   ("quantity", JNumber 10%float) ]) ])
  = None.
Proof.
  apply (proj2 (schema_accepts_only_complete_trades _)
           [ ("action", JString "log_trade");
             ("trade", JObject [ ("symbol", JString "AAPL");
                                 ("quantity", JNumber 10%float) ]) ]
           [ ("symbol", JString "AAPL"); ("quantity", JNumber 10%float) ]
           "date" eq_refl eq_refl).
  - left.
  - reflexivity.
Defined.

(** ** Reply composer without a search *)

(** X15: Without the completion credential [generateReply] throws before any
    request, the search included.  With it, a message that does not
    trigger the search heuristic leads to exactly one request, the
    completion with an empty web-search text, and the tool usage comes
    back untouched: [skipped] with no results in the server, the object
    handed in by the handler in the serverless variant. *)
Theorem generateReply_without_search
    (host : Host) (env : Env) (o : Oracle) (w : World) (message : string)
    (context : option Agent.ReplyContext) (history : list ChatMessage)
    (tools : ToolUsage) :
  (forall e,
     Agent.openAiKey env = inl e ->
     run o (Agent.generateReply host env message context history) w
     = (Thrown e, w) /\
     run o (Api.generateReply host env message context history tools) w
     = (Thrown e, w)) /\
  (forall key,
     Agent.openAiKey env = inr key ->
     Agent.shouldUseWebSearch message = false ->
     let request := Agent.replyRequest host env key message context history None in
     let variant := Api.replyRequest host env key message context history None in
     run o (Agent.generateReply host env message context history) w
     = (match o (length (requests w)) request with
        | inl e => Thrown e
        | inr text => Returned ((JS.trim <$> text) ?? "", Agent.defaultTools)
        end, asked w request) /\
     run o (Api.generateReply host env message context history tools) w
     = (match o (length (requests w)) variant with
        | inl e => Thrown e
        | inr text => Returned ((JS.trim <$> text) ?? "", tools)
        end, asked w variant)).
Proof.
  split.
  - intros e Hkey. unfold Agent.generateReply, Api.generateReply.
    rewrite !run_mbind, !run_lift, Hkey. auto.
  - intros key Hkey Hquiet request variant.
    unfold Agent.generateReply, Api.generateReply.
    rewrite !run_mbind, !run_lift, Hkey. cbv beta iota.
    unfold Agent.searchStep, Api.searchStep. rewrite Hquiet.
    rewrite !run_mbind, run_tryCatch, !run_mret. cbv beta iota.
    fold request variant.
    rewrite (run_mbind o (await request)), (run_mbind o (await variant)).
    rewrite (run_await o request), (run_await o variant).
    split.
    + destruct (o (length (requests w)) request); reflexivity.
    + destruct (o (length (requests w)) variant); reflexivity.
Qed.

Lemma generateReply_without_search_witness :
  run sampleOracle (Agent.generateReply sampleHost keyOnly "hello" None [])
    startWorld
  = (Returned ("Which trade do you mean?", Agent.defaultTools),
     asked startWorld
       (Agent.replyRequest sampleHost keyOnly "sk-test" "hello" None [] None)).
Proof.
  destruct (generateReply_without_search sampleHost keyOnly sampleOracle
              startWorld "hello" None [] Agent.defaultTools) as [_ Hkey].
  apply (Hkey "sk-test" eq_refl eq_refl).
Defined.


(** ** Chat history *)

Lemma pushed_length (h : list ChatMessage) (e : ChatMessage) :
  length (Index.pushed h e) = Nat.min (S (length h)) Index.MAX_HISTORY.
Proof.
  unfold Index.pushed, Index.MAX_HISTORY.
  destruct (Nat.ltb_spec 20 (length (h ++ [e]))) as [Hlt|Hle];
    rewrite ?length_drop, length_app in *; simpl in *; lia.
Qed.

Lemma turn_length (h : list ChatMessage) (m r : string) :
  (length (turn h m r) <= Index.MAX_HISTORY)%nat.
Proof. unfold turn. rewrite pushed_length. lia. Qed.

(** X17: [pushHistory] keeps the newest entries: the history after a push is
    the old one with the entry added, cut at its front to the last
    [MAX_HISTORY] entries, so it ends with the entry pushed and never has
    more than twenty. *)
Theorem pushHistory_keeps_the_newest (h : list ChatMessage) (e : ChatMessage) :
  length (Index.pushed h e) = Nat.min (S (length h)) 20 /\
  (exists dropped, h ++ [e] = dropped ++ Index.pushed h e /\
                   length dropped = (S (length h) - 20)%nat) /\
  last (Index.pushed h e) = Some e /\
  forall (o : Oracle) (w : World),
    run o (Index.pushHistory e) w
    = (Returned tt, {| chatHistory := Index.pushed (chatHistory w) e;
                       requests := requests w |}).
Proof.
  split; [apply pushed_length|].
  assert (exists dropped, h ++ [e] = dropped ++ Index.pushed h e /\
                          length dropped = (S (length h) - 20)%nat) as Hcut.
  { unfold Index.pushed, Index.MAX_HISTORY.
    destruct (Nat.ltb_spec 20 (length (h ++ [e]))) as [Hlt|Hle].
    - exists (take (length (h ++ [e]) - 20) (h ++ [e])).
      split; [symmetry; apply take_drop|].
      rewrite length_take, length_app in *. simpl in *. lia.
    - exists []. split; [reflexivity|].
      rewrite length_app in Hle. simpl in *. lia. }
  split; [exact Hcut|]. split; [|reflexivity].
  destruct Hcut as (dropped & Hsplit & Hlen).
  assert (Index.pushed h e <> []) as Hne.
  { intros Hnil. apply (f_equal (@length _)) in Hnil.
    rewrite pushed_length in Hnil. simpl in Hnil. lia. }
  pose proof (last_snoc e h) as Hlast. rewrite Hsplit in Hlast.
  rewrite last_app in Hlast.
  destruct (last (Index.pushed h e)) as [x|] eqn:E; [exact Hlast|].
  apply last_None in E. contradiction.
Qed.

(** X18: The handlers keep the history within its limit: a history of at most
    twenty entries has at most twenty after any run of the server's
    handler or of the serverless one. *)
Theorem history_stays_within_its_limit
    (host : Host) (env : Env) (config : TradeLogConfig)
    (o : Oracle) (w : World) (method : string) (bodyMessage : option string) :
  (length (chatHistory w) <= Index.MAX_HISTORY)%nat ->
  (length (chatHistory (snd (run o (Index.chat host env config bodyMessage) w)))
   <= Index.MAX_HISTORY)%nat /\
  (length (chatHistory (snd (run o (Api.handler host env method bodyMessage) w)))
   <= Index.MAX_HISTORY)%nat.
Proof.
  intros Hbound. split.
  - pose proof (ensures_chat host env config bodyMessage o w) as Hturn.
    inversion Hturn; try assumption; apply turn_length.
  - pose proof (ensures_api_handler host env method bodyMessage o w) as Hturn.
    inversion Hturn; try assumption; apply turn_length.
Qed.

Lemma history_stays_within_its_limit_witness :
  (length (chatHistory
             (snd (run sampleOracle
                     (Index.chat sampleHost keyOnly Api.config (Some "hello"))
                     startWorld))) <= Index.MAX_HISTORY)%nat.
Proof.
  apply (history_stays_within_its_limit sampleHost keyOnly Api.config
           sampleOracle startWorld "POST" (Some "hello")).
  simpl. unfold Index.MAX_HISTORY. lia.
Defined.

(** ** Amounts *)

Lemma filterChars_idempotent (p : ascii -> bool) (s : string) :
  JS.filterChars p (JS.filterChars p s) = JS.filterChars p s.
Proof.
  induction s as [|c r IH]; simpl; [reflexivity|].
  destruct (p c) eqn:E; simpl; rewrite ?E, IH; reflexivity.
Qed.

Lemma existsChar_filterChars (q p : ascii -> bool) (s : string) :
  JS.existsChar q s = false -> JS.existsChar q (JS.filterChars p s) = false.
Proof.
  induction s as [|c r IH]; simpl; [reflexivity|].
  intros H. apply orb_false_iff in H. destruct H as [Hc Hr].
  destruct (p c); simpl; rewrite ?Hc; auto.
Qed.

Lemma spanDigits_no_digit (s : string) :
  JS.existsChar JS.isDigit s = false -> JS.spanDigits s = ("", s).
Proof.
  destruct s as [|c r]; simpl; [reflexivity|].
  intros H. apply orb_false_iff in H. destruct H as [-> _]. reflexivity.
Qed.

(** After an optional sign, text without a digit is no number. *)
Lemma Number_unsigned_no_digit (c : ascii) (r : string) :
  c <> "-"%char ->
  JS.existsChar JS.isDigit (String c r) = false ->
  JS.Number (String c r) = PrimFloat.nan.
Proof.
  intros Hsign Hdigit. simpl in Hdigit.
  apply orb_false_iff in Hdigit. destruct Hdigit as [Hc Hr].
  destruct (Ascii.eqb_spec c ".") as [->|Hdot].
  - simpl. rewrite (spanDigits_no_digit r Hr). destruct r; reflexivity.
  - destruct c as [[] [] [] [] [] [] [] []];
      first [discriminate Hc | contradiction | reflexivity].
Qed.

Lemma Number_no_digit (s : string) :
  JS.existsChar JS.isDigit s = false ->
  JS.Number s = 0%float \/ JS.Number s = PrimFloat.nan.
Proof.
  intros Hdigit. destruct s as [|c r]; [left; reflexivity | right].
  destruct (Ascii.eqb_spec c "-") as [->|Hsign];
    [|apply Number_unsigned_no_digit; assumption].
  simpl in Hdigit. destruct r as [|c' r']; [reflexivity|].
  pose proof (Number_unsigned_no_digit c' r') as Hrest.
  simpl in Hdigit. apply orb_false_iff in Hdigit. destruct Hdigit as [Hc Hr].
  destruct (Ascii.eqb_spec c' ".") as [->|Hdot].
  - simpl. rewrite (spanDigits_no_digit r' Hr). destruct r'; reflexivity.
  - destruct c' as [[] [] [] [] [] [] [] []];
      first [discriminate Hc | contradiction | reflexivity].
Qed.

(** X19: [parseMoney] never yields [NaN] or an infinity; it reads only the
    digits, dots and minus signs of its argument; and an argument without
    any digit gives zero. *)
Theorem parseMoney_reads_a_finite_amount (value : string) :
  JS.isFinite (Index.parseMoney value) = true /\
  Index.parseMoney (Index.cleanMoney value) = Index.parseMoney value /\
  (JS.existsChar JS.isDigit value = false ->
   Index.parseMoney value = 0%float).
Proof.
  unfold Index.parseMoney. split; [|split].
  - destruct (JS.isFinite (JS.Number (Index.cleanMoney value))) eqn:E;
      [exact E | reflexivity].
  - unfold Index.cleanMoney. rewrite filterChars_idempotent. reflexivity.
  - intros Hdigit.
    destruct (Number_no_digit (Index.cleanMoney value)) as [-> | ->];
      [|reflexivity|reflexivity].
    unfold Index.cleanMoney. apply existsChar_filterChars, Hdigit.
Qed.

Lemma parseMoney_reads_a_finite_amount_witness :
  Index.parseMoney "n/a - see notes." = 0%float.
Proof.
  apply (parseMoney_reads_a_finite_amount "n/a - see notes."). reflexivity.
Defined.

(** ** Manual path *)

(** X20: When nothing is reported missing, the trade of the manual path
    exists and carries the parsed fields as they are: the non-null
    assertions of the handler hold, its defaults for the total and the
    fees are not used, and quantity, amount per unit and total are
    numbers other than zero. *)
Theorem complete_fields_make_the_manual_trade (fields : Index.ManualFields) :
  Index.getMissingManualFields fields = [] ->
  exists trade total,
    Index.manualTrade fields = Some trade /\
    totalAmount trade = Some total /\
    fields = {| Index.m_transactionType := Some (transactionType trade);
                Index.m_symbol := Some (symbol trade);
                Index.m_quantity := Some (quantity trade);
                Index.m_amountPerUnit := Some (amountPerUnit trade);
                Index.m_totalAmount := Some total;
                Index.m_tradingFees := Some (tradingFees trade);
                Index.m_investmentAccount := Some (investmentAccount trade);
                Index.m_date := Some (date trade) |} /\
    symbol trade <> "" /\ date trade <> "" /\ investmentAccount trade <> "" /\
    JS.truthyNumber (quantity trade) = true /\
    JS.truthyNumber (amountPerUnit trade) = true /\
    JS.truthyNumber total = true.
Proof.
  destruct fields as [t s q a total f acc d].
  unfold Index.getMissingManualFields, Index.manualTrade,
    Index.absentString, Index.absentNumber. simpl.
  destruct t as [t|]; [|discriminate].
  destruct s as [s|]; [|discriminate].
  destruct q as [q|]; [|destruct (JS.truthy s); discriminate].
  destruct a as [a|];
    [|destruct (JS.truthy s), (JS.truthyNumber q); discriminate].
  destruct d as [d|];
    [|destruct (JS.truthy s), (JS.truthyNumber q), (JS.truthyNumber a);
      discriminate].
  destruct total as [total|];
    [|destruct (JS.truthy s), (JS.truthyNumber q), (JS.truthyNumber a),
        (JS.truthy d); discriminate].
  destruct f as [f|];
    [|destruct (JS.truthy s), (JS.truthyNumber q), (JS.truthyNumber a),
        (JS.truthy d), (JS.truthyNumber total); discriminate].
  destruct acc as [acc|];
    [|destruct (JS.truthy s), (JS.truthyNumber q), (JS.truthyNumber a),
        (JS.truthy d), (JS.truthyNumber total); discriminate].
  destruct (JS.truthy s) eqn:Hs, (JS.truthyNumber q) eqn:Hq,
    (JS.truthyNumber a) eqn:Ha, (JS.truthy d) eqn:Hd,
    (JS.truthyNumber total) eqn:Htotal, (JS.truthy acc) eqn:Hacc;
    try discriminate.
  intros _. eexists _, total. simpl.
  split; [reflexivity|]. split; [reflexivity|]. split; [reflexivity|].
  repeat split; simpl; try assumption; intros ->; discriminate.
Qed.

Lemma complete_fields_make_the_manual_trade_witness :
  exists trade total,
    Index.manualTrade
      (Index.parseManualTrade (manualMessage (promptSample "10"))) = Some trade /\
    totalAmount trade = Some total.
Proof.
  destruct (complete_fields_make_the_manual_trade
              (Index.parseManualTrade (manualMessage (promptSample "10")))
              eq_refl) as (trade & total & Htrade & Htotal & _).
  exists trade, total. split; assumption.
Defined.

(** ** Free text on the manual path *)

Lemma splitLines_keeps_lacking (q : ascii -> bool) (s : string) :
  JS.existsChar q s = false ->
  Forall (fun piece => JS.existsChar q piece = false) (JS.splitLines s).
Proof.
  assert (forall n s, (String.length s <= n)%nat ->
            JS.existsChar q s = false ->
            Forall (fun piece => JS.existsChar q piece = false)
                   (JS.splitLines s)) as Hn.
  { clear s. induction n as [|n IH]; intros [|c r] Hlen Hq;
      try (repeat constructor; fail); simpl in Hlen; [lia|].
    simpl in Hq. apply orb_false_iff in Hq. destruct Hq as [Hc Hr].
    assert (forall pieces,
              Forall (fun piece => JS.existsChar q piece = false) pieces ->
              Forall (fun piece => JS.existsChar q piece = false)
                (match pieces with
                 | [] => [String c ""]
                 | p :: ps => String c p :: ps
                 end)) as Hcons.
    { intros [|p ps] Hp.
      - repeat constructor. simpl. rewrite Hc. reflexivity.
      - inversion Hp; subst. constructor; [|assumption].
        simpl. rewrite Hc. assumption. }
    simpl. destruct (Nat.eqb (JS.code c) 10).
    - constructor; [reflexivity|]. apply IH; [lia | exact Hr].
    - destruct r as [|c' r'].
      + apply Hcons. repeat constructor.
      + destruct (Nat.eqb (JS.code c) 13 && Nat.eqb (JS.code c') 10).
        * constructor; [reflexivity|]. simpl in Hr, Hlen.
          apply orb_false_iff in Hr. apply IH; [lia | apply Hr].
        * apply Hcons. apply IH; [lia | exact Hr]. }
  apply (Hn (String.length s)). lia.
Qed.

Lemma dropBullets_cons (c : ascii) (r : string) :
  Index.dropBullets (String c r) =
  if Ascii.eqb c "-" || Ascii.eqb c "*" then Index.dropBullets r
  else
    match r with
    | String c2 (String c3 r') =>
        if Ascii.eqb c "226" && Ascii.eqb c2 "128" && Ascii.eqb c3 "162"
        then Index.dropBullets r'
        else String c r
    | _ => String c r
    end.
Proof.
  destruct (Ascii.eqb_spec c "-") as [->|Hdash]; [reflexivity|].
  destruct (Ascii.eqb_spec c "*") as [->|Hstar]; [reflexivity|].
  destruct (Ascii.eqb_spec c "226") as [->|Hbullet].
  - destruct r as [|c2 r]; [reflexivity|].
    destruct (Ascii.eqb_spec c2 "128") as [->|H2].
    + destruct r as [|c3 r]; [reflexivity|].
      destruct (Ascii.eqb_spec c3 "162") as [->|H3]; [reflexivity|].
      destruct c3 as [[] [] [] [] [] [] [] []];
        first [contradiction | reflexivity].
    + destruct c2 as [[] [] [] [] [] [] [] []];
        first [contradiction | destruct r; reflexivity].
  - destruct c as [[] [] [] [] [] [] [] []];
      first [contradiction | destruct r as [|? [|? ?]]; reflexivity].
Qed.

Lemma existsChar_dropBullets (q : ascii -> bool) (line : string) :
  JS.existsChar q line = false ->
  JS.existsChar q (Index.dropBullets line) = false.
Proof.
  assert (forall n line, (String.length line <= n)%nat ->
            JS.existsChar q line = false ->
            JS.existsChar q (Index.dropBullets line) = false) as Hn.
  { clear line. induction n as [|n IH]; intros [|c r] Hlen Hq;
      try reflexivity; simpl in Hlen; [lia|].
    rewrite dropBullets_cons.
    pose proof Hq as Hall. simpl in Hq.
    apply orb_false_iff in Hq. destruct Hq as [Hc Hr].
    destruct (Ascii.eqb c "-" || Ascii.eqb c "*"); [apply IH; [lia|exact Hr]|].
    destruct r as [|c2 [|c3 r']]; try exact Hall.
    destruct (Ascii.eqb c "226" && Ascii.eqb c2 "128" && Ascii.eqb c3 "162");
      [|exact Hall].
    simpl in Hr, Hlen. apply orb_false_iff in Hr. destruct Hr as [_ Hr].
    apply orb_false_iff in Hr. apply IH; [lia | apply Hr]. }
  apply (Hn (String.length line)). lia.
Qed.

Lemma existsChar_normalizeLine (q : ascii -> bool) (line : string) :
  JS.existsChar q line = false ->
  JS.existsChar q (Index.normalizeLine line) = false.
Proof.
  intros Hq. unfold Index.normalizeLine, JS.trim, Index.stripBullet.
  apply existsChar_trimEnd, existsChar_trimStart.
  apply (existsChar_removeEmphasis q) in Hq.
  destruct (Index.startsWithBullet (Index.removeEmphasis line)); [|exact Hq].
  apply existsChar_trimStart, existsChar_dropBullets, Hq.
Qed.

Lemma splitAtColon_lacking (line : string) :
  lacks ":" line -> Index.splitAtColon line = None.
Proof.
  unfold lacks. induction line as [|c r IH]; simpl; [reflexivity|].
  intros H. apply orb_false_iff in H. destruct H as [-> Hr].
  rewrite (IH Hr). reflexivity.
Qed.

Lemma parseLine_lacking (fields : Index.ManualFields) (line : string) :
  lacks ":" line -> Index.parseLine fields line = fields.
Proof.
  intros Hline. unfold Index.parseLine, Index.matchLine.
  rewrite (splitAtColon_lacking line Hline). reflexivity.
Qed.

(** X21: A message without a colon is no manual trade: whatever its lines,
    bullets and emphasis, nothing is parsed from it and all eight fields
    are reported missing, in the order of the prompt. *)
Theorem message_without_colon_has_every_field_missing (message : string) :
  lacks ":" message ->
  Index.parseManualTrade message = Index.noFields /\
  Index.getMissingManualFields (Index.parseManualTrade message)
  = [ "Transaction Type"; "Stock/ETF Symbol"; "Quantity of Units";
      "Amount per unit"; "Date"; "Total Amount (before fees)";
      "Trading Fees"; "Investment Account" ].
Proof.
  intros Hmessage.
  assert (Index.parseManualTrade message = Index.noFields) as ->;
    [|split; reflexivity].
  unfold Index.parseManualTrade, Index.manualLines.
  assert (Forall (lacks ":")
            (List.filter JS.truthy
               (map Index.normalizeLine (JS.splitLines message)))) as Hlines.
  { apply Forall_forall. intros line Hline.
    apply list_elem_of_In, filter_In in Hline. destruct Hline as [Hline _].
    apply in_map_iff in Hline. destruct Hline as (piece & <- & Hpiece).
    apply existsChar_normalizeLine.
    pose proof (splitLines_keeps_lacking _ message Hmessage) as Hpieces.
    rewrite Forall_forall in Hpieces. apply Hpieces, list_elem_of_In, Hpiece. }
  induction Hlines as [|line lines Hline _ IH]; simpl; [reflexivity|].
  rewrite (parseLine_lacking _ line Hline). exact IH.
Qed.

Lemma message_without_colon_has_every_field_missing_witness :
  Index.parseManualTrade "- **buy** 10 SPUS at 55" = Index.noFields.
Proof.
  apply (message_without_colon_has_every_field_missing
           "- **buy** 10 SPUS at 55").
  reflexivity.
Defined.

(** ** The handler without a completion credential *)

Lemma openAiKey_missing (env : Env) (e : Error) :
  Agent.openAiKey env = inl e -> e = Agent.MissingOpenAiKey.
Proof.
  unfold Agent.openAiKey.
  destruct (env !! "OPENAI_API_KEY") as [k|]; [destruct (JS.truthy k)|];
    congruence.
Qed.

(** X24: Without the completion credential the server's handler answers every
    message that is not blank through the manual path.  What the manual
    path returns is the answer.  When the manual path throws, what
    follows depends on the message of the error: if it reads as a
    credential failure the manual path is run once more, and its
    outcome is the handler's; otherwise the handler answers 500 with
    that message and the default tool usage, and records nothing. *)
Theorem without_credential_the_manual_path_answers
    (host : Host) (env : Env) (config : TradeLogConfig)
    (bodyMessage : option string) (o : Oracle) (w : World) (e : Error) :
  Agent.openAiKey env = inl e ->
  received bodyMessage <> "" ->
  let manual := Index.manualFallback host env config (received bodyMessage) in
  run o (Index.chat host env config bodyMessage) w =
  match run o manual w with
  | (Returned r, w') => (Returned r, w')
  | (Thrown failure, w') =>
      if Index.isLlmAuthError (err_message failure)
      then run o manual w'
      else (Returned {| Index.code := 500;
                        Index.reply := err_message failure;
                        Index.tools := Some Agent.defaultTools |}, w')
  end.
Proof.
  intros Hkey Hmessage manual.
  pose proof (openAiKey_missing env e Hkey) as ->.
  unfold Index.chat. fold (received bodyMessage).
  destruct (JS.truthy (received bodyMessage)) eqn:Htruthy;
    [|apply truthy_false in Htruthy; contradiction].
  simpl negb. cbv iota.
  rewrite run_tryCatch, run_mbind, run_tryCatch, run_mbind, run_getHistory.
  cbv beta iota. rewrite run_fmap.
  unfold Agent.interpretMessage at 1.
  rewrite run_mbind, run_lift, Hkey. cbv beta iota.
  change (Index.isLlmAuthError (err_message Agent.MissingOpenAiKey)) with true.
  cbv iota. rewrite run_fmap. fold manual.
  destruct (run o manual w) as [[r|failure] w'].
  - rewrite run_mret. reflexivity.
  - unfold Index.recover.
    destruct (Index.isLlmAuthError (err_message failure)); [reflexivity|].
    rewrite run_tryCatch. unfold Index.composeAndRecord.
    rewrite run_mbind, run_getHistory. cbv beta iota.
    unfold Agent.generateReply.
    rewrite !run_mbind, run_lift, Hkey. reflexivity.
Qed.

Lemma without_credential_the_manual_path_answers_witness :
  run downOracle (Index.chat sampleHost ∅ Api.config (Some "hello")) startWorld
  = (Returned {| Index.code := 503;
                 Index.reply :=
                   Index.manualTradePrompt
                     (Index.getMissingManualFields
                        (Index.parseManualTrade "hello"));
                 Index.tools := Some Agent.defaultTools |}, startWorld).
Proof.
  assert (Agent.openAiKey ∅ = inl Agent.MissingOpenAiKey) as Hkey
    by reflexivity.
  rewrite (without_credential_the_manual_path_answers sampleHost ∅ Api.config
             (Some "hello") downOracle startWorld Agent.MissingOpenAiKey Hkey).
  - reflexivity.
  - discriminate.
Defined.

(** ** Credential failures *)


(** X23: [isLlmAuthError] holds of a message exactly when one of its five
    marker texts occurs somewhere in it, in that spelling.  Hence the
    error of a missing completion credential is recognised, and so is
    an error of a sheet request whose API message contains a marker,
    when it is neither a permission nor a not-found failure. *)
Theorem isLlmAuthError_looks_for_a_marker (message : string) :
  (Index.isLlmAuthError message = true <->
   exists marker before after,
     marker ∈ authMarkers /\ message = before +:+ marker +:+ after) /\
  Index.isLlmAuthError (err_message Agent.MissingOpenAiKey) = true /\
  (forall (e : Error) (spreadsheetId clientEmail action : string),
     err_status e <> Some 403%Z -> err_status e <> Some 404%Z ->
     apiStatus e <> Some "PERMISSION_DENIED" -> apiStatus e <> Some "NOT_FOUND" ->
     apiMessage e = Some message ->
     Index.isLlmAuthError message = true ->
     Index.isLlmAuthError
       (err_message (Sheets.formatSheetsError e spreadsheetId clientEmail action))
     = true).
Proof.
  split; [|split; [reflexivity|]].
  - unfold Index.isLlmAuthError, authMarkers.
    rewrite !orb_true_iff, !includes_append. split.
    + intros [[[[H|H]|H]|H]|H]; destruct H as (before & after & ->);
        eexists _, before, after; (split; [|reflexivity]).
      * left.
      * right; left.
      * do 2 right; left.
      * do 3 right; left.
      * do 4 right; left.
    + intros (marker & before & after & Hmarker & ->).
      repeat (apply elem_of_cons in Hmarker;
              destruct Hmarker as [->|Hmarker]; [eauto 10|]).
      inversion Hmarker.
  - intros e spreadsheetId clientEmail action H403 H404 Hdenied Hfound
      Hmessage Hauth.
    unfold Sheets.formatSheetsError.
    rewrite !bool_decide_eq_false_2 by assumption. simpl. rewrite Hmessage.
    destruct (JS.truthy message) eqn:Htruthy.
    + simpl. revert Hauth. unfold Index.isLlmAuthError.
      rewrite !orb_true_iff, !includes_append.
      intros [[[[H|H]|H]|H]|H]; destruct H as (before & after & ->);
        [left; left; left; left | left; left; left; right
         | left; left; right | left; right | right];
        exists ("Google Sheets error while " +:+ action +:+ ": " +:+ before),
               after;
        rewrite !append_assoc; reflexivity.
    + apply truthy_false in Htruthy. subst message. discriminate Hauth.
Qed.

(** ** Missing fields *)

Lemma filter_sublist {A} (p : A -> bool) (l : list A) :
  List.filter p l `sublist_of` l.
Proof.
  induction l as [|x l IH]; simpl; [constructor|].
  destruct (p x); [apply sublist_skip | apply sublist_cons]; exact IH.
Qed.

(** X22: The fields reported missing are named in the order of the manual
    format, each at most once. *)
Theorem missing_fields_keep_the_prompt_order (fields : Index.ManualFields) :
  Index.getMissingManualFields fields
  `sublist_of` [ "Transaction Type"; "Stock/ETF Symbol"; "Quantity of Units";
                 "Amount per unit"; "Date"; "Total Amount (before fees)";
                 "Trading Fees"; "Investment Account" ] /\
  NoDup (Index.getMissingManualFields fields).
Proof.
  assert (Index.getMissingManualFields fields
          `sublist_of` map labelOf allFields) as Hsub.
  { rewrite getMissing_by_field.
    apply (fmap_sublist labelOf), filter_sublist. }
  split; [exact Hsub|].
  eapply sublist_NoDup; [|exact Hsub].
  unfold allFields. simpl.
  repeat (apply NoDup_cons; split;
          [intros Hin;
           repeat (apply elem_of_cons in Hin;
                   destruct Hin as [Hin|Hin]; [discriminate Hin|]);
           inversion Hin|]).
  constructor.
Qed.

(** ** Answers of the handlers *)


Lemma trimEnd_blank (s : string) : JS.trimEnd s = "" <-> blank s.
Proof.
  unfold blank. induction s as [|c r IH]; simpl; [tauto|].
  destruct (JS.isWhiteSpace c); simpl.
  - rewrite <- IH. destruct (JS.trimEnd r); simpl; split; congruence.
  - split; discriminate.
Qed.

Lemma trimStart_blank (s : string) : blank (JS.trimStart s) <-> blank s.
Proof.
  unfold blank. induction s as [|c r IH]; simpl; [tauto|].
  destruct (JS.isWhiteSpace c) eqn:E; simpl; [exact IH|].
  rewrite E. simpl. tauto.
Qed.

Lemma trim_blank (s : string) : JS.trim s = "" <-> blank s.
Proof. unfold JS.trim. rewrite trimEnd_blank. apply trimStart_blank. Qed.

Lemma always_bind {A B} (p : Prog A) (f : A -> Prog B)
    (Q : Outcome A -> Prop) (P : Outcome B -> Prop) :
  Always p Q ->
  (forall a, Q (Returned a) -> Always (f a) P) ->
  (forall e, Q (Thrown e) -> P (Thrown e)) ->
  Always (p ≫= f) P.
Proof.
  intros Hp Hf He o w. rewrite run_mbind. specialize (Hp o w).
  destruct (run o p w) as [[a|e] w']; simpl in *; [apply Hf | apply He]; auto.
Qed.

Lemma always_tryCatch {A} (p : Prog A) (h : Error -> Prog A)
    (Q P : Outcome A -> Prop) :
  Always p Q ->
  (forall a, Q (Returned a) -> P (Returned a)) ->
  (forall e, Q (Thrown e) -> Always (h e) P) ->
  Always (tryCatch p h) P.
Proof.
  intros Hp Ha Hh o w. rewrite run_tryCatch. specialize (Hp o w).
  destruct (run o p w) as [[a|e] w']; simpl in *; [apply Ha | apply Hh]; auto.
Qed.

Lemma always_fmap {A B} (g : A -> B) (p : Prog A)
    (Q : Outcome A -> Prop) (P : Outcome B -> Prop) :
  Always p Q ->
  (forall a, Q (Returned a) -> P (Returned (g a))) ->
  (forall e, Q (Thrown e) -> P (Thrown e)) ->
  Always (g <$> p) P.
Proof.
  intros Hp Ha He o w. rewrite run_fmap. specialize (Hp o w).
  destruct (run o p w) as [[a|e] w']; simpl in *; [apply Ha | apply He]; auto.
Qed.

Lemma always_true {A} (p : Prog A) : Always p (fun _ => True).
Proof. intros o w. exact I. Qed.

Section Answers.

Context (host : Host) (env : Env) (config : TradeLogConfig).

Lemma composeAndRecord_answers (m : string) (status : Z)
    (context : Agent.ReplyContext) :
  Always (Index.composeAndRecord host env m status context)
    (answersWith (eq status)).
Proof.
  unfold Index.composeAndRecord.
  apply (always_bind _ _ (fun _ => True)); [apply always_true | | exact (fun _ _ => I)].
  intros history _.
  apply (always_bind _ _ (fun _ => True)); [apply always_true | | exact (fun _ _ => I)].
  intros [reply tools] _ o w. rewrite run_mbind, run_recordTurn. reflexivity.
Qed.

Lemma always_more {A} (p : Prog A) (Q P : Outcome A -> Prop) :
  Always p Q -> (forall out, Q out -> P out) -> Always p P.
Proof. intros Hp HQP o w. apply HQP, Hp. Qed.

Lemma manualFallback_answers (m : string) :
  Always (Index.manualFallback host env config m)
    (answersWith (fun c => c = 200 \/ c = 503)%Z).
Proof.
  unfold Index.manualFallback.
  destruct (Index.getMissingManualFields (Index.parseManualTrade m)).
  - destruct (Index.manualTrade (Index.parseManualTrade m)) as [trade|].
    + apply (always_bind _ _ (fun _ => True));
        [apply always_true | | exact (fun _ _ => I)].
      intros _ _ o w. rewrite run_mbind, run_recordTurn. simpl. auto.
    + intros o w. exact I.
  - intros o w. simpl. auto.
Qed.

Lemma dispatch_answers (m : string) (action : Agent.Interpretation) :
  Always (Index.dispatch host env config m action) (answersWith (eq 200%Z)).
Proof.
  unfold Index.dispatch.
  destruct (Agent.action action); [destruct (Agent.trade action)| |];
    try apply composeAndRecord_answers;
    (apply (always_bind _ _ (fun _ => True));
     [apply always_true | | exact (fun _ _ => I)]);
    intros ? _; apply composeAndRecord_answers.
Qed.

Lemma recover_answers (m : string) (e : Error) :
  Always (Index.recover host env config m e)
    (answersWith (fun c => c = 200 \/ c = 500 \/ c = 503)%Z).
Proof.
  unfold Index.recover. destruct (Index.isLlmAuthError (err_message e)).
  - apply (always_more _ _ _ (manualFallback_answers m)).
    intros [r|e']; simpl; tauto.
  - apply (always_tryCatch _ _ (answersWith (eq 500%Z))).
    + apply composeAndRecord_answers.
    + intros r Hr. simpl in *. auto.
    + intros _ _ o w. simpl. auto.
Qed.

(** A message that is not blank is never answered with 400. *)
Lemma chat_answers (bodyMessage : option string) :
  received bodyMessage <> "" ->
  Always (Index.chat host env config bodyMessage)
    (answersWith (fun c => c = 200 \/ c = 500 \/ c = 503)%Z).
Proof.
  intros Hmessage. unfold Index.chat. fold (received bodyMessage).
  destruct (JS.truthy (received bodyMessage)) eqn:Htruthy;
    [|apply truthy_false in Htruthy; contradiction].
  simpl negb. cbv iota.
  apply (always_tryCatch _ _
           (answersWith (fun c => c = 200 \/ c = 500 \/ c = 503)%Z)).
  - apply (always_bind _ _
             (fun out => match out with
                         | Returned (inl r) =>
                             Index.code r = 200%Z \/ Index.code r = 503%Z
                         | _ => True
                         end)).
    + apply (always_tryCatch _ _
               (fun out => match out with
                           | Returned (inl _) => False
                           | _ => True
                           end)).
      * apply (always_bind _ _ (fun _ => True));
          [apply always_true | | exact (fun _ _ => I)].
        intros history _.
        apply (always_fmap _ _ (fun _ => True));
          [apply always_true | exact (fun _ _ => I) | exact (fun _ _ => I)].
      * intros [r|action] Hr; [contradiction | exact I].
      * intros e _. destruct (Index.isLlmAuthError (err_message e)).
        -- apply (always_fmap _ _ _ _ (manualFallback_answers
                                         (received bodyMessage))).
           ++ intros r Hr. exact Hr.
           ++ intros e' _. exact I.
        -- intros o w. exact I.
    + intros [r|action] Hr.
      * intros o w. simpl. tauto.
      * apply (always_more _ _ _ (dispatch_answers _ action)).
        intros [r|e']; simpl; auto.
    + intros e _. exact I.
  - auto.
  - intros e _. apply recover_answers.
Qed.

End Answers.

Section ApiAnswers.

Context (host : Host) (env : Env).

(** What the serverless handler answers from its [try] block is a reply
    with status 200. *)
Lemma api_respond_answers (m : string) :
  Always (Api.respond host env m)
    (fun out => match out with
                | Returned r => exists reply tools, r = Api.Replied 200 reply tools
                | Thrown _ => True
                end).
Proof.
  assert (forall context tools,
            Always (Api.composeAndRecord host env m context tools)
              (fun out => match out with
                          | Returned r =>
                              exists reply tools, r = Api.Replied 200 reply tools
                          | Thrown _ => True
                          end)) as Hcompose.
  { intros context tools. unfold Api.composeAndRecord.
    apply (always_bind _ _ (fun _ => True));
      [apply always_true | | exact (fun _ _ => I)].
    intros history _.
    apply (always_bind _ _ (fun _ => True));
      [apply always_true | | exact (fun _ _ => I)].
    intros [reply updated] _ o w. rewrite run_mbind, run_recordTurn.
    simpl. eauto. }
  unfold Api.respond.
  apply (always_bind _ _ (fun _ => True));
    [apply always_true | | exact (fun _ _ => I)].
  intros history _.
  apply (always_bind _ _ (fun _ => True));
    [apply always_true | | exact (fun _ _ => I)].
  intros action _.
  destruct (Agent.action action); [destruct (Agent.trade action)| |];
    try apply Hcompose;
    (apply (always_bind _ _ (fun _ => True));
     [apply always_true | | exact (fun _ _ => I)]);
    intros ? _; apply Hcompose.
Qed.

(** On a [POST] with a message that is not blank the serverless handler
    answers 200 from its [try] block or 500 from its [catch]. *)
Lemma api_post_answers (bodyMessage : option string) :
  received bodyMessage <> "" ->
  Always (Api.handler host env "POST" bodyMessage)
    (fun out => exists reply tools,
                  out = Returned (Api.Replied 200 reply tools) \/
                  out = Returned (Api.Replied 500 reply tools)).
Proof.
  intros Hmessage.
  assert (Api.handler host env "POST" bodyMessage
          = if negb (JS.truthy (received bodyMessage))
            then mret (Api.Replied 400 "Message is required."
                         Agent.defaultTools)
            else tryCatch (Api.respond host env (received bodyMessage))
                   (fun error =>
                      mret (Api.Replied 500 (err_message error)
                              Agent.defaultTools))) as ->
    by reflexivity.
  destruct (JS.truthy (received bodyMessage)) eqn:Htruthy;
    [|apply truthy_false in Htruthy; contradiction].
  simpl negb. cbv iota.
  apply (always_tryCatch _ _ _ _ (api_respond_answers (received bodyMessage))).
  - intros r (reply & tools & ->). eauto.
  - intros e _ o w. simpl. eauto.
Qed.

End ApiAnswers.



(** X26: The serverless handler always answers: whatever the method, the
    message and the outside world, its run ends in a response and never
    in a thrown error.  A request that is not a [POST] is answered
    without any request to the outside and without touching the
    history: [OPTIONS] with an empty 200, every other method with 405. *)
Theorem api_handler_always_answers
    (host : Host) (env : Env) (method : string)
    (bodyMessage : option string) (o : Oracle) (w : World) :
  (exists r, fst (run o (Api.handler host env method bodyMessage) w) = Returned r) /\
  (method = "OPTIONS" ->
   run o (Api.handler host env method bodyMessage) w
   = (Returned (Api.Ended 200), w)) /\
  (method <> "OPTIONS" -> method <> "POST" ->
   run o (Api.handler host env method bodyMessage) w
   = (Returned Api.MethodNotAllowed, w)).
Proof.
  split; [|split].
  - unfold Api.handler.
    destruct (String.eqb method "OPTIONS"); [simpl; eauto|].
    destruct (String.eqb method "POST"); simpl negb; cbv iota; [|simpl; eauto].
    destruct (JS.truthy (JS.trim (bodyMessage ?? ""))); simpl negb; cbv iota;
      [|simpl; eauto].
    rewrite run_tryCatch.
    destruct (run o (Api.respond host env (JS.trim (bodyMessage ?? ""))) w)
      as [[r|e] w']; simpl; eauto.
  - intros ->. reflexivity.
  - intros Hoptions Hpost. unfold Api.handler.
    apply String.eqb_neq in Hoptions, Hpost. rewrite Hoptions, Hpost.
    reflexivity.
Qed.


(** X27: The client posts no blank message, so what it posts is never
    refused as one: a posted message is not empty, reaches the handlers
    as it is, and is answered by the server with 200, 500 or 503 and by
    the serverless handler with 200 or 500, never with 400. *)
Theorem client_message_is_never_refused_as_blank
    (input message : string) (isSending : bool) :
  App.submitted input isSending = Some message ->
  message <> "" /\
  received (Some message) = message /\
  forall (host : Host) (env : Env) (config : TradeLogConfig)
         (o : Oracle) (w : World),
    (forall r,
       fst (run o (Index.chat host env config (Some message)) w) = Returned r ->
       Index.code r <> 400%Z) /\
    (forall reply tools,
       fst (run o (Api.handler host env "POST" (Some message)) w)
       <> Returned (Api.Replied 400 reply tools)).
Proof.
  unfold App.submitted, App.canSend. intros Hsubmitted.
  destruct (Nat.ltb_spec 0 (String.length (JS.trim input))) as [Hlen|Hlen];
    [|discriminate].
  destruct isSending; [discriminate|]. injection Hsubmitted as <-.
  assert (JS.trim input <> "") as Hne.
  { intros Hempty. rewrite Hempty in Hlen. simpl in Hlen. lia. }
  assert (received (Some (JS.trim input)) = JS.trim input) as Hreceived
    by apply trim_idempotent.
  split; [exact Hne|]. split; [exact Hreceived|].
  intros host env config o w.
  assert (~ blank (Some (JS.trim input) ?? "")) as Hblank.
  { intros Hb. apply trim_blank in Hb. simpl in Hb.
    rewrite trim_idempotent in Hb. contradiction. }
  split.
  - intros r Hr.
    pose proof (chat_answers host env config (Some (JS.trim input))) as Hcode.
    rewrite Hreceived in Hcode. specialize (Hcode Hne o w).
    rewrite Hr in Hcode. simpl in Hcode. lia.
  - intros reply tools Hr.
    assert (received (Some (JS.trim input)) <> "") as Hne'
      by (rewrite Hreceived; exact Hne).
    destruct (api_post_answers host env (Some (JS.trim input)) Hne' o w)
      as (reply' & tools' & Hout).
    rewrite Hr in Hout. destruct Hout as [Hout|Hout]; discriminate Hout.
Qed.

Lemma client_message_is_never_refused_as_blank_witness :
  received (Some "Sell 5 TSLA at 210") = "Sell 5 TSLA at 210".
Proof.
  apply (client_message_is_never_refused_as_blank "  Sell 5 TSLA at 210 "
           "Sell 5 TSLA at 210" false).
  reflexivity.
Defined.

(** ** Other transaction types *)


Lemma upper_of_lower (c : ascii) :
  JS.upperChar (JS.lowerChar c) = JS.upperChar c.
Proof. destruct c as [[] [] [] [] [] [] [] []]; reflexivity. Qed.

Lemma upper_of_upper (c : ascii) :
  JS.upperChar (JS.upperChar c) = JS.upperChar c.
Proof. destruct c as [[] [] [] [] [] [] [] []]; reflexivity. Qed.

Lemma toUpperCase_toLowerCase (s : string) :
  JS.toUpperCase (JS.toLowerCase s) = JS.toUpperCase s.
Proof.
  unfold JS.toLowerCase, JS.toUpperCase.
  induction s as [|c s IH]; simpl; [reflexivity|].
  rewrite upper_of_lower, IH. reflexivity.
Qed.

Lemma toUpperCase_idempotent (s : string) :
  JS.toUpperCase (JS.toUpperCase s) = JS.toUpperCase s.
Proof.
  unfold JS.toUpperCase.
  induction s as [|c s IH]; simpl; [reflexivity|].
  rewrite upper_of_upper, IH. reflexivity.
Qed.

Lemma truthy_mapChars (f : ascii -> ascii) (s : string) :
  JS.truthy (JS.mapChars f s) = JS.truthy s.
Proof. destruct s; reflexivity. Qed.


Lemma elem_of_addType (types : list string) (x y : string) :
  y ∈ Index.addType types x <-> y ∈ types \/ y = x.
Proof.
  unfold Index.addType. destruct (existsb (String.eqb x) types) eqn:E.
  - split; [auto|]. intros [H| ->]; [exact H|].
    apply existsb_exists in E. destruct E as (z & Hz & Heq).
    apply String.eqb_eq in Heq. subst z. apply list_elem_of_In, Hz.
  - rewrite elem_of_app, list_elem_of_singleton. tauto.
Qed.

Lemma NoDup_addType (types : list string) (x : string) :
  NoDup types -> NoDup (Index.addType types x).
Proof.
  intros Hnodup. unfold Index.addType.
  destruct (existsb (String.eqb x) types) eqn:E; [exact Hnodup|].
  apply NoDup_app. split; [exact Hnodup|]. split; [|apply NoDup_singleton].
  intros y Hy Hy'. apply list_elem_of_singleton in Hy'. subst y.
  assert (existsb (String.eqb x) types = true) as Htrue; [|congruence].
  apply existsb_exists. exists x.
  split; [apply list_elem_of_In, Hy | apply String.eqb_refl].
Qed.

Section Others.

Context (config : TradeLogConfig).

Lemma others_tallyRow (summary : list (string * Index.Tally)) (row : TradeRow)
    (k : string) :
  othersOf (Index.tallyRow config summary row) k
  = if String.eqb (rowSymbol config row) k && rowIsOther config row
    then ((fst (othersOf summary k) + 1)%nat,
          Index.addType (snd (othersOf summary k)) (rowType config row))
    else othersOf summary k.
Proof.
  unfold othersOf, Index.tallyRow, rowIsOther, rowType.
  rewrite getTally_setTally.
  fold (rowSymbol config row) (rowSide config row).
  destruct (String.eqb_spec (rowSymbol config row) k) as [->|Hne]; simpl.
  - fold (rowSymbol config row).
    destruct (JS.startsWith (rowSide config row) "buy"); [reflexivity|].
    destruct (JS.startsWith (rowSide config row) "sell"); [reflexivity|].
    destruct (JS.truthy (rowSide config row)); reflexivity.
  - reflexivity.
Qed.

Lemma others_tally (rows : list TradeRow) (k : string) :
  fst (othersOf (Index.tally config rows) k) = length (otherRows config k rows) /\
  NoDup (snd (othersOf (Index.tally config rows) k)) /\
  forall type,
    type ∈ snd (othersOf (Index.tally config rows) k) <->
    exists row, row ∈ otherRows config k rows /\ rowType config row = type.
Proof.
  induction rows as [|row rows IH] using rev_ind.
  - simpl. split; [reflexivity|]. split; [constructor|].
    intros type. split; [intros H; inversion H|].
    intros (row & Hrow & _). inversion Hrow.
  - destruct IH as (Hcount & Hnodup & Htypes).
    unfold Index.tally, otherRows in *.
    rewrite fold_left_app, List.filter_app. simpl fold_left.
    rewrite others_tallyRow. simpl List.filter.
    destruct (String.eqb (rowSymbol config row) k && rowIsOther config row).
    + cbn [fst snd]. rewrite length_app, Hcount. simpl length.
      split; [reflexivity|]. split; [apply NoDup_addType, Hnodup|].
      intros type. rewrite elem_of_addType, Htypes. split.
      * intros [(r & Hr & Ht) | ->].
        -- exists r. split; [apply elem_of_app; left; exact Hr | exact Ht].
        -- exists row. split; [|reflexivity].
           apply elem_of_app. right. left.
      * intros (r & Hr & Ht). apply elem_of_app in Hr.
        destruct Hr as [Hr|Hr].
        -- left. exists r. auto.
        -- apply list_elem_of_singleton in Hr. subst r. right. auto.
    + rewrite app_nil_r. auto.
Qed.

End Others.

(** X29: Beside the two sides, the server's summary counts for each symbol
    the rows that name a type that is neither a purchase nor a sale, and
    lists the types of those rows, each once.  The line of a symbol
    without such rows is the line of the serverless variant; with such
    rows it is that line followed by the count and the types. *)
Theorem other_types_are_counted_and_listed_once
    (host : Host) (config : TradeLogConfig) (rows : list TradeRow)
    (symbol : string) (entry : Index.Tally) :
  (symbol, entry) ∈ Index.tally config rows ->
  let others := otherRows config symbol rows in
  Index.otherCount entry = length others /\
  NoDup (Index.otherTypes entry) /\
  (forall type,
     type ∈ Index.otherTypes entry <->
     exists row, row ∈ others /\ rowType config row = type) /\
  Index.summaryLine host (symbol, entry)
  = Api.summaryLine host (symbol, entry) +:+
    match others with
    | [] => ""
    | _ => ", other " +:+ Index.show host (JS.ofNat (length others)) +:+
           " (" +:+ JS.join ", " (Index.otherTypes entry) +:+ ")"
    end.
Proof.
  intros Hentry others.
  assert (Index.getTally (Index.tally config rows) symbol = Some entry) as Hget.
  { apply getTally_elem; [|exact Hentry].
    apply (keys_fold config (Index.tallyRow config) rows []
             (keys_tallyRow config) NoDup_nil_2). }
  destruct (others_tally config rows symbol) as (Hcount & Hnodup & Htypes).
  unfold othersOf in Hcount, Hnodup, Htypes. rewrite Hget in *. simpl in *.
  fold others in Hcount, Htypes.
  split; [exact Hcount|]. split; [exact Hnodup|]. split; [exact Htypes|].
  unfold Index.summaryLine, Api.summaryLine. rewrite Hcount.
  rewrite !append_assoc.
  destruct others; reflexivity.
Qed.

Lemma other_types_are_counted_and_listed_once_witness :
  exists entry,
    Index.tally Api.config
      [purchaseRow "spus"; dividendRow "SPUS"; dividendRow "SPUS"]
    = [("SPUS", entry)] /\
    Index.otherCount entry = 2%nat /\
    Index.otherTypes entry = ["Dividend"].
Proof.
  eexists. split; [vm_compute; reflexivity|].
  split.
  - apply (other_types_are_counted_and_listed_once sampleHost Api.config
             [purchaseRow "spus"; dividendRow "SPUS"; dividendRow "SPUS"]
             "SPUS").
    vm_compute. left.
  - reflexivity.
Defined.
